(** * Prediction and explanation pipeline: model manager and model explainer

    A shallow embedding of [Backend/AI/model_manager.py] and
    [Backend/AI/explainability.py].

    Python floats are IEEE binary64 numbers, embedded as Rocq's primitive
    floats.  Python dictionaries with a fixed set of literal keys are records;
    dictionaries looked up by a computed key ([self.scalers],
    [self.shap_explainers], [self.lime_explainers]) are [gmap string _].
    Objects of the numerical libraries (fitted scalers, trained models,
    explainers) are records holding their methods as functions; every call
    may raise.  The wall clock and the state of the random generator are
    explicit arguments. *)

From Stdlib Require Import ZArith QArith Qabs Floats Ascii String.
From Stdlib Require Import Sorted.
From Stdlib Require OrderedTypeEx.
From stdpp Require Import gmap strings list pretty.

Open Scope string_scope.
Open Scope Z_scope.

(* Decimal literals such as 0.95 denote the nearest binary64 number, as they
   do in Python. *)
Set Warnings "-inexact-float".

(* ===================================================================== *)
(** * Python runtime *)
(* ===================================================================== *)

Module Py.

(** Exceptions the modelled code raises itself or lets through.
    [LibraryError] is any exception raised inside a library call. *)
Inductive exn :=
| ValueError (msg : string)
| KeyError (key : string)
| IndexError (msg : string)
| TypeError (msg : string)
| LibraryError (msg : string).

(** [str(e)]; for a [KeyError] it is the [repr] of the key. *)
Definition exn_str (e : exn) : string :=
  match e with
  | ValueError m | IndexError m | TypeError m | LibraryError m => m
  | KeyError k => "'" ++ k ++ "'"
  end.

Inductive result (A : Type) :=
| OK (a : A)
| Raise (e : exn).
Arguments OK {A} a.
Arguments Raise {A} e.

Definition bind {A B} (m : result A) (k : A -> result B) : result B :=
  match m with
  | OK a => k a
  | Raise e => Raise e
  end.

(** [try: body  except Exception as e: handler(e)]. *)
Definition try_except {A} (body : result A) (handler : exn -> A) : A :=
  match body with
  | OK a => a
  | Raise e => handler e
  end.

(** [d[key]] on a dictionary. *)
Definition getitem {V} (d : gmap string V) (key : string) : result V :=
  match d !! key with
  | Some v => OK v
  | None => Raise (KeyError key)
  end.

(** [l[i]] on a list, with Python's negative indices. *)
Definition index {A} (l : list A) (i : Z) : result A :=
  let n := Z.of_nat (length l) in
  let j := if i <? 0 then i + n else i in
  if (j <? 0) || (n <=? j) then Raise (IndexError "list index out of range")
  else match l !! Z.to_nat j with
       | Some a => OK a
       | None => Raise (IndexError "list index out of range")
       end.

(** [l[:stop]]. *)
Definition slice_to {A} (l : list A) (stop : Z) : list A :=
  if stop <? 0 then take (Z.to_nat (Z.of_nat (length l) + stop)) l
  else take (Z.to_nat stop) l.

(** [l[start:stop]] for non-negative bounds. *)
Definition slice {A} (l : list A) (start stop : nat) : list A :=
  take (stop - start) (drop start l).

(** [s.split(' ')[0]]: the text before the first blank; all of [s] when it
    has none. *)
Fixpoint split_first (s : string) : string :=
  match s with
  | EmptyString => EmptyString
  | String c r => if Ascii.eqb c " "%char then EmptyString
                  else String c (split_first r)
  end.

(** [sep.join(l)]. *)
Fixpoint join (sep : string) (l : list string) : string :=
  match l with
  | [] => ""
  | [s] => s
  | s :: r => s ++ sep ++ join sep r
  end.

(** [str(n)] of a non-negative integer. *)
Definition str_nat (n : nat) : string := pretty n.

(** [max(xs)] of a non-empty sequence of floats: the running maximum is
    replaced when an item is greater. *)
Definition keep_greater (m y : float) : float :=
  if PrimFloat.ltb m y then y else m.

Definition max_floats (xs : list float) : result float :=
  match xs with
  | [] => Raise (ValueError "max() arg is an empty sequence")
  | x :: r => OK (fold_left keep_greater r x)
  end.

(** Two-argument [max(a, b)] and [min(a, b)]: the first argument is kept
    unless the second one is greater (smaller). *)
Definition max2 (a b : float) : float := if PrimFloat.ltb a b then b else a.
Definition min2 (a b : float) : float := if PrimFloat.ltb b a then b else a.

(** [l.sort(key=key, reverse=True)]: a stable sort, greatest key first; items
    with equal keys keep their order.  An item is placed in front of the
    first item of the sorted rest whose key is not greater than its own.
    (The order Python gives to keys that are NaN depends on the sorting
    algorithm and is not captured.) *)
Fixpoint insert_by {A} (key : A -> float) (x : A) (l : list A) : list A :=
  match l with
  | [] => [x]
  | y :: r => if PrimFloat.ltb (key x) (key y) then y :: insert_by key x r
              else x :: l
  end.

Definition sort_reverse {A} (key : A -> float) (l : list A) : list A :=
  foldr (insert_by key) [] l.

End Py.

Import Py.

#[global] Instance result_bind : MBind result := fun A B k m => Py.bind m k.
#[global] Instance result_ret : MRet result := fun A a => OK a.

(* ===================================================================== *)
(** * NumPy arrays *)
(* ===================================================================== *)

Module Np.

(** An array of floats: its shape and its elements in row-major order. *)
Record ndarray := { shape : list nat; data : list float }.

(** [np.array(v)] of a flat list. *)
Definition vector (v : list float) : ndarray :=
  {| shape := [length v]; data := v |}.

(** [np.array(rows)] of [k] rows of [n] columns. *)
Definition matrix (k n : nat) (flat : list float) : ndarray :=
  {| shape := [k; n]; data := flat |}.

(** [a.shape[-1]]; the shape of a zero-dimensional array is the empty
    tuple. *)
Definition shape_last (a : ndarray) : result nat :=
  match last (shape a) with
  | Some n => OK n
  | None => Raise (IndexError "tuple index out of range")
  end.

Definition isnan (a : ndarray) : list bool := map PrimFloat.is_nan (data a).
Definition isinf (a : ndarray) : list bool := map PrimFloat.is_infinity (data a).
Definition any (bs : list bool) : bool := existsb id bs.

End Np.

(* ===================================================================== *)
(** * model_manager.py *)
(* ===================================================================== *)

(** [datetime.utcnow().isoformat()], read from the wall clock by the caller. *)
Definition timestamp := string.

Module ModelManager.

Import Np.

(** A fitted [StandardScaler]: [transform] maps one row to one row. *)
Record Scaler := { transform : list float -> result (list float) }.

(** The trained models, by their methods on one (scaled) row; [predict]
    and the like return the entry [[0]] of the library's answer. *)
Record Regressor := { reg_predict : list float -> result float }.

Record Classifier := {
  clf_predict : list float -> result Z;
  predict_proba : list float -> result (list float)
}.

Record Detector := {
  det_predict : list float -> result Z;
  decision_function : list float -> result float
}.

(** [self.models]: each of its three keys is present or not. *)
Record Models := {
  rul_predictor : option Regressor;
  failure_classifier : option Classifier;
  anomaly_detector : option Detector
}.

Record t := {
  models : Models;
  scalers : gmap string Scaler
}.

Record RulMetadata := {
  rul_model_type : string;
  prediction_confidence : float;
  risk_level : string;
  rul_timestamp : timestamp
}.

Record FailureMetadata := {
  failure_model_type : string;
  probabilities : list (string * float);
  failure_confidence : float;
  failure_timestamp : timestamp
}.

Record AnomalyMetadata := {
  anomaly_model_type : string;
  anomaly_score : float;
  threshold : float;
  anomaly_confidence : float;
  anomaly_timestamp : timestamp
}.

Definition classes : list string := ["Low Risk"; "Medium Risk"; "High Risk"].

(** [ModelManager.predict_rul].  [sensor_data.reshape(1, -1)] is the row of
    all elements of the array.  The arithmetic of the confidence is done in
    binary64. *)
Definition predict_rul (self : t) (now : timestamp) (sensor_data : ndarray)
  : result (float * RulMetadata) :=
  match rul_predictor (models self) with
  | None => Raise (ValueError "RUL model not available")
  | Some model =>
    scaler ← getitem (scalers self) "rul_scaler";
    scaled_data ← transform scaler (data sensor_data);
    rul_prediction ← reg_predict model scaled_data;
    let risk :=
      if PrimFloat.ltb rul_prediction 30 then "High"
      else if PrimFloat.ltb rul_prediction 100 then "Medium"
      else "Low" in
    OK (rul_prediction,
        {| rul_model_type := "XGBoost";
           prediction_confidence :=
             min2 0.95 (max2 0.6 (1.0 - abs (rul_prediction - 100) / 200))%float;
           risk_level := risk;
           rul_timestamp := now |})
  end.

(** [{classes[i]: float(prob) for i, prob in enumerate(risk_probabilities)}],
    in insertion order. *)
Fixpoint probabilities_dict (i : Z) (probs : list float)
  : result (list (string * float)) :=
  match probs with
  | [] => OK []
  | prob :: rest =>
    c ← index classes i;
    d ← probabilities_dict (i + 1) rest;
    OK ((c, prob) :: d)
  end.

(** [ModelManager.predict_failure_risk]. *)
Definition predict_failure_risk (self : t) (now : timestamp) (sensor_data : ndarray)
  : result (string * FailureMetadata) :=
  match failure_classifier (models self) with
  | None => Raise (ValueError "Failure classification model not available")
  | Some model =>
    scaler ← getitem (scalers self) "failure_scaler";
    scaled_data ← transform scaler (data sensor_data);
    risk_prediction ← clf_predict model scaled_data;
    risk_probabilities ← predict_proba model scaled_data;
    risk_class ← index classes risk_prediction;
    probs ← probabilities_dict 0 risk_probabilities;
    confidence ← max_floats risk_probabilities;
    OK (risk_class,
        {| failure_model_type := "LightGBM";
           probabilities := probs;
           failure_confidence := confidence;
           failure_timestamp := now |})
  end.

(** [ModelManager.detect_anomaly]. *)
Definition detect_anomaly (self : t) (now : timestamp) (sensor_data : ndarray)
  : result (bool * AnomalyMetadata) :=
  match anomaly_detector (models self) with
  | None => Raise (ValueError "Anomaly detection model not available")
  | Some model =>
    scaler ← getitem (scalers self) "anomaly_scaler";
    scaled_data ← transform scaler (data sensor_data);
    anomaly_prediction ← det_predict model scaled_data;
    score ← decision_function model scaled_data;
    let is_anomaly := anomaly_prediction =? -1 in
    OK (is_anomaly,
        {| anomaly_model_type := "Isolation Forest";
           anomaly_score := score;
           threshold := 0.0%float;
           anomaly_confidence := abs score;
           anomaly_timestamp := now |})
  end.

(** [ModelManager.validate_input_data]. *)
Definition validate_input_data (data : ndarray) : result bool :=
  n ← shape_last data;
  if negb (n =? 24)%nat then
    Raise (ValueError ("Expected 24 features, got " ++ str_nat n))
  else if any (isnan data) || any (isinf data) then
    Raise (ValueError "Input data contains NaN or infinite values")
  else OK true.

End ModelManager.

(* ===================================================================== *)
(** * explainability.py *)
(* ===================================================================== *)

Module ModelExplainer.

Import Np.

(** ** What the explanation libraries hand back *)

(** [base_values[0]] of an additive explanation: a number for a model with
    one output, an array with one entry per output otherwise. *)
Inductive base_value_t :=
| Scalar (x : float)
| Vector (xs : list float).

(** [values[0]]: one contribution per feature, or one row of per-output
    contributions per feature. *)
Inductive values_t :=
| Values1 (v : list float)
| Values2 (rows : list (list float)).

(** The answer of [explainer(scaled_data)]: an object with [.values] and
    possibly [.base_values], or a bare sequence indexed with [[0]]. *)
Inductive shap_values_t :=
| Explanation (values0 : values_t) (base_values0 : option base_value_t)
| Bare (first : values_t).

Record ShapExplainer := { shap_call : list float -> result shap_values_t }.

(** The state of NumPy's global random generator. *)
Record RandomState := { key : list Z; pos : nat }.

(** A [LimeTabularExplainer] explanation: [as_list()] and [predict_proba]. *)
Record LimeExplanation := {
  as_list : list (string * float);
  lime_predict_proba : list float
}.

(** [explain_instance(data_row, predict_fn, num_features=n)].  The explainer
    was built without a [random_state], so it samples the neighbourhood from
    the global generator and leaves it advanced. *)
Record LimeExplainer := {
  explain_instance :
    RandomState -> list float ->
    (list (list float) -> result (list (list float))) -> Z ->
    result LimeExplanation * RandomState
}.

(** ** The explainer object *)

Record t := {
  model_manager : ModelManager.t;
  shap_explainers : gmap string ShapExplainer;
  lime_explainers : gmap string LimeExplainer
}.

(** [ModelExplainer._get_feature_names]; [self.feature_names] is its value. *)
Definition feature_names : list string :=
  map (fun i => "setting_" ++ str_nat i) (seq 1 3) ++
  map (fun i => "sensor_" ++ str_nat i) (seq 1 21).

(** ** Explanation dictionaries *)

Record ShapFeature := {
  shap_feature : string;
  shap_value : float;
  shap_abs_importance : float;
  shap_impact : string
}.

Record LimeFeature := {
  lime_feature : string;
  importance : float;
  lime_abs_importance : float;
  lime_impact : string
}.

Record ShapDict := {
  shap_model_type : string;
  base_value : float;
  shap_feature_importance : list ShapFeature;
  total_features : nat;
  shap_explanation_type : string;
  shap_summary : string
}.

Record LimeDict := {
  lime_model_type : string;
  lime_feature_importance : list LimeFeature;
  local_prediction : float;
  lime_explanation_type : string;
  lime_summary : string
}.

(** The dictionary returned by an [except] branch. *)
Record ErrorDict := {
  error : string;
  error_model_type : string;
  error_explanation_type : string
}.

(** What an explanation method returns: its dictionary, or the error one. *)
Inductive explanation (D : Type) :=
| Explained (d : D)
| Failed (e : ErrorDict).
Arguments Explained {D} d.
Arguments Failed {D} e.

(** ['error' in d]. *)
Definition has_error {D} (x : explanation D) : bool :=
  match x with Explained _ => false | Failed _ => true end.

(** ** Helpers for NumPy values *)

(** [float(x)] of a NumPy value: a scalar converts, an array with an axis
    does not.  (NumPy releases before 2.4 word the error differently and
    still convert an array of one element, with a deprecation warning; no
    statement below depends on the wording or on one-element arrays.) *)
Definition to_float (x : base_value_t) : result float :=
  match x with
  | Scalar v => OK v
  | Vector _ =>
    Raise (TypeError "only 0-dimensional arrays can be converted to Python scalars")
  end.

(** [values[:, j]]. *)
Fixpoint column (j : nat) (rows : list (list float)) : result (list float) :=
  match rows with
  | [] => OK []
  | row :: rest =>
    match row !! j with
    | None => Raise (IndexError "index is out of bounds for axis 1")
    | Some v => r ← column j rest; OK (v :: r)
    end
  end.

(** ** Summaries *)

(** [ModelExplainer._generate_shap_summary]. *)
Definition _generate_shap_summary (top_features : list ShapFeature) : string :=
  match top_features with
  | [] => "No significant features identified."
  | top_feature :: _ =>
    let impact_word :=
      if String.eqb (shap_impact top_feature) "positive" then "increases"
      else "decreases" in
    let summary :=
      "The most influential factor is " ++ shap_feature top_feature ++
      ", which " ++ impact_word ++ " the prediction. " in
    if (1 <? length top_features)%nat then
      let other_features := map shap_feature (slice top_features 1 3) in
      summary ++ "Other important factors include " ++
      join ", " other_features ++ "."
    else summary
  end.

(** [ModelExplainer._generate_lime_summary]. *)
Definition _generate_lime_summary (top_features : list LimeFeature) : string :=
  match top_features with
  | [] => "No significant local features identified."
  | top_feature :: _ =>
    let impact_word :=
      if String.eqb (lime_impact top_feature) "positive" then "increases"
      else "decreases" in
    "For this specific instance, " ++ lime_feature top_feature ++ " " ++
    impact_word ++ " the prediction the most."
  end.

(** ** Additive explanations *)

Definition shap_record (fv : string * float) : ShapFeature :=
  let '(feature, value) := fv in
  {| shap_feature := feature;
     shap_value := value;
     shap_abs_importance := abs value;
     shap_impact := if PrimFloat.ltb 0 value then "positive" else "negative" |}.

(** "Process SHAP values": the contributions of the first row and its base
    value, 0 when the answer carries none. *)
Definition process_shap_values (shap_values : shap_values_t)
  : values_t * base_value_t :=
  match shap_values with
  | Explanation v (Some b) => (v, b)
  | Explanation v None => (v, Scalar 0)
  | Bare v => (v, Scalar 0)
  end.

(** "Handle multi-class output": [values[:, 1]] when [values] has more than
    one axis. *)
Definition handle_multi_class (values : values_t) : result (list float) :=
  match values with
  | Values2 rows => column 1 rows
  | Values1 v => OK v
  end.

(** The [try] block of [ModelExplainer.get_shap_explanation]. *)
Definition shap_explanation_body (self : t) (model_type : string)
    (input_data : ndarray) (max_display : Z) : result ShapDict :=
  if negb (bool_decide (is_Some (shap_explainers self !! model_type))) then
    Raise (ValueError ("SHAP explainer not available for " ++ model_type))
  else
    let scaler_key := model_type ++ "_scaler" in
    scaled_data ←
      match ModelManager.scalers (model_manager self) !! scaler_key with
      | Some scaler => ModelManager.transform scaler (data input_data)
      | None => OK (data input_data)
      end;
    explainer ← getitem (shap_explainers self) model_type;
    shap_values ← shap_call explainer scaled_data;
    let '(values, base) := process_shap_values shap_values in
    values ← handle_multi_class values;
    let feature_importance :=
      sort_reverse shap_abs_importance
        (map shap_record (zip feature_names values)) in
    base ← to_float base;
    OK {| shap_model_type := model_type;
          base_value := base;
          shap_feature_importance := slice_to feature_importance max_display;
          total_features := length feature_names;
          shap_explanation_type := "SHAP";
          shap_summary := _generate_shap_summary (slice_to feature_importance 5) |}.

(** [ModelExplainer.get_shap_explanation]. *)
Definition get_shap_explanation (self : t) (model_type : string)
    (input_data : ndarray) (max_display : Z) : explanation ShapDict :=
  try_except
    (d ← shap_explanation_body self model_type input_data max_display;
     OK (Explained d))
    (fun e => Failed {| error := exn_str e;
                        error_model_type := model_type;
                        error_explanation_type := "SHAP" |}).

(** ** Surrogate explanations *)

Section Surrogate.

(** [np.exp]. *)
Variable np_exp : float -> float.

(** The function [predict_fn] that [get_lime_explanation] defines for the
    explainer; [X] is the array of perturbed rows. *)
Definition predict_fn (self : t) (now : timestamp) (model_type : string)
    (X : list (list float)) : result (list (list float)) :=
  if String.eqb model_type "rul" then
    mapM (fun x =>
            '(pred, _) ← ModelManager.predict_rul (model_manager self) now (vector x);
            let prob := (1.0 / (1.0 + np_exp (- pred / 100)))%float in
            OK [(1 - prob)%float; prob]) X
  else
    mapM (fun x =>
            '(_, metadata) ←
              ModelManager.predict_failure_risk (model_manager self) now (vector x);
            OK (map snd (ModelManager.probabilities metadata))) X.

Definition lime_record (fi : string * float) : LimeFeature :=
  let '(feature, imp) := fi in
  {| lime_feature := feature;
     importance := imp;
     lime_abs_importance := abs imp;
     lime_impact := if PrimFloat.ltb 0 imp then "positive" else "negative" |}.

(** What [get_lime_explanation] does with the explanation it obtained. *)
Definition lime_process (model_type : string) (e : LimeExplanation)
  : result LimeDict :=
  let lime_features :=
    sort_reverse lime_abs_importance (map lime_record (as_list e)) in
  local ←
    (if (1 <? length (lime_predict_proba e))%nat
     then index (lime_predict_proba e) 1
     else index (lime_predict_proba e) 0);
  OK {| lime_model_type := model_type;
        lime_feature_importance := lime_features;
        local_prediction := local;
        lime_explanation_type := "LIME";
        lime_summary := _generate_lime_summary (slice_to lime_features 3) |}.

(** The [try] block of [ModelExplainer.get_lime_explanation], with the
    generator state it leaves. *)
Definition lime_explanation_body (self : t) (rng : RandomState) (now : timestamp)
    (input_data : ndarray) (model_type : string) (num_features : Z)
  : result LimeDict * RandomState :=
  match lime_explainers self !! "tabular" with
  | None => (Raise (ValueError "LIME explainer not available"), rng)
  | Some explainer =>
    let '(r, rng') :=
      explain_instance explainer rng (data input_data)
        (predict_fn self now model_type) num_features in
    (e ← r; lime_process model_type e, rng')
  end.

(** [ModelExplainer.get_lime_explanation]. *)
Definition get_lime_explanation (self : t) (rng : RandomState) (now : timestamp)
    (input_data : ndarray) (model_type : string) (num_features : Z)
  : explanation LimeDict * RandomState :=
  let '(r, rng') :=
    lime_explanation_body self rng now input_data model_type num_features in
  (try_except (d ← r; OK (Explained d))
     (fun e => Failed {| error := exn_str e;
                         error_model_type := model_type;
                         error_explanation_type := "LIME" |}),
   rng').

(** ** Combined analysis *)

(** [d.get('feature_importance', [])]. *)
Definition feature_importance_of {D F} (field : D -> list F) (d : explanation D)
  : list F :=
  match d with
  | Explained x => field x
  | Failed _ => []
  end.

Definition shap_top5 (d : explanation ShapDict) : gset string :=
  list_to_set
    (map shap_feature
       (slice_to (feature_importance_of shap_feature_importance d) 5)).

Definition lime_top5 (d : explanation LimeDict) : gset string :=
  list_to_set
    (map (fun f => split_first (lime_feature f))
       (slice_to (feature_importance_of lime_feature_importance d) 5)).

(** [ModelExplainer._find_consensus_features]; nothing in its [try] block
    can raise on dictionaries of these types. *)
Definition _find_consensus_features (shap_rul shap_failure : explanation ShapDict)
    (lime_exp : explanation LimeDict) : list string :=
  let shap_rul_features := shap_top5 shap_rul in
  let shap_failure_features := shap_top5 shap_failure in
  let lime_features := lime_top5 lime_exp in
  elements (shap_rul_features ∩ shap_failure_features ∩ lime_features).

Record CombinedAnalysis := {
  shap_rul : explanation ShapDict;
  shap_failure : explanation ShapDict;
  lime_local : explanation LimeDict;
  consensus_features : list string;
  analysis_timestamp : timestamp
}.

(** [ModelExplainer.get_feature_impact_analysis].  [now] is the clock the
    nested predictions read, [analysis_now] is [pd.Timestamp.now()].  The
    three calls return dictionaries and never raise, so the outer [except]
    branch is not reached. *)
Definition get_feature_impact_analysis (self : t) (rng : RandomState)
    (now analysis_now : timestamp) (input_data : ndarray)
  : CombinedAnalysis * RandomState :=
  let shap_rul := get_shap_explanation self "rul" input_data 10 in
  let shap_failure := get_shap_explanation self "failure" input_data 10 in
  let '(lime_explanation, rng') :=
    get_lime_explanation self rng now input_data "failure" 10 in
  ({| shap_rul := shap_rul;
      shap_failure := shap_failure;
      lime_local := lime_explanation;
      consensus_features :=
        _find_consensus_features shap_rul shap_failure lime_explanation;
      analysis_timestamp := analysis_now |},
   rng').

End Surrogate.

End ModelExplainer.

(* ===================================================================== *)
(** * Vocabulary of the properties *)
(* ===================================================================== *)

Module Props.

Import Np.

(** A schema error is the [ValueError] that validation raises. *)
Definition SchemaError {A} (r : result A) : Prop :=
  exists msg, r = Raise (ValueError msg).

(** Neither NaN nor an infinity. *)
Definition finite (x : float) : Prop :=
  is_nan x = false /\ is_infinity x = false.

(** [sum(xs)], left to right from 0. *)
Definition sum_floats (xs : list float) : float :=
  fold_left PrimFloat.add xs 0%float.

(** [abs(sum(xs) - 1) <= 1e-6]. *)
Definition sums_to_one (xs : list float) : bool :=
  PrimFloat.leb (abs (sum_floats xs - 1)) 1e-6.

(** The position of the first greatest entry, as [np.argmax] gives it for
    entries that are not NaN. *)
Fixpoint argmax_from (best : float) (best_i i : nat) (xs : list float) : nat :=
  match xs with
  | [] => best_i
  | y :: r => if PrimFloat.ltb best y then argmax_from y i (S i) r
              else argmax_from best best_i (S i) r
  end.

Definition argmax (xs : list float) : nat :=
  match xs with
  | [] => 0
  | x :: r => argmax_from x 0 1 r
  end.

(** The rational number a finite binary64 number stands for (0 for the
    others). *)
Definition SF2Q (x : spec_float) : Q :=
  match x with
  | S754_finite s m e =>
    inject_Z (if s then Z.neg m else Z.pos m) * Qpower 2 e
  | _ => 0
  end.

Definition F2Q (x : float) : Q := SF2Q (Prim2SF x).

(** The exact sum of a list of floats. *)
Definition exact_sum (xs : list float) : Q :=
  fold_right Qplus 0%Q (map F2Q xs).

(** Local accuracy: contributions plus base value reconstruct the output
    [out] within [tol], the sum being the exact one. *)
Definition additive (tol : Q) (contributions : list float) (base out : float)
  : Prop :=
  (Qabs (exact_sum contributions + F2Q base - F2Q out) <= tol)%Q.

(** The (feature, contribution) pairs of an additive explanation. *)
Definition contributions (d : ModelExplainer.ShapDict) : list (string * float) :=
  map (fun f => (ModelExplainer.shap_feature f, ModelExplainer.shap_value f))
      (ModelExplainer.shap_feature_importance d).

(** [s.split(' ')]. *)
Fixpoint tokens_from (cur : string) (s : string) : list string :=
  match s with
  | EmptyString => [cur]
  | String c r =>
    if Ascii.eqb c " "%char then cur :: tokens_from "" r
    else tokens_from (cur ++ String c EmptyString) r
  end.

Definition tokens (s : string) : list string := tokens_from "" s.

(** The feature a surrogate record is about: the explainer describes the
    bin the value falls in, as [name <= b], [a < name <= b] or [name > a];
    the feature is the token that is a feature name. *)
Definition described_features (description : string) : list string :=
  filter (fun tok => tok ∈ ModelExplainer.feature_names) (tokens description).

(** The features named by the first five records of a surrogate
    explanation. *)
Definition lime_top5_features (d : ModelExplainer.explanation ModelExplainer.LimeDict)
  : gset string :=
  list_to_set
    (concat
       (map (fun f => described_features (ModelExplainer.lime_feature f))
          (slice_to
             (ModelExplainer.feature_importance_of
                ModelExplainer.lime_feature_importance d) 5))).

(** The consensus over the methods that succeeded only: the intersection
    of the top-5 sets of the explanations that are not error dictionaries. *)
Definition consensus_of_succeeded
    (shap_rul shap_failure : ModelExplainer.explanation ModelExplainer.ShapDict)
    (lime_exp : ModelExplainer.explanation ModelExplainer.LimeDict)
  : option (gset string) :=
  let succeeded {D} (d : ModelExplainer.explanation D) (top5 : gset string) :=
    if ModelExplainer.has_error d then [] else [top5] in
  let sets :=
    (succeeded shap_rul (ModelExplainer.shap_top5 shap_rul) ++
     succeeded shap_failure (ModelExplainer.shap_top5 shap_failure) ++
     succeeded lime_exp (ModelExplainer.lime_top5 lime_exp))%list in
  match sets with
  | [] => None
  | s :: rest => Some (foldr (∩) s rest)
  end.

End Props.

(* ===================================================================== *)
(** * Concrete models and explainers for the closed examples *)
(* ===================================================================== *)

Module Fixtures.

Import Np Props.
Import ModelManager ModelExplainer.

(** The vector (1, 2, ..., 24) and the all-ones vector. *)
Definition ramp : list float :=
  [1; 2; 3; 4; 5; 6; 7; 8; 9; 10; 11; 12;
   13; 14; 15; 16; 17; 18; 19; 20; 21; 22; 23; 24]%float.

Definition ones : list float := replicate 24 1%float.

Definition zeros : list float := replicate 24 0%float.

(** The all-ones vector with NaN at index 5. *)
Definition nan_at_5 : list float := <[5%nat := nan]> ones.

(** A scaler that leaves rows as they are. *)
Definition unit_scaler : Scaler := {| transform := fun row => OK row |}.

(** A linear regressor: 100 plus the sum of the row. *)
Definition linear_regressor : Regressor :=
  {| reg_predict := fun row => OK (sum_floats row + 100)%float |}.

(** A classifier answering (0.2, 0.3, 0.5) and the class of index 2. *)
Definition fixed_classifier : Classifier :=
  {| clf_predict := fun _ => OK 2;
     predict_proba := fun _ => OK [0.2; 0.3; 0.5]%float |}.

(** A detector scoring every row -0.25, hence labelling it -1. *)
Definition fixed_detector : Detector :=
  {| det_predict := fun _ => OK (-1);
     decision_function := fun _ => OK (-0.25)%float |}.

Definition manager : ModelManager.t :=
  {| models := {| rul_predictor := Some linear_regressor;
                  failure_classifier := Some fixed_classifier;
                  anomaly_detector := Some fixed_detector |};
     scalers := {[ "rul_scaler" := unit_scaler;
                   "failure_scaler" := unit_scaler;
                   "anomaly_scaler" := unit_scaler ]} |}.

(** The exact additive explanation of [linear_regressor] against an
    all-zero background: each contribution is the feature's value, the base
    value is 100. *)
Definition linear_shap : ShapExplainer :=
  {| shap_call := fun row => OK (Explanation (Values1 row) (Some (Scalar 100))) |}.

(** Per-class contributions of a three-class model: feature number [i] has
    the row (-3i, i, 2i) for (Low, Medium, High). *)
Definition class_rows : list (list float) :=
  map (fun v => [-3 * v; v; 2 * v]%float) ramp.

(** An explainer of the three-class model with one base value per class. *)
Definition class_shap : ShapExplainer :=
  {| shap_call := fun _ =>
       OK (Explanation (Values2 class_rows) (Some (Vector [0.5; 0.3; 0.2]%float))) |}.

(** A surrogate explainer that queries the model once and whose weight for
    its single record depends on the position of the generator, which it
    advances. *)
Definition sampling_lime : LimeExplainer :=
  {| explain_instance := fun rng row predict n =>
       (probs ← predict [row];
        OK {| as_list :=
                [("sensor_21 > 0.67",
                  if Nat.even (pos rng) then 0.5 else -0.5)%float];
              lime_predict_proba := default [] (head probs) |},
        {| key := key rng; pos := S (pos rng) |}) |}.

Definition seeded : RandomState := {| key := [42]; pos := 0 |}.

(** Every explainer attached. *)
Definition explainer : ModelExplainer.t :=
  {| model_manager := manager;
     shap_explainers := {[ "rul" := linear_shap; "failure" := class_shap ]};
     lime_explainers := {[ "tabular" := sampling_lime ]} |}.

(** The additive explainer of the failure model never attached. *)
Definition degraded_explainer : ModelExplainer.t :=
  {| model_manager := manager;
     shap_explainers := {[ "rul" := linear_shap ]};
     lime_explainers := {[ "tabular" := sampling_lime ]} |}.

(** A classifier of two classes, which is what [LGBMClassifier.fit] gives
    when only the labels 0 and 1 occur among the training targets: it
    answers (0.75, 0.25) and the class of index 0. *)
Definition binary_classifier : Classifier :=
  {| clf_predict := fun _ => OK 0;
     predict_proba := fun _ => OK [0.75; 0.25]%float |}.

Definition binary_manager : ModelManager.t :=
  {| models := {| rul_predictor := Some linear_regressor;
                  failure_classifier := Some binary_classifier;
                  anomaly_detector := Some fixed_detector |};
     scalers := {[ "rul_scaler" := unit_scaler;
                   "failure_scaler" := unit_scaler;
                   "anomaly_scaler" := unit_scaler ]} |}.

(** The additive explanation of a two-class model: one contribution per
    feature and one base value. *)
Definition binary_shap : ShapExplainer :=
  {| shap_call := fun row =>
       OK (Explanation (Values1 row) (Some (Scalar (-1.5)%float))) |}.

(** Every explainer attached, the failure model having two classes. *)
Definition binary_explainer : ModelExplainer.t :=
  {| model_manager := binary_manager;
     shap_explainers := {[ "rul" := linear_shap; "failure" := binary_shap ]};
     lime_explainers := {[ "tabular" := sampling_lime ]} |}.

(** A truncated series for the exponential, in place of [np.exp]. *)
Definition exp_series (x : float) : float :=
  fold_right (fun k acc => 1 + x * acc / k)%float 1%float
    [1; 2; 3; 4; 5; 6; 7; 8; 9; 10; 11; 12]%float.

(** Three explanations that all rank sensor_2 first and sensor_7 second;
    the surrogate describes sensor_2 by a two-sided bin. *)
Definition rul_ranking : explanation ShapDict :=
  Explained
    {| shap_model_type := "rul";
       base_value := 100;
       shap_feature_importance :=
         map shap_record [("sensor_2", -5); ("sensor_7", -4)]%float;
       total_features := 24;
       shap_explanation_type := "SHAP";
       shap_summary := "" |}.

Definition failure_ranking : explanation ShapDict :=
  Explained
    {| shap_model_type := "failure";
       base_value := 0;
       shap_feature_importance :=
         map shap_record [("sensor_2", 3); ("sensor_7", 2)]%float;
       total_features := 24;
       shap_explanation_type := "SHAP";
       shap_summary := "" |}.

Definition surrogate_ranking : explanation LimeDict :=
  Explained
    {| lime_model_type := "failure";
       lime_feature_importance :=
         map lime_record
           [("0.31 < sensor_2 <= 0.95", 0.4); ("sensor_7 > 0.67", 0.3)]%float;
       local_prediction := 0.5;
       lime_explanation_type := "LIME";
       lime_summary := "" |}.

End Fixtures.

(* ===================================================================== *)
(** * model_manager.py: loading and status *)
(* ===================================================================== *)

Module ModelLoading.

Import ModelManager.

(** An entry of [self.model_info]: the description stored after a
    successful load, or the error stored by the [except] branch. *)
Inductive ModelInfo :=
| Loaded (type purpose : string) (class_names : option (list string))
         (features : nat) (loaded_at : timestamp)
| LoadError (error : string).

(** [m.get('status')]. *)
Definition status (m : ModelInfo) : string :=
  match m with
  | Loaded _ _ _ _ _ => "ready"
  | LoadError _ => "error"
  end.

(** The functions of [pretrained_models] that train a model and fit its
    scaler; importing or running them may raise. *)
Record Factories := {
  create_rul_model : result (Regressor * Scaler);
  create_failure_model : result (Classifier * Scaler);
  create_anomaly_model : result (Detector * Scaler)
}.

(** The attributes of a [ModelManager] object. *)
Record Object := {
  manager : ModelManager.t;
  model_info : gmap string ModelInfo
}.

(** The attributes as [__init__] sets them before loading. *)
Definition empty : Object :=
  {| manager := {| models := {| rul_predictor := None;
                                failure_classifier := None;
                                anomaly_detector := None |};
                   scalers := ∅ |};
     model_info := ∅ |}.

(** [ModelManager._load_rul_model]. *)
Definition _load_rul_model (fs : Factories) (now : timestamp) (self : Object)
  : Object :=
  match create_rul_model fs with
  | OK (model, scaler) =>
    {| manager :=
         {| models := {| rul_predictor := Some model;
                         failure_classifier :=
                           failure_classifier (models (manager self));
                         anomaly_detector :=
                           anomaly_detector (models (manager self)) |};
            scalers := <["rul_scaler" := scaler]> (scalers (manager self)) |};
       model_info :=
         <["rul_predictor" :=
             Loaded "XGBoost Regressor" "Remaining Useful Life Prediction"
                    None 24 now]> (model_info self) |}
  | Raise e =>
    {| manager := manager self;
       model_info :=
         <["rul_predictor" := LoadError (exn_str e)]> (model_info self) |}
  end.

(** [ModelManager._load_failure_model]. *)
Definition _load_failure_model (fs : Factories) (now : timestamp) (self : Object)
  : Object :=
  match create_failure_model fs with
  | OK (model, scaler) =>
    {| manager :=
         {| models := {| rul_predictor := rul_predictor (models (manager self));
                         failure_classifier := Some model;
                         anomaly_detector :=
                           anomaly_detector (models (manager self)) |};
            scalers := <["failure_scaler" := scaler]> (scalers (manager self)) |};
       model_info :=
         <["failure_classifier" :=
             Loaded "LightGBM Classifier" "Failure Risk Classification"
                    (Some ["Low Risk"; "Medium Risk"; "High Risk"]) 24 now]>
           (model_info self) |}
  | Raise e =>
    {| manager := manager self;
       model_info :=
         <["failure_classifier" := LoadError (exn_str e)]> (model_info self) |}
  end.

(** [ModelManager._load_anomaly_model]. *)
Definition _load_anomaly_model (fs : Factories) (now : timestamp) (self : Object)
  : Object :=
  match create_anomaly_model fs with
  | OK (model, scaler) =>
    {| manager :=
         {| models := {| rul_predictor := rul_predictor (models (manager self));
                         failure_classifier :=
                           failure_classifier (models (manager self));
                         anomaly_detector := Some model |};
            scalers := <["anomaly_scaler" := scaler]> (scalers (manager self)) |};
       model_info :=
         <["anomaly_detector" :=
             Loaded "Isolation Forest" "Anomaly Detection" None 24 now]>
           (model_info self) |}
  | Raise e =>
    {| manager := manager self;
       model_info :=
         <["anomaly_detector" := LoadError (exn_str e)]> (model_info self) |}
  end.

(** [ModelManager._load_all_models]: the three loaders catch every
    exception themselves, so the outer [except] is not reached.  [t1], [t2]
    and [t3] are the clock readings of the three loads. *)
Definition _load_all_models (fs : Factories) (t1 t2 t3 : timestamp)
    (self : Object) : Object :=
  _load_anomaly_model fs t3 (_load_failure_model fs t2 (_load_rul_model fs t1 self)).

(** [ModelManager.__init__]. *)
Definition init (fs : Factories) (t1 t2 t3 : timestamp) : Object :=
  _load_all_models fs t1 t2 t3 empty.

(** [len(self.models)]. *)
Definition present {A} (o : option A) : nat :=
  match o with
  | Some _ => 1
  | None => 0
  end.

Definition len_models (m : Models) : nat :=
  present (rul_predictor m) + present (failure_classifier m) +
  present (anomaly_detector m).

(** [len([m for m in self.model_info.values() if m.get('status') == 'ready'])]. *)
Definition ready_count (mi : gmap string ModelInfo) : nat :=
  length (filter (fun m => status m = "ready") (snd <$> map_to_list mi)).

Record ModelsStatus := {
  status_models : gmap string ModelInfo;
  total_models : nat;
  healthy_models : nat;
  last_check : timestamp
}.

(** [ModelManager.get_models_status]. *)
Definition get_models_status (self : Object) (now : timestamp) : ModelsStatus :=
  {| status_models := model_info self;
     total_models := len_models (models (manager self));
     healthy_models := ready_count (model_info self);
     last_check := now |}.

(** 1 for a factory that answered, 0 for one that raised. *)
Definition answered {A} (r : result A) : nat :=
  match r with
  | OK _ => 1
  | Raise _ => 0
  end.

(** A manager holding the RUL model and its scaler only, and likewise for
    the other two models. *)
Definition only_rul (model : Regressor) (scaler : Scaler) : ModelManager.t :=
  {| models := {| rul_predictor := Some model;
                  failure_classifier := None;
                  anomaly_detector := None |};
     scalers := {[ "rul_scaler" := scaler ]} |}.

Definition only_failure (model : Classifier) (scaler : Scaler) : ModelManager.t :=
  {| models := {| rul_predictor := None;
                  failure_classifier := Some model;
                  anomaly_detector := None |};
     scalers := {[ "failure_scaler" := scaler ]} |}.

Definition only_anomaly (model : Detector) (scaler : Scaler) : ModelManager.t :=
  {| models := {| rul_predictor := None;
                  failure_classifier := None;
                  anomaly_detector := Some model |};
     scalers := {[ "anomaly_scaler" := scaler ]} |}.

End ModelLoading.

(* ===================================================================== *)
(** * Vocabulary for the explanation methods *)
(* ===================================================================== *)

Module ExplainProps.

Import Np ModelManager ModelExplainer.

(** The steps of [get_shap_explanation] that do not depend on the display
    count: the contributions selected for the instance and the base value,
    or the exception raised on the way. *)
Definition selected_contributions (self : ModelExplainer.t)
    (model_type : string) (input_data : ndarray) : result (list float * float) :=
  if negb (bool_decide (is_Some (shap_explainers self !! model_type))) then
    Raise (ValueError ("SHAP explainer not available for " ++ model_type))
  else
    scaled_data ←
      match scalers (model_manager self) !! (model_type ++ "_scaler") with
      | Some scaler => transform scaler (data input_data)
      | None => OK (data input_data)
      end;
    explainer ← getitem (shap_explainers self) model_type;
    shap_values ← shap_call explainer scaled_data;
    values ← handle_multi_class (process_shap_values shap_values).1;
    base ← to_float (process_shap_values shap_values).2;
    OK (values, base).

(** All the records of an explanation, ranked, before the display count
    cuts the list. *)
Definition ranked (values : list float) : list ShapFeature :=
  sort_reverse shap_abs_importance
    (map shap_record (zip feature_names values)).

(** [a] is ranked before [b]: its magnitude is not smaller. *)
Definition outranks {A} (key : A -> float) (a b : A) : Prop :=
  PrimFloat.leb (key b) (key a) = true.

End ExplainProps.

(* ===================================================================== *)
(** * explainability.py: building the explainers *)
(* ===================================================================== *)

Module ExplainerLoading.

Import Np ModelManager ModelExplainer.

(** What the construction of the explainers calls outside this module:
    the reference data of [pretrained_models] (its feature rows) and the
    constructors of the two explanation libraries.  Each may raise. *)
Record Libraries := {
  generate_synthetic_turbofan_data : nat -> result (list (list float));
  shap_Explainer_regressor :
    Regressor -> list (list float) -> result ShapExplainer;
  shap_Explainer_classifier :
    Classifier -> list (list float) -> result ShapExplainer;
  LimeTabularExplainer :
    list (list float) -> list string -> list string -> result LimeExplainer
}.

(** [self.model_manager.models[key]] for the two models explained. *)
Definition models_rul_predictor (mm : ModelManager.t) : result Regressor :=
  match rul_predictor (models mm) with
  | Some m => OK m
  | None => Raise (KeyError "rul_predictor")
  end.

Definition models_failure_classifier (mm : ModelManager.t) : result Classifier :=
  match failure_classifier (models mm) with
  | Some m => OK m
  | None => Raise (KeyError "failure_classifier")
  end.

(** The first [if] of [_init_shap_explainers]: the dictionary of explainers
    after it, or the exception that left it untouched. *)
Definition attach_rul (libs : Libraries) (mm : ModelManager.t)
    (background_data : list (list float))
    (explainers : gmap string ShapExplainer)
  : result (gmap string ShapExplainer) :=
  match scalers mm !! "rul_scaler" with
  | Some scaler =>
    rul_background ← mapM (transform scaler) background_data;
    model ← models_rul_predictor mm;
    explainer ← shap_Explainer_regressor libs model (take 100 rul_background);
    OK (<["rul" := explainer]> explainers)
  | None => OK explainers
  end.

(** The second [if]. *)
Definition attach_failure (libs : Libraries) (mm : ModelManager.t)
    (background_data : list (list float))
    (explainers : gmap string ShapExplainer)
  : result (gmap string ShapExplainer) :=
  match scalers mm !! "failure_scaler" with
  | Some scaler =>
    failure_background ← mapM (transform scaler) background_data;
    model ← models_failure_classifier mm;
    explainer ←
      shap_Explainer_classifier libs model (take 100 failure_background);
    OK (<["failure" := explainer]> explainers)
  | None => OK explainers
  end.

(** [ModelExplainer._init_shap_explainers]: one [try] around both [if]s, so
    an exception in the first skips the second, and an exception in the
    second keeps what the first attached. *)
Definition _init_shap_explainers (libs : Libraries) (mm : ModelManager.t)
    (background_data : list (list float))
    (explainers : gmap string ShapExplainer) : gmap string ShapExplainer :=
  match attach_rul libs mm background_data explainers with
  | Raise _ => explainers
  | OK with_rul =>
    match attach_failure libs mm background_data with_rul with
    | Raise _ => with_rul
    | OK with_both => with_both
    end
  end.

(** [ModelExplainer._init_lime_explainers]. *)
Definition _init_lime_explainers (libs : Libraries)
    (background_data : list (list float))
    (explainers : gmap string LimeExplainer) : gmap string LimeExplainer :=
  match LimeTabularExplainer libs background_data feature_names
          ["Low Risk"; "Medium Risk"; "High Risk"] with
  | OK explainer => <["tabular" := explainer]> explainers
  | Raise _ => explainers
  end.

(** [ModelExplainer.__init__] with [_initialize_explainers]: without the
    reference data neither kind of explainer is attempted. *)
Definition init (libs : Libraries) (mm : ModelManager.t) : ModelExplainer.t :=
  match generate_synthetic_turbofan_data libs 1000 with
  | OK background_data =>
    {| model_manager := mm;
       shap_explainers := _init_shap_explainers libs mm background_data ∅;
       lime_explainers := _init_lime_explainers libs background_data ∅ |}
  | Raise _ =>
    {| model_manager := mm; shap_explainers := ∅; lime_explainers := ∅ |}
  end.

End ExplainerLoading.

(* ===================================================================== *)
(** * The request handlers of api/ *)
(* ===================================================================== *)

(** A handler receives the parsed JSON body of the request, [None] when
    there is none, and returns [jsonify(body)] with a status code.  The
    [sensor_data] of a request is taken after [np.array], as an array of
    floats: a request whose [sensor_data] holds strings, nulls or integers
    beyond 64 bits, of which [np.array] makes an array of another type, is
    outside the embedding. *)
Module Http.

(** The JSON object answered: the payload of the handler, or an error
    object with its optional [status] entry. *)
Inductive Body (A : Type) :=
| Payload (a : A)
| ErrorBody (error : string) (status : option string).
Arguments Payload {A} a.
Arguments ErrorBody {A} error status.

Definition Response (A : Type) : Type := Body A * nat.

(** The [except ValueError] and [except Exception] clauses that close
    every handler. *)
Definition handle {A} (r : result (Response A)) : Response A :=
  match r with
  | OK response => response
  | Raise (ValueError msg) => (ErrorBody msg (Some "validation_error"), 400%nat)
  | Raise _ => (ErrorBody "Internal server error" (Some "error"), 500%nat)
  end.

(** The [except Exception] clause alone, of the batch handlers. *)
Definition handle_any {A} (r : result (Response A)) : Response A :=
  match r with
  | OK response => response
  | Raise _ => (ErrorBody "Internal server error" (Some "error"), 500%nat)
  end.

(** [jsonify(obj)] of a computed response.  The JSON provider raises
    [TypeError] on a value it cannot serialise (a NumPy scalar among the
    entries, for one); the run-time type of a number is not recorded here,
    so a handler takes the outcome of the serialisation as its argument
    [jsonify].  An error object holds strings only and is always
    serialised. *)
Definition Jsonify (A : Type) : Type := A -> result ().

Definition respond {A} (jsonify : Jsonify A) (a : A) (code : nat)
  : result (Response A) :=
  _ ← jsonify a;
  OK (Payload a, code).

(** [d[key]] on a request object, for a key that may be missing. *)
Definition required {A} (key : string) (field : option A) : result A :=
  match field with
  | Some a => OK a
  | None => Raise (KeyError key)
  end.

End Http.

(* --------------------------------------------------------------------- *)
(** ** api/prediction_api.py *)

Module PredictionApi.

Import Np Http.

(** The body of a request for one machine. *)
Record Request := {
  sensor_data : option ndarray;
  machine_id : option string
}.

Record RulPayload := {
  rul_machine_id : string;
  rul_prediction : float;
  rul_risk_level : string;
  rul_confidence : float;
  rul_model_info : string * string;
  rul_timestamp : timestamp;
  rul_status : string
}.

(** The handler [predict_rul] of [/rul]. *)
Definition predict_rul (model_manager : ModelManager.t)
    (jsonify : Jsonify RulPayload) (now : timestamp) (data : option Request)
  : Response RulPayload :=
  handle
    match data with
    | None => OK (ErrorBody "Missing sensor_data in request" None, 400%nat)
    | Some data =>
      match sensor_data data with
      | None => OK (ErrorBody "Missing sensor_data in request" None, 400%nat)
      | Some sensor_data =>
        let machine_id := default "unknown" (machine_id data) in
        _ ← ModelManager.validate_input_data sensor_data;
        '(prediction, metadata) ←
          ModelManager.predict_rul model_manager now sensor_data;
        respond jsonify
              {| rul_machine_id := machine_id;
                 rul_prediction := prediction;
                 rul_risk_level := ModelManager.risk_level metadata;
                 rul_confidence := ModelManager.prediction_confidence metadata;
                 rul_model_info := (ModelManager.rul_model_type metadata, "2.1.0");
                 rul_timestamp := ModelManager.rul_timestamp metadata;
                 rul_status := "success" |}
              200%nat
      end
    end.

Record FailurePayload := {
  failure_machine_id : string;
  risk_class : string;
  failure_probabilities : list (string * float);
  failure_confidence : float;
  failure_model_info : string * string;
  failure_timestamp : timestamp;
  failure_status : string
}.

(** The handler [predict_failure_risk] of [/failure-risk]. *)
Definition predict_failure_risk (model_manager : ModelManager.t)
    (jsonify : Jsonify FailurePayload) (now : timestamp) (data : option Request)
  : Response FailurePayload :=
  handle
    match data with
    | None => OK (ErrorBody "Missing sensor_data in request" None, 400%nat)
    | Some data =>
      match sensor_data data with
      | None => OK (ErrorBody "Missing sensor_data in request" None, 400%nat)
      | Some sensor_data =>
        let machine_id := default "unknown" (machine_id data) in
        _ ← ModelManager.validate_input_data sensor_data;
        '(class, metadata) ←
          ModelManager.predict_failure_risk model_manager now sensor_data;
        respond jsonify
              {| failure_machine_id := machine_id;
                 risk_class := class;
                 failure_probabilities := ModelManager.probabilities metadata;
                 failure_confidence := ModelManager.failure_confidence metadata;
                 failure_model_info :=
                   (ModelManager.failure_model_type metadata, "2.1.0");
                 failure_timestamp := ModelManager.failure_timestamp metadata;
                 failure_status := "success" |}
              200%nat
      end
    end.

(** The predictions made for one machine of a batch: each of the three
    entries is present when its type was requested. *)
Record Predictions := {
  rul : option (float * string * float);
  failure_risk : option (string * list (string * float) * float);
  anomaly : option (bool * float * float)
}.

(** An entry of [results]. *)
Inductive MachineResult :=
| MachineSuccess (machine_id : string) (predictions : Predictions)
| MachineError (machine_id : string) (error : string).

(** [r['status']]. *)
Definition machine_status (r : MachineResult) : string :=
  match r with
  | MachineSuccess _ _ => "success"
  | MachineError _ _ => "error"
  end.

Record BatchRequest := {
  machines : option (list Request);
  prediction_types : option (list string)
}.

Record BatchPayload := {
  results : list MachineResult;
  total_machines : nat;
  successful_predictions : nat;
  batch_timestamp : timestamp;
  batch_status : string
}.

(** The inner [try] block of [batch_predict], for one machine.  The
    timestamps of the metadata are dropped, so one reading [now] of the
    clock stands for those of the nested calls. *)
Definition machine_predictions (model_manager : ModelManager.t)
    (now : timestamp) (prediction_types : list string) (sensor_data : ndarray)
  : result Predictions :=
  _ ← ModelManager.validate_input_data sensor_data;
  rul ←
    (if bool_decide ("rul" ∈ prediction_types) then
       '(pred, meta) ← ModelManager.predict_rul model_manager now sensor_data;
       OK (Some (pred, ModelManager.risk_level meta,
                 ModelManager.prediction_confidence meta))
     else OK None);
  failure_risk ←
    (if bool_decide ("failure_risk" ∈ prediction_types) then
       '(class, meta) ←
         ModelManager.predict_failure_risk model_manager now sensor_data;
       OK (Some (class, ModelManager.probabilities meta,
                 ModelManager.failure_confidence meta))
     else OK None);
  anomaly ←
    (if bool_decide ("anomaly" ∈ prediction_types) then
       '(is_anomaly, meta) ←
         ModelManager.detect_anomaly model_manager now sensor_data;
       OK (Some (is_anomaly, ModelManager.anomaly_score meta,
                 ModelManager.anomaly_confidence meta))
     else OK None);
  OK {| rul := rul; failure_risk := failure_risk; anomaly := anomaly |}.

(** One turn of the loop of [batch_predict]: reading [sensor_data] happens
    before the inner [try], so a machine without it raises out of the
    loop. *)
Definition machine_result (model_manager : ModelManager.t) (now : timestamp)
    (prediction_types : list string) (machine : Request) : result MachineResult :=
  let machine_id := default "unknown" (machine_id machine) in
  sensor_data ← required "sensor_data" (sensor_data machine);
  OK (try_except
        (p ← machine_predictions model_manager now prediction_types sensor_data;
         OK (MachineSuccess machine_id p))
        (fun e => MachineError machine_id (exn_str e))).

(** The handler [batch_predict] of [/batch]. *)
Definition batch_predict (model_manager : ModelManager.t)
    (jsonify : Jsonify BatchPayload) (now response_now : timestamp)
    (data : option BatchRequest) : Response BatchPayload :=
  handle_any
    match data with
    | None => OK (ErrorBody "Missing machines data in request" None, 400%nat)
    | Some data =>
      match machines data with
      | None => OK (ErrorBody "Missing machines data in request" None, 400%nat)
      | Some machines =>
        let prediction_types :=
          default ["rul"; "failure_risk"] (prediction_types data) in
        results ← mapM (machine_result model_manager now prediction_types) machines;
        respond jsonify
              {| results := results;
                 total_machines := length machines;
                 successful_predictions :=
                   length (filter (fun r => machine_status r = "success") results);
                 batch_timestamp := response_now;
                 batch_status := "completed" |}
              200%nat
      end
    end.

End PredictionApi.

(* --------------------------------------------------------------------- *)
(** ** api/anomaly_api.py *)

Module AnomalyApi.

Import Np Http.

Record Request := {
  sensor_data : option ndarray;
  machine_id : option string;
  threshold : option float
}.

(** "Determine severity based on anomaly score", as the three handlers of
    this file write it. *)
Definition severity (anomaly_score : float) : string :=
  if PrimFloat.ltb 2.0 (abs anomaly_score) then "critical"
  else if PrimFloat.ltb 1.0 (abs anomaly_score) then "high"
  else if PrimFloat.ltb 0.5 (abs anomaly_score) then "medium"
  else "low".

Record DetectPayload := {
  detect_machine_id : string;
  is_anomaly : bool;
  anomaly_score : float;
  detect_severity : string;
  confidence : float;
  threshold_used : float;
  model_info : string * string;
  detect_timestamp : timestamp;
  detect_status : string
}.

(** The handler [detect_anomaly] of [/detect]. *)
Definition detect_anomaly (model_manager : ModelManager.t)
    (jsonify : Jsonify DetectPayload) (now : timestamp) (data : option Request)
  : Response DetectPayload :=
  handle
    match data with
    | None => OK (ErrorBody "Missing sensor_data in request" None, 400%nat)
    | Some data =>
      match sensor_data data with
      | None => OK (ErrorBody "Missing sensor_data in request" None, 400%nat)
      | Some sensor_data =>
        let machine_id := default "unknown" (machine_id data) in
        let threshold := default 0.5%float (threshold data) in
        _ ← ModelManager.validate_input_data sensor_data;
        '(flag, metadata) ←
          ModelManager.detect_anomaly model_manager now sensor_data;
        let score := ModelManager.anomaly_score metadata in
        respond jsonify
          {| detect_machine_id := machine_id;
             is_anomaly := flag;
             anomaly_score := score;
             detect_severity := severity score;
             confidence := ModelManager.anomaly_confidence metadata;
             threshold_used := threshold;
             model_info := (ModelManager.anomaly_model_type metadata, "2.1.0");
             detect_timestamp := ModelManager.anomaly_timestamp metadata;
             detect_status := "success" |}
          200%nat
      end
    end.

(** A data point of a batch, with its optional [timestamp]. *)
Record Point := {
  point_sensor_data : option ndarray;
  point_machine_id : option string;
  point_timestamp : option timestamp
}.

(** The readings of the clock while one point is handled: for the default
    of its [timestamp], inside [model_manager.detect_anomaly], and for
    the default of [timestamp] in the [except] clause. *)
Record PointClock := {
  at_entry : timestamp;
  at_detect : timestamp;
  at_except : timestamp
}.

(** An entry of [results]. *)
Inductive PointResult :=
| PointSuccess (machine_id : string) (time : timestamp) (is_anomaly : bool)
    (anomaly_score : float) (severity : string) (confidence : float)
| PointError (machine_id : string) (time : timestamp) (error : string).

Definition point_status (r : PointResult) : string :=
  match r with
  | PointSuccess _ _ _ _ _ _ => "success"
  | PointError _ _ _ => "error"
  end.

(** The [try] block of the loop of [batch_detect_anomalies]; reading
    [sensor_data] is its first statement. *)
Definition point_body (model_manager : ModelManager.t) (clock : PointClock)
    (point : Point) : result PointResult :=
  sensor_data ← required "sensor_data" (point_sensor_data point);
  let machine_id := default "unknown" (point_machine_id point) in
  let time := default (at_entry clock) (point_timestamp point) in
  _ ← ModelManager.validate_input_data sensor_data;
  '(flag, metadata) ←
    ModelManager.detect_anomaly model_manager (at_detect clock) sensor_data;
  let score := ModelManager.anomaly_score metadata in
  OK (PointSuccess machine_id time flag score (severity score)
        (ModelManager.anomaly_confidence metadata)).

(** One turn of the loop. *)
Definition point_result (model_manager : ModelManager.t) (clock : PointClock)
    (point : Point) : PointResult :=
  try_except (point_body model_manager clock point)
    (fun e => PointError (default "unknown" (point_machine_id point))
                         (default (at_except clock) (point_timestamp point))
                         (exn_str e)).

(** What a turn adds to [anomaly_count]. *)
Definition flagged (r : PointResult) : bool :=
  match r with
  | PointSuccess _ _ flag _ _ _ => flag
  | PointError _ _ _ => false
  end.

Record BatchRequest := {
  data_points : option (list Point);
  batch_threshold : option float
}.

Record Summary := {
  total_points : nat;
  anomalies_detected : nat;
  anomaly_rate : float;
  successful_analyses : nat
}.

Record BatchPayload := {
  results : list PointResult;
  summary : Summary;
  batch_threshold_used : float;
  analysis_timestamp : timestamp;
  batch_status : string
}.

(** [a / b] of two counts, which are below [2^53] and so convert to
    floats exactly. *)
Definition true_div (a b : nat) : float :=
  (PrimFloat.of_uint63 (Uint63.of_Z (Z.of_nat a)) /
   PrimFloat.of_uint63 (Uint63.of_Z (Z.of_nat b)))%float.

(** The handler [batch_detect_anomalies] of [/batch-detect]; [clocks i]
    holds the readings of the clock for the point at position [i]. *)
Definition batch_detect_anomalies (model_manager : ModelManager.t)
    (jsonify : Jsonify BatchPayload) (clocks : nat -> PointClock)
    (response_now : timestamp) (data : option BatchRequest)
  : Response BatchPayload :=
  handle_any
    match data with
    | None => OK (ErrorBody "Missing data_points in request" None, 400%nat)
    | Some data =>
      match data_points data with
      | None => OK (ErrorBody "Missing data_points in request" None, 400%nat)
      | Some data_points =>
        let threshold := default 0.5%float (batch_threshold data) in
        let results :=
          imap (fun i => point_result model_manager (clocks i)) data_points in
        let anomaly_count := length (filter (fun r => flagged r = true) results) in
        respond jsonify
          {| results := results;
             summary :=
               {| total_points := length data_points;
                  anomalies_detected := anomaly_count;
                  anomaly_rate :=
                    match data_points with
                    | [] => 0%float
                    | _ => true_div anomaly_count (length data_points)
                    end;
                  successful_analyses :=
                    length (filter (fun r => point_status r = "success") results) |};
             batch_threshold_used := threshold;
             analysis_timestamp := response_now;
             batch_status := "completed" |}
          200%nat
      end
    end.

End AnomalyApi.

(* --------------------------------------------------------------------- *)
(** ** api/explainability_api.py *)

Module ExplainabilityApi.

Import Np Http ModelExplainer.

Record Request := {
  sensor_data : option ndarray;
  model_type : option string;
  machine_id : option string;
  max_features : option Z;
  num_features : option Z
}.

(** A dictionary returned by the explainer after [update] added the
    request's [machine_id], the time and [status] to it. *)
Record Annotated (D : Type) := {
  explanation_dict : D;
  machine : string;
  request_timestamp : timestamp;
  status : string
}.
Arguments explanation_dict {D} _.
Arguments machine {D} _.
Arguments request_timestamp {D} _.
Arguments status {D} _.

(** ['model_type must be "rul" or "failure"']. *)
Definition model_type_message : string :=
  let q := String "034"%char EmptyString in
  "model_type must be " ++ q ++ "rul" ++ q ++ " or " ++ q ++ "failure" ++ q.

(** The handler [get_shap_explanation] of [/shap]. *)
Definition get_shap_explanation (explainer : ModelExplainer.t)
    (jsonify : Jsonify (Annotated (explanation ShapDict))) (now : timestamp)
    (data : option Request) : Response (Annotated (explanation ShapDict)) :=
  handle
    match data with
    | None => OK (ErrorBody "Missing sensor_data in request" None, 400%nat)
    | Some data =>
      match sensor_data data with
      | None => OK (ErrorBody "Missing sensor_data in request" None, 400%nat)
      | Some sensor_data =>
        let model_type := default "rul" (model_type data) in
        let machine_id := default "unknown" (machine_id data) in
        let max_features := default 10 (max_features data) in
        _ ← ModelManager.validate_input_data sensor_data;
        if negb (bool_decide (model_type ∈ ["rul"; "failure"])) then
          OK (ErrorBody model_type_message None, 400%nat)
        else
          let shap_explanation :=
            ModelExplainer.get_shap_explanation explainer model_type sensor_data
              max_features in
          respond jsonify
            {| explanation_dict := shap_explanation;
               machine := machine_id;
               request_timestamp := now;
               status := "success" |}
            200%nat
      end
    end.

Section Surrogate.

Variable np_exp : float -> float.

(** The handler [get_lime_explanation] of [/lime]; [now] is the clock of
    the nested predictions, [request_now] the one read by the handler. *)
Definition get_lime_explanation (explainer : ModelExplainer.t)
    (jsonify : Jsonify (Annotated (explanation LimeDict)))
    (rng : RandomState) (now request_now : timestamp) (data : option Request)
  : Response (Annotated (explanation LimeDict)) * RandomState :=
  match data with
  | None => (ErrorBody "Missing sensor_data in request" None, 400%nat, rng)
  | Some data =>
    match sensor_data data with
    | None => (ErrorBody "Missing sensor_data in request" None, 400%nat, rng)
    | Some sensor_data =>
      let model_type := default "failure" (model_type data) in
      let machine_id := default "unknown" (machine_id data) in
      let num_features := default 10 (num_features data) in
      match ModelManager.validate_input_data sensor_data with
      | Raise e => (handle (Raise e), rng)
      | OK _ =>
        if negb (bool_decide (model_type ∈ ["rul"; "failure"])) then
          (ErrorBody model_type_message None, 400%nat, rng)
        else
          let '(lime_explanation, rng') :=
            ModelExplainer.get_lime_explanation np_exp explainer rng now
              sensor_data model_type num_features in
          (handle (respond jsonify
                     {| explanation_dict := lime_explanation;
                        machine := machine_id;
                        request_timestamp := request_now;
                        status := "success" |}
                     200%nat),
           rng')
      end
    end
  end.

(** The handler [get_comprehensive_explanation] of [/comprehensive]. *)
Definition get_comprehensive_explanation (explainer : ModelExplainer.t)
    (jsonify : Jsonify (Annotated CombinedAnalysis))
    (rng : RandomState) (now analysis_now request_now : timestamp)
    (data : option Request)
  : Response (Annotated CombinedAnalysis) * RandomState :=
  match data with
  | None => (ErrorBody "Missing sensor_data in request" None, 400%nat, rng)
  | Some data =>
    match sensor_data data with
    | None => (ErrorBody "Missing sensor_data in request" None, 400%nat, rng)
    | Some sensor_data =>
      let machine_id := default "unknown" (machine_id data) in
      match ModelManager.validate_input_data sensor_data with
      | Raise e => (handle (Raise e), rng)
      | OK _ =>
        let '(comprehensive_analysis, rng') :=
          ModelExplainer.get_feature_impact_analysis np_exp explainer rng now
            analysis_now sensor_data in
        (handle (respond jsonify
                   {| explanation_dict := comprehensive_analysis;
                      machine := machine_id;
                      request_timestamp := request_now;
                      status := "success" |}
                   200%nat),
         rng')
      end
    end
  end.

End Surrogate.

End ExplainabilityApi.

(* --------------------------------------------------------------------- *)
(** ** Vocabulary of the properties of the handlers *)

Module ApiProps.

Import Http.

(** The answers a handler may give: a payload with 200, an error object
    without [status] with 400, a validation error with 400, or the fixed
    text of a server error with 500. *)
Definition conventional {A} (r : Response A) : Prop :=
  match r with
  | (Payload _, code) => code = 200%nat
  | (ErrorBody _ None, code) => code = 400%nat
  | (ErrorBody msg (Some status), code) =>
    (code = 400%nat /\ status = "validation_error") \/
    (code = 500%nat /\ status = "error" /\ msg = "Internal server error")
  end.

(** A serialiser that accepts every value. *)
Definition accepts_all {A} : Jsonify A := fun _ => OK ().

End ApiProps.

(* ===================================================================== *)
(** * pretrained_models.py: the training targets *)
(* ===================================================================== *)

Module PretrainedModels.

(** [np.clip(x, a_min, a_max)] on one element: NaN stays NaN. *)
Definition clip (a_min a_max x : float) : float :=
  if PrimFloat.is_nan x then x
  else if PrimFloat.ltb x a_min then a_min
  else if PrimFloat.ltb a_max x then a_max
  else x.

Definition max_rul : float := 300.

(** [a[mask] = v]: the elements under a true entry of the mask are
    replaced. *)
Definition assign_where {A} (mask : list bool) (v : A) (a : list A) : list A :=
  zip_with (fun (m : bool) x => if m then v else x) mask a.

(** The last lines of [generate_synthetic_turbofan_data]: the targets of
    the failure classifier, from the RUL targets before clipping.  The
    array of zeros is filled by three masked assignments and converted by
    [astype(int)]; its entries 0., 1. and 2. are written as integers. *)
Definition targets (rul_targets : list float) : list float * list Z :=
  let rul_targets := map (clip 1 max_rul) rul_targets in
  let failure_targets := replicate (length rul_targets) 0 in
  let failure_targets :=
    assign_where (map (fun r => PrimFloat.ltb r 50) rul_targets) 2
      failure_targets in
  let failure_targets :=
    assign_where
      (map (fun r => PrimFloat.leb 50 r && PrimFloat.ltb r 150) rul_targets) 1
      failure_targets in
  let failure_targets :=
    assign_where (map (fun r => PrimFloat.leb 150 r) rul_targets) 0
      failure_targets in
  (rul_targets, failure_targets).

End PretrainedModels.

(* ===================================================================== *)
(** * Dictionaries in insertion order *)
(* ===================================================================== *)

(** A Python dictionary with string keys whose order of insertion is
    observed (by iteration or by a stable sort of its items). *)
Module OrderedDict.

Section Dict.

Context {V : Type}.

Definition t : Type := list (string * V).

(** [d.get(key)]. *)
Fixpoint get (d : t) (key : string) : option V :=
  match d with
  | [] => None
  | (k, v) :: r => if String.eqb k key then Some v else get r key
  end.

(** [if key not in d: d[key] = init] followed by [d[key] = f(d[key])]: a
    new key goes to the end, a known key keeps its place. *)
Fixpoint update (init : V) (key : string) (f : V -> V) (d : t) : t :=
  match d with
  | [] => [(key, f init)]
  | (k, v) :: r => if String.eqb k key then (k, f v) :: r
                   else (k, v) :: update init key f r
  end.

End Dict.

Arguments t V : clear implicits.

End OrderedDict.

(* --------------------------------------------------------------------- *)
(** ** api/anomaly_api.py: the trend analysis *)

Module TrendAnalysis.

Import Np Http AnomalyApi.

(** [l.sort(key=key)] for keys that are strings: a stable sort, smallest
    key first.  An item is placed in front of the first item of the sorted
    rest whose key is not smaller than its own. *)
Fixpoint insert_asc {A} (key : A -> string) (x : A) (l : list A) : list A :=
  match l with
  | [] => [x]
  | y :: r => if String.ltb (key y) (key x) then y :: insert_asc key x r
              else x :: l
  end.

Definition sort_asc {A} (key : A -> string) (l : list A) : list A :=
  foldr (insert_asc key) [] l.

(** An entry of [machine_stats] while the points are read. *)
Record Stats := {
  stat_total_points : nat;
  anomalies : nat;
  avg_score : float;
  max_score : float;
  min_score : float
}.

(** The entry created for a machine met for the first time. *)
Definition new_stats : Stats :=
  {| stat_total_points := 0;
     anomalies := 0;
     avg_score := 0;
     max_score := neg_infinity;
     min_score := infinity |}.

Definition float_of_nat (n : nat) : float :=
  PrimFloat.of_uint63 (Uint63.of_Z (Z.of_nat n)).

(** The updates of [stats] for one analysed point. *)
Definition record_point (flag : bool) (score : float) (stats : Stats) : Stats :=
  let total := S (stat_total_points stats) in
  {| stat_total_points := total;
     anomalies := if flag then S (anomalies stats) else anomalies stats;
     avg_score :=
       ((avg_score stats * float_of_nat (total - 1) + score)
        / float_of_nat total)%float;
     max_score := max2 (max_score stats) score;
     min_score := min2 (min_score stats) score |}.

(** [machine_stats]: a dictionary in the order in which its keys were
    inserted. *)
Definition Dict : Type := OrderedDict.t Stats.

(** An entry of [anomaly_timeline]. *)
Record TimelineEntry := {
  entry_timestamp : timestamp;
  entry_machine_id : string;
  entry_is_anomaly : bool;
  entry_anomaly_score : float;
  entry_severity : string
}.

(** The statements of the [try] block up to the call of the detector. *)
Definition analyse (model_manager : ModelManager.t) (clock : PointClock)
    (point : Point) : result TimelineEntry :=
  sensor_data ← required "sensor_data" (point_sensor_data point);
  let machine_id := default "unknown" (point_machine_id point) in
  let time := default (at_entry clock) (point_timestamp point) in
  _ ← ModelManager.validate_input_data sensor_data;
  '(flag, metadata) ←
    ModelManager.detect_anomaly model_manager (at_detect clock) sensor_data;
  let score := ModelManager.anomaly_score metadata in
  OK {| entry_timestamp := time;
        entry_machine_id := machine_id;
        entry_is_anomaly := flag;
        entry_anomaly_score := score;
        entry_severity := severity score |}.

(** One turn of the loop on [(anomaly_timeline, machine_stats)]; a point
    that raises is skipped. *)
Definition turn (model_manager : ModelManager.t)
    (state : list TimelineEntry * Dict) (item : PointClock * Point)
  : list TimelineEntry * Dict :=
  match analyse model_manager item.1 item.2 with
  | OK entry =>
    ((state.1 ++ [entry])%list,
     OrderedDict.update new_stats (entry_machine_id entry)
       (record_point (entry_is_anomaly entry) (entry_anomaly_score entry))
       state.2)
  | Raise _ => state
  end.

(** [stats['anomaly_rate']], added to every entry after the loop. *)
Definition anomaly_rate_of (stats : Stats) : float :=
  if (0 <? stat_total_points stats)%nat
  then true_div (anomalies stats) (stat_total_points stats)
  else 0.

Record HighRisk := {
  high_machine_id : string;
  high_anomaly_rate : float;
  total_anomalies_of : nat;
  avg_anomaly_score : float
}.

Record TrendSummary := {
  total_machines : nat;
  total_data_points : nat;
  total_anomalies : nat;
  overall_anomaly_rate : float
}.

Record TrendPayload := {
  anomaly_timeline : list TimelineEntry;
  machine_statistics : list (string * (Stats * float));
  high_risk_machines : list HighRisk;
  trend_summary : TrendSummary;
  analysis_window_hours : Z;
  trend_timestamp : timestamp;
  trend_status : string
}.

Record TrendRequest := {
  time_series_data : option (list Point);
  window_size : option Z
}.

(** The handler [analyze_anomaly_trends] of [/trend-analysis]; [clocks i]
    holds the readings of the clock for the point at position [i] of the
    sorted list. *)
Definition analyze_anomaly_trends (model_manager : ModelManager.t)
    (jsonify : Jsonify TrendPayload) (clocks : nat -> PointClock)
    (response_now : timestamp) (data : option TrendRequest)
  : Response TrendPayload :=
  handle_any
    match data with
    | None => OK (ErrorBody "Missing time_series_data in request" None, 400%nat)
    | Some data =>
      match time_series_data data with
      | None =>
        OK (ErrorBody "Missing time_series_data in request" None, 400%nat)
      | Some time_series_data =>
        let window_size := default 24 (window_size data) in
        let time_series_data :=
          sort_asc (fun x => default "" (point_timestamp x)) time_series_data in
        let '(anomaly_timeline, machine_stats) :=
          fold_left (turn model_manager)
            (imap (fun i point => (clocks i, point)) time_series_data)
            ([], []) in
        let machine_stats :=
          map (fun '(machine_id, stats) =>
                 (machine_id, (stats, anomaly_rate_of stats)))
            machine_stats in
        let high_risk_machines :=
          slice_to (sort_reverse (fun x => x.2.2) machine_stats) 5 in
        let total :=
          foldr Nat.add 0%nat (map (fun x => anomalies x.2.1) machine_stats) in
        respond jsonify
          {| anomaly_timeline := anomaly_timeline;
             machine_statistics := machine_stats;
             high_risk_machines :=
               map (fun '(machine_id, (stats, rate)) =>
                      {| high_machine_id := machine_id;
                         high_anomaly_rate := rate;
                         total_anomalies_of := anomalies stats;
                         avg_anomaly_score := avg_score stats |})
                 high_risk_machines;
             trend_summary :=
               {| total_machines := length machine_stats;
                  total_data_points := length time_series_data;
                  total_anomalies := total;
                  overall_anomaly_rate :=
                    match time_series_data with
                    | [] => 0%float
                    | _ => true_div total (length time_series_data)
                    end |};
             analysis_window_hours := window_size;
             trend_timestamp := response_now;
             trend_status := "completed" |}
          200%nat
      end
    end.

End TrendAnalysis.

(** The vocabulary of the properties of the trend analysis. *)
Module TrendProps.

Import TrendAnalysis.

(** The entries of a timeline that belong to a machine, and those among
    them that are flagged. *)
Definition of_machine (machine : string) (timeline : list TimelineEntry)
  : list TimelineEntry :=
  filter (fun e => entry_machine_id e = machine) timeline.

Definition flagged_entries (timeline : list TimelineEntry) : list TimelineEntry :=
  filter (fun e => entry_is_anomaly e = true) timeline.

Definition sum_nat (l : list nat) : nat := foldr Nat.add 0%nat l.

(** A timeline is chronological when no entry is followed, at any
    distance, by an entry with a smaller timestamp. *)
Definition chronological (timeline : list TimelineEntry) : Prop :=
  StronglySorted
    (fun a b => String.ltb (entry_timestamp b) (entry_timestamp a) = false)
    timeline.

(** The statistics account for a timeline: no machine has two entries, the
    entry of a machine counts its points and its flagged points in the
    timeline, a machine without entry has no point there, and the counts
    add up to those of the timeline. *)
Definition accounts_for (timeline : list TimelineEntry) (d : Dict) : Prop :=
  NoDup d.*1 /\
  (forall machine,
     match OrderedDict.get d machine with
     | Some s =>
       stat_total_points s = length (of_machine machine timeline) /\
       anomalies s = length (flagged_entries (of_machine machine timeline)) /\
       (1 <= stat_total_points s)%nat
     | None => of_machine machine timeline = []
     end) /\
  sum_nat (map (fun x => stat_total_points x.2) d) = length timeline /\
  sum_nat (map (fun x => anomalies x.2) d) = length (flagged_entries timeline).

End TrendProps.

(* --------------------------------------------------------------------- *)
(** ** api/data_api.py: validation of sensor data *)

Module DataApi.

Import Np Http.

Record FeatureAnalysis := {
  mean : float;
  std : float;
  min : float;
  max : float;
  range : float
}.

Record ValidationResults := {
  is_valid : bool;
  issues : list string;
  data_info : list nat * nat * nat;
  feature_analysis : list (string * FeatureAnalysis);
  recommendations : list string;
  quality_score : Z;
  timestamp_of : timestamp;
  status : string
}.

(** [t[i]] on a shape. *)
Definition shape_at (a : ndarray) (i : nat) : result nat :=
  match shape a !! i with
  | Some n => OK n
  | None => Raise (IndexError "tuple index out of range")
  end.

(** [a.reshape(1, -1)] of an array of one axis. *)
Definition as_batch (a : ndarray) : ndarray :=
  match shape a with
  | [n] => {| shape := [1%nat; n]; data := data a |}
  | _ => a
  end.

(** The elements of [a[:, i]] in row-major order: for each index of the
    first axis, the block of index [i] on the second. *)
Definition column (a : ndarray) (i : nat) : list float :=
  match shape a with
  | n0 :: n1 :: rest =>
    let block := foldr Nat.mul 1%nat rest in
    concat (map (fun r => take block (drop ((r * n1 + i) * block) (data a)))
              (seq 0 n0))
  | _ => []
  end.

(** The names the handler builds for the 24 features. *)
Definition feature_names : list string :=
  map (fun i => "setting_" ++ str_nat i) (seq 1 3) ++
  map (fun i => "sensor_" ++ str_nat i) (seq 1 21).

Section Validate.

(** The reductions of NumPy over the elements of an array, and the format
    [:.2f].  [np.min] and [np.max] raise on an array without elements. *)
Variables (np_mean np_std : list float -> float).
Variables (np_min np_max : list float -> result float).
Variable format_2f : float -> string.

(** The state of the feature loop: [feature_analysis], [issues] and
    [recommendations]. *)
Definition LoopState : Type :=
  list (string * FeatureAnalysis) * list string * list string.

(** One turn of the loop over the feature names. *)
Definition analyse_feature (sensor_data : ndarray) (state : LoopState)
    (item : nat * string) : result LoopState :=
  let '(i, feature_name) := item in
  let '(feature_analysis, issues, recommendations) := state in
  n ← shape_at sensor_data 1;
  if (i <? n)%nat then
    let feature_data := column sensor_data i in
    lowest ← np_min feature_data;
    highest ← np_max feature_data;
    let analysis :=
      {| mean := np_mean feature_data;
         std := np_std feature_data;
         min := lowest;
         max := highest;
         range := (highest - lowest)%float |} in
    let issues :=
      if PrimFloat.eqb (np_std feature_data) 0
      then (issues
            ++ [(feature_name ++ " has zero variance (constant values)")%string])%list
      else issues in
    let recommendations :=
      if PrimFloat.ltb 10 (abs (np_mean feature_data))
      then (recommendations
            ++ [(feature_name ++ " may need normalization (mean: "
                 ++ format_2f (np_mean feature_data) ++ ")")%string])%list
      else recommendations in
    OK ((feature_analysis ++ [(feature_name, analysis)])%list, issues,
        recommendations)
  else OK state.

(** [for ... in ...] over a body that may raise. *)
Fixpoint for_each {S X} (body : S -> X -> result S) (items : list X) (state : S)
  : result S :=
  match items with
  | [] => OK state
  | x :: rest => state ← body state x; for_each body rest state
  end.

(** The handler [validate_sensor_data] of [/validate]. *)
Definition validate_sensor_data (jsonify : Jsonify ValidationResults)
    (now : timestamp) (sensor_data : option ndarray)
  : Response ValidationResults :=
  handle_any
    match sensor_data with
    | None => OK (ErrorBody "Missing sensor_data in request" None, 400%nat)
    | Some sensor_data =>
      let sensor_data :=
        if (length (shape sensor_data) =? 1)%nat then as_batch sensor_data
        else sensor_data in
      num_samples ← shape_at sensor_data 0;
      num_features ← shape_at sensor_data 1;
      let expected_features := 24%nat in
      let '(is_valid, issues) :=
        if negb (num_features =? expected_features)%nat
        then (false,
              ["Expected " ++ str_nat expected_features ++ " features, got "
               ++ str_nat num_features])
        else (true, []) in
      let '(is_valid, issues) :=
        if any (isnan sensor_data)
        then (false, (issues ++ ["Data contains NaN values"])%list)
        else (is_valid, issues) in
      let '(is_valid, issues) :=
        if any (isinf sensor_data)
        then (false, (issues ++ ["Data contains infinite values"])%list)
        else (is_valid, issues) in
      '(feature_analysis, issues, recommendations) ←
        (if (num_features =? expected_features)%nat
         then for_each (analyse_feature sensor_data)
                (imap (fun i name => (i, name)) feature_names) ([], issues, [])
         else OK ([], issues, []));
      let quality_score :=
        match issues with
        | [] => 100
        | _ => 100 - Z.of_nat (length issues) * 20
        end in
      respond jsonify
        {| is_valid := is_valid;
           issues := issues;
           data_info := (shape sensor_data, num_samples, num_features);
           feature_analysis := feature_analysis;
           recommendations := recommendations;
           quality_score := Z.max 0 quality_score;
           timestamp_of := now;
           status := "completed" |}
        200%nat
    end.

End Validate.

End DataApi.

(* --------------------------------------------------------------------- *)
(** ** api/explainability_api.py: global feature importance *)

Module FeatureImportance.

Import Np Http ModelExplainer.

Record Request := {
  model_type : option string;
  top_n : option Z
}.

(** An entry of [global_importance]. *)
Record Global := {
  feature : string;
  importance : float;
  std_dev : float;
  samples : nat
}.

Record ImportancePayload := {
  payload_model_type : string;
  global_feature_importance : list Global;
  total_features : nat;
  analysis_samples : nat;
  payload_timestamp : timestamp;
  status : string
}.

(** [importance_scores]: the scores collected for each feature, in the
    order in which the features were first met. *)
Definition Scores : Type := OrderedDict.t (list float).

(** The body of the inner loop, for one record of an explanation. *)
Definition collect (scores : Scores) (feature_info : ShapFeature) : Scores :=
  OrderedDict.update [] (shap_feature feature_info)
    (fun l => (l ++ [shap_abs_importance feature_info])%list) scores.

(** The body of the loop over the rows: an explanation without
    [feature_importance], an error dictionary, adds nothing. *)
Definition collect_row (explainer : ModelExplainer.t) (model_type : string)
    (scores : Scores) (row : list float) : Scores :=
  match ModelExplainer.get_shap_explanation explainer model_type (vector row) 10 with
  | Explained shap_exp => fold_left collect (shap_feature_importance shap_exp) scores
  | Failed _ => scores
  end.

Section Handler.

(** The reference data of [pretrained_models], by its rows, and the
    reductions of NumPy. *)
Variable generate_synthetic_turbofan_data : nat -> result (list (list float)).
Variables np_mean np_std : list float -> float.

(** The handler [get_feature_importance] of [/feature-importance]. *)
Definition get_feature_importance (explainer : ModelExplainer.t)
    (jsonify : Jsonify ImportancePayload) (now : timestamp) (data : option Request)
  : Response ImportancePayload :=
  handle_any
    (let model_type :=
       match data with
       | Some data => default "rul" (model_type data)
       | None => "rul"
       end in
     let top_n :=
       match data with
       | Some data => default 15 (top_n data)
       | None => 15
       end in
     if negb (bool_decide (model_type ∈ ["rul"; "failure"])) then
       OK (ErrorBody ExplainabilityApi.model_type_message None, 400%nat)
     else
       sample_data ← generate_synthetic_turbofan_data 100;
       let importance_scores :=
         fold_left (collect_row explainer model_type) (take 20 sample_data) [] in
       let global_importance :=
         map (fun '(name, scores) =>
                {| feature := name;
                   importance := np_mean scores;
                   std_dev := np_std scores;
                   samples := length scores |})
           importance_scores in
       let global_importance := sort_reverse importance global_importance in
       respond jsonify
         {| payload_model_type := model_type;
            global_feature_importance := slice_to global_importance top_n;
            total_features := length feature_names;
            analysis_samples := length sample_data;
            payload_timestamp := now;
            status := "success" |}
         200%nat).

End Handler.

End FeatureImportance.

(* ===================================================================== *)
(** * Concrete factories and libraries for the closed examples *)
(* ===================================================================== *)

Module LoadingFixtures.

Import ModelManager ModelExplainer ModelLoading ExplainerLoading.

(** Libraries that answer: two rows of reference data and the explainers of
    [Fixtures]. *)
Definition libraries : Libraries :=
  {| generate_synthetic_turbofan_data := fun _ => OK [Fixtures.ones; Fixtures.ramp];
     shap_Explainer_regressor := fun _ _ => OK Fixtures.linear_shap;
     shap_Explainer_classifier := fun _ _ => OK Fixtures.class_shap;
     LimeTabularExplainer := fun _ _ _ => OK Fixtures.sampling_lime |}.

(** The same, the explainer of a regressor failing to build. *)
Definition rul_explainer_fails : Libraries :=
  {| generate_synthetic_turbofan_data := fun _ => OK [Fixtures.ones; Fixtures.ramp];
     shap_Explainer_regressor :=
       fun _ _ => Raise (LibraryError "model type not supported");
     shap_Explainer_classifier := fun _ _ => OK Fixtures.class_shap;
     LimeTabularExplainer := fun _ _ _ => OK Fixtures.sampling_lime |}.

(** The same, the reference data being unavailable. *)
Definition no_reference_data : Libraries :=
  {| generate_synthetic_turbofan_data :=
       fun _ => Raise (LibraryError "reference data unavailable");
     shap_Explainer_regressor := fun _ _ => OK Fixtures.linear_shap;
     shap_Explainer_classifier := fun _ _ => OK Fixtures.class_shap;
     LimeTabularExplainer := fun _ _ _ => OK Fixtures.sampling_lime |}.

(** Factories of which the one of the RUL model raises. *)
Definition factories_without_rul : Factories :=
  {| create_rul_model := Raise (LibraryError "xgboost is not installed");
     create_failure_model := OK (Fixtures.fixed_classifier, Fixtures.unit_scaler);
     create_anomaly_model := OK (Fixtures.fixed_detector, Fixtures.unit_scaler) |}.

End LoadingFixtures.

(** Reductions that are exact on an array of one element. *)
Module DataFixtures.

Definition single_mean (l : list float) : float :=
  match l with
  | [x] => x
  | _ => nan
  end.

Definition single_std (l : list float) : float :=
  match l with
  | [x] => 0
  | _ => nan
  end.

Definition first_or_raise (l : list float) : result float :=
  match l with
  | x :: _ => OK x
  | [] => Raise (ValueError "zero-size array to reduction operation")
  end.

Definition two_places (x : float) : string := "1.00".

End DataFixtures.

(* ===================================================================== *)
(** * Order facts on binary64 numbers *)
(* ===================================================================== *)

Module FloatOrder.

Lemma SFcompare_antisym x y :
  SFcompare y x = option_map CompOpp (SFcompare x y).
Proof.
  destruct x as [sx|sx| |sx mx ex], y as [sy|sy| |sy my ey]; simpl;
    try (destruct sx); try (destruct sy); simpl; try reflexivity.
  all: rewrite (Z.compare_antisym ex ey); destruct (ex ?= ey)%Z; simpl; try reflexivity.
  all: change (Pos.compare_cont Eq my mx) with (Pos.compare my mx);
       change (Pos.compare_cont Eq mx my) with (Pos.compare mx my);
       rewrite (Pos.compare_antisym mx my); destruct (mx ?= my)%positive; reflexivity.
Qed.

Lemma SFcompare_refl x : x <> S754_nan -> SFcompare x x = Some Eq.
Proof.
  destruct x as [s|s| |s m e]; simpl; intros H; try congruence.
  - destruct s; reflexivity.
  - rewrite Z.compare_refl.
    change (Pos.compare_cont Eq m m) with (Pos.compare m m).
    rewrite Pos.compare_refl. destruct s; reflexivity.
Qed.

Lemma SFcompare_some x y :
  x <> S754_nan -> y <> S754_nan -> exists c, SFcompare x y = Some c.
Proof.
  destruct x, y; simpl; intros; try congruence; eauto.
Qed.

Ltac cmp_split :=
  repeat match goal with
  | H : context [Z.compare ?a ?b] |- _ => destruct (Z.compare_spec a b)
  | H : context [Pos.compare_cont Eq ?a ?b] |- _ =>
      change (Pos.compare_cont Eq a b) with (Pos.compare a b) in *;
      destruct (Pos.compare_spec a b)
  | |- context [Z.compare ?a ?b] => destruct (Z.compare_spec a b)
  | |- context [Pos.compare_cont Eq ?a ?b] =>
      change (Pos.compare_cont Eq a b) with (Pos.compare a b) in *;
      destruct (Pos.compare_spec a b)
  end.

Ltac by_cases x y z :=
  destruct x as [? | ? | | ? ? ?], y as [? | ? | | ? ? ?], z as [? | ? | | ? ? ?];
  simpl;
  repeat match goal with s : bool |- _ => destruct s end; simpl;
  try congruence; intros;
  cmp_split; simpl in *; subst; try congruence; try lia.

Lemma SFleb_trans x y z :
  SFleb x y = true -> SFleb y z = true -> SFleb x z = true.
Proof. unfold SFleb. by_cases x y z. Qed.

Lemma SFltb_leb_trans x y z :
  SFltb x y = true -> SFleb y z = true -> SFltb x z = true.
Proof. unfold SFleb, SFltb. by_cases x y z. Qed.

Lemma SFltb_asym x y : SFleb y x = true -> SFltb x y = false.
Proof.
  unfold SFleb, SFltb. rewrite (SFcompare_antisym x y).
  destruct (SFcompare x y) as [[]|]; simpl; congruence.
Qed.

Lemma SFleb_total x y :
  x <> S754_nan -> y <> S754_nan -> SFltb x y = false -> SFleb y x = true.
Proof.
  intros Hx Hy. unfold SFleb, SFltb. rewrite (SFcompare_antisym x y).
  destruct (SFcompare_some x y Hx Hy) as [c ->]. destruct c; simpl; congruence.
Qed.

(** The same facts on primitive floats. *)

Lemma not_nan (x : float) : is_nan x = false -> Prim2SF x <> S754_nan.
Proof.
  unfold is_nan. rewrite FloatAxioms.eqb_spec. intros H E. rewrite E in H. discriminate.
Qed.

Lemma leb_refl (x : float) : is_nan x = false -> PrimFloat.leb x x = true.
Proof.
  intros H. rewrite FloatAxioms.leb_spec. unfold SFleb.
  now rewrite (SFcompare_refl _ (not_nan x H)).
Qed.

Lemma leb_trans (x y z : float) :
  PrimFloat.leb x y = true -> PrimFloat.leb y z = true -> PrimFloat.leb x z = true.
Proof. rewrite !FloatAxioms.leb_spec. apply SFleb_trans. Qed.

Lemma ltb_leb_trans (x y z : float) :
  PrimFloat.ltb x y = true -> PrimFloat.leb y z = true -> PrimFloat.ltb x z = true.
Proof. rewrite !FloatAxioms.leb_spec, !FloatAxioms.ltb_spec. apply SFltb_leb_trans. Qed.

Lemma ltb_ltb_leb x y : PrimFloat.ltb x y = true -> PrimFloat.leb x y = true.
Proof.
  rewrite FloatAxioms.leb_spec, FloatAxioms.ltb_spec. unfold SFltb, SFleb.
  destruct (SFcompare _ _) as [[]|]; congruence.
Qed.

Lemma leb_not_ltb (x y : float) : PrimFloat.leb y x = true -> PrimFloat.ltb x y = false.
Proof. rewrite FloatAxioms.leb_spec, FloatAxioms.ltb_spec. apply SFltb_asym. Qed.

Lemma not_ltb_leb (x y : float) :
  is_nan x = false -> is_nan y = false ->
  PrimFloat.ltb x y = false -> PrimFloat.leb y x = true.
Proof.
  intros Hx Hy. rewrite FloatAxioms.leb_spec, FloatAxioms.ltb_spec.
  apply SFleb_total; now apply not_nan.
Qed.

End FloatOrder.

(* ===================================================================== *)
(** * Input validation *)
(* ===================================================================== *)

Module ValidationFacts.

Import Np Props ModelManager.

Lemma any_true_iff (bs : list bool) : any bs = true <-> true ∈ bs.
Proof.
  unfold any. rewrite existsb_exists. split.
  - intros (b & Hin & Hb). unfold id in Hb. subst. now apply list_elem_of_In.
  - intros Hin. exists true. split; [now apply list_elem_of_In | reflexivity].
Qed.

Lemma any_isnan (a : ndarray) x :
  x ∈ data a -> is_nan x = true -> any (isnan a) = true.
Proof.
  intros Hin Hx. apply any_true_iff. unfold isnan. rewrite <- Hx.
  apply list_elem_of_In, in_map, list_elem_of_In, Hin.
Qed.

Lemma any_isinf (a : ndarray) x :
  x ∈ data a -> is_infinity x = true -> any (isinf a) = true.
Proof.
  intros Hin Hx. apply any_true_iff. unfold isinf. rewrite <- Hx.
  apply list_elem_of_In, in_map, list_elem_of_In, Hin.
Qed.

Lemma any_finite (a : ndarray) :
  Forall finite (data a) -> any (isnan a) = false /\ any (isinf a) = false.
Proof.
  unfold any, isnan, isinf. induction 1 as [|x l [Hn Hi] _ [IH1 IH2]]; simpl.
  - split; reflexivity.
  - unfold id in *. rewrite Hn, Hi, IH1, IH2. split; reflexivity.
Qed.

(** The two checks of [validate_input_data], in order. *)
Lemma validate_wrong_size (a : ndarray) n :
  last (shape a) = Some n -> n <> 24%nat ->
  validate_input_data a =
  Raise (ValueError ("Expected 24 features, got " ++ str_nat n)).
Proof.
  intros Hl Hn. unfold validate_input_data, shape_last. rewrite Hl. simpl.
  destruct (Nat.eqb_spec n 24); [contradiction | reflexivity].
Qed.

Lemma validate_not_finite (a : ndarray) x :
  last (shape a) = Some 24%nat -> x ∈ data a ->
  is_nan x = true \/ is_infinity x = true ->
  validate_input_data a =
  Raise (ValueError "Input data contains NaN or infinite values").
Proof.
  intros Hl Hin Hx. unfold validate_input_data, shape_last. rewrite Hl. simpl.
  destruct Hx as [Hx | Hx].
  - now rewrite (any_isnan a x Hin Hx).
  - rewrite (any_isinf a x Hin Hx). now rewrite orb_true_r.
Qed.

(** C6. [validate_input_data] raises the schema error for every vector whose
    length is not 24, and for every vector of length 24 that holds a NaN,
    +Infinity or -Infinity; in particular for a NaN at index 5. *)
Theorem validate_rejects (v : list float) :
  (length v <> 24%nat -> SchemaError (validate_input_data (vector v))) /\
  (length v = 24%nat ->
   (exists x, x ∈ v /\ (is_nan x = true \/ x = infinity \/ x = neg_infinity)) ->
   SchemaError (validate_input_data (vector v))) /\
  (length v = 24%nat ->
   (exists x, v !! 5%nat = Some x /\ is_nan x = true) ->
   SchemaError (validate_input_data (vector v))).
Proof.
  assert (Hbad : length v = 24%nat -> forall x, x ∈ v ->
            is_nan x = true \/ is_infinity x = true ->
            SchemaError (validate_input_data (vector v))).
  { intros Hlen x Hin Hx. eexists.
    apply (validate_not_finite (vector v) x); simpl; [now rewrite Hlen | exact Hin | exact Hx]. }
  split; [|split].
  - intros Hlen. eexists. now apply (validate_wrong_size (vector v) (length v)).
  - intros Hlen (x & Hin & [Hx | [-> | ->]]); apply (Hbad Hlen _ Hin); auto.
  - intros Hlen (x & Hlk & Hx). apply (Hbad Hlen x); [|auto].
    eapply list_elem_of_lookup_2, Hlk.
Qed.

Lemma validate_rejects_witness :
  SchemaError (validate_input_data (vector [1; 2; 3]%float)) /\
  SchemaError (validate_input_data (vector Fixtures.nan_at_5)).
Proof.
  split.
  - apply (proj1 (validate_rejects [1; 2; 3]%float)). simpl. lia.
  - apply (proj2 (proj2 (validate_rejects Fixtures.nan_at_5))).
    + reflexivity.
    + exists nan. split; reflexivity.
Defined.

(** C10. [validate_input_data] accepts every array whose last axis has size
    24 and whose entries are all finite, whatever its other axes: so it
    accepts a two-dimensional array of [k] rows of 24 finite entries. *)
Theorem validate_accepts_last_axis_24 :
  (forall a : ndarray,
      last (shape a) = Some 24%nat -> Forall finite (data a) ->
      validate_input_data a = OK true) /\
  (forall (k : nat) (flat : list float),
      length flat = (k * 24)%nat -> Forall finite flat ->
      validate_input_data (matrix k 24 flat) = OK true).
Proof.
  assert (H : forall a : ndarray,
             last (shape a) = Some 24%nat -> Forall finite (data a) ->
             validate_input_data a = OK true).
  { intros a Hl Hf. unfold validate_input_data, shape_last. rewrite Hl. simpl.
    destruct (any_finite a Hf) as [-> ->]. reflexivity. }
  split; [exact H|].
  intros k flat _ Hf. apply H; [reflexivity | exact Hf].
Qed.

Lemma validate_accepts_last_axis_24_witness :
  validate_input_data (matrix 2 24 (Fixtures.ramp ++ Fixtures.ones)) = OK true.
Proof.
  apply (proj2 validate_accepts_last_axis_24 2%nat).
  - reflexivity.
  - repeat constructor.
Defined.

End ValidationFacts.

(* ===================================================================== *)
(** * Predictions *)
(* ===================================================================== *)

Module PredictionFacts.

Import Np Props ModelManager FloatOrder.

(** What a prediction method does once its model and scaler are found and
    the library calls have answered. *)
Lemma getitem_some {V} (d : gmap string V) k v : d !! k = Some v -> getitem d k = OK v.
Proof. unfold getitem. now intros ->. Qed.

Ltac run_prediction :=
  match goal with
  | Hm : _ (models ?mm) = Some _, Hs : scalers ?mm !! _ = Some _ |- _ =>
    rewrite Hm; rewrite (getitem_some _ _ _ Hs); simpl
  end;
  repeat match goal with
  | H : ?call = OK _ |- context [?call] => rewrite H; simpl
  end.

(** C3. With the RUL model loaded, [predict_rul] returns the regressor's
    value [v] with a risk level fixed by two thresholds: High when
    [v < 30], Medium when [30 <= v < 100], Low when [v >= 100]. *)
Theorem predict_rul_risk_level
    (mm : ModelManager.t) (now : timestamp) (x : ndarray)
    (model : Regressor) (scaler : Scaler) (scaled : list float) (v : float) :
  rul_predictor (models mm) = Some model ->
  scalers mm !! "rul_scaler" = Some scaler ->
  transform scaler (data x) = OK scaled ->
  reg_predict model scaled = OK v ->
  exists meta,
    predict_rul mm now x = OK (v, meta) /\
    (PrimFloat.ltb v 30 = true -> risk_level meta = "High") /\
    (PrimFloat.leb 30 v = true -> PrimFloat.ltb v 100 = true ->
     risk_level meta = "Medium") /\
    (PrimFloat.leb 100 v = true -> risk_level meta = "Low").
Proof.
  intros Hm Hs Ht Hp. unfold predict_rul. run_prediction.
  eexists. split; [reflexivity|]. simpl. repeat split.
  - now intros ->.
  - intros Hge Hlt. now rewrite (leb_not_ltb v 30 Hge), Hlt.
  - intros Hge. rewrite (leb_not_ltb v 100 Hge).
    assert (H30 : PrimFloat.ltb v 30 = false).
    { apply leb_not_ltb. apply ltb_ltb_leb.
      apply (ltb_leb_trans 30 100 v); [reflexivity | exact Hge]. }
    now rewrite H30.
Qed.

Lemma predict_rul_risk_level_witness :
  exists meta,
    predict_rul Fixtures.manager "2024-01-01T00:00:00" (vector Fixtures.ones)
    = OK (124%float, meta) /\
    risk_level meta = "Low".
Proof.
  destruct (predict_rul_risk_level Fixtures.manager "2024-01-01T00:00:00"
              (vector Fixtures.ones) Fixtures.linear_regressor
              Fixtures.unit_scaler Fixtures.ones 124%float
              eq_refl eq_refl eq_refl eq_refl)
    as (meta & Hrun & _ & _ & Hlow).
  exists meta. split; [exact Hrun | exact (Hlow eq_refl)].
Defined.

(** C5. With the anomaly model loaded, and the detector's label being -1
    exactly when its decision value is negative, [detect_anomaly] flags the
    input exactly when the score it returns is negative, and its confidence
    is the absolute value of that score. *)
Theorem detect_anomaly_sign
    (mm : ModelManager.t) (now : timestamp) (x : ndarray)
    (model : Detector) (scaler : Scaler) (scaled : list float)
    (label : Z) (score : float) :
  anomaly_detector (models mm) = Some model ->
  scalers mm !! "anomaly_scaler" = Some scaler ->
  transform scaler (data x) = OK scaled ->
  det_predict model scaled = OK label ->
  decision_function model scaled = OK score ->
  (label = -1 <-> PrimFloat.ltb score 0 = true) ->
  exists is_anomaly meta,
    detect_anomaly mm now x = OK (is_anomaly, meta) /\
    anomaly_score meta = score /\
    (is_anomaly = true <-> PrimFloat.ltb (anomaly_score meta) 0 = true) /\
    anomaly_confidence meta = abs (anomaly_score meta).
Proof.
  intros Hm Hs Ht Hp Hd Hsign. unfold detect_anomaly. run_prediction.
  do 2 eexists. split; [reflexivity|]. simpl. repeat split.
  - intros H. apply Hsign. now apply Z.eqb_eq.
  - intros H. apply Z.eqb_eq. now apply Hsign.
Qed.

Lemma detect_anomaly_sign_witness :
  exists is_anomaly meta,
    detect_anomaly Fixtures.manager "2024-01-01T00:00:00" (vector Fixtures.ones)
    = OK (is_anomaly, meta) /\
    anomaly_score meta = (-0.25)%float /\
    (is_anomaly = true <-> PrimFloat.ltb (anomaly_score meta) 0 = true) /\
    anomaly_confidence meta = abs (anomaly_score meta).
Proof.
  apply (detect_anomaly_sign Fixtures.manager "2024-01-01T00:00:00"
           (vector Fixtures.ones) Fixtures.fixed_detector Fixtures.unit_scaler
           Fixtures.ones (-1) (-0.25)%float eq_refl eq_refl eq_refl eq_refl eq_refl).
  split; reflexivity.
Defined.

#[local] Arguments argmax : simpl never.

(** The running maximum of [max]: it is an entry, and no entry exceeds it. *)

Lemma running_max_spec (r : list float) : forall m,
  Forall (fun p => is_nan p = false) (m :: r) ->
  fold_left keep_greater r m ∈ m :: r /\
  forall p, p ∈ m :: r -> PrimFloat.leb p (fold_left keep_greater r m) = true.
Proof.
  induction r as [|y r IH]; intros m Hnan; simpl.
  - split; [left|]. intros p Hp. apply list_elem_of_singleton in Hp as ->.
    apply leb_refl. now inversion Hnan.
  - inversion Hnan as [|? ? Hm Hrest]; subst.
    inversion Hrest as [|? ? Hy Hr]; subst.
    assert (Hk : is_nan (keep_greater m y) = false)
      by (unfold keep_greater; destruct (PrimFloat.ltb m y); assumption).
    destruct (IH (keep_greater m y) (Forall_cons_2 _ _ _ Hk Hr)) as [Hin Hub].
    assert (Hm' : PrimFloat.leb m (keep_greater m y) = true).
    { unfold keep_greater. destruct (PrimFloat.ltb m y) eqn:E.
      - now apply ltb_ltb_leb.
      - now apply leb_refl. }
    assert (Hy' : PrimFloat.leb y (keep_greater m y) = true).
    { unfold keep_greater. destruct (PrimFloat.ltb m y) eqn:E.
      - now apply leb_refl.
      - now apply not_ltb_leb. }
    split.
    + apply elem_of_cons in Hin as [Hin | Hin].
      * rewrite Hin. unfold keep_greater.
        destruct (PrimFloat.ltb m y); [right; left | left].
      * right; right; exact Hin.
    + intros p Hp. apply elem_of_cons in Hp as [-> | Hp].
      { eapply leb_trans; [exact Hm' | apply Hub; left]. }
      apply elem_of_cons in Hp as [-> | Hp].
      { eapply leb_trans; [exact Hy' | apply Hub; left]. }
      apply Hub. now right.
Qed.

Lemma max_floats_spec (xs : list float) (c : float) :
  Forall (fun p => is_nan p = false) xs -> max_floats xs = OK c ->
  c ∈ xs /\ forall p, p ∈ xs -> PrimFloat.leb p c = true.
Proof.
  destruct xs as [|m r]; unfold max_floats; [discriminate|].
  intros Hnan [= <-]. exact (running_max_spec r m Hnan).
Qed.

(** [argmax] points at the value [max] returns. *)
Lemma argmax_from_lookup (r : list float) : forall (pre : list float) best best_i,
  pre !! best_i = Some best ->
  (pre ++ r)%list !! argmax_from best best_i (length pre) r
  = Some (fold_left keep_greater r best).
Proof.
  induction r as [|y r IH]; intros pre best best_i Hbest; simpl.
  - rewrite app_nil_r. exact Hbest.
  - specialize (IH (pre ++ [y])%list). rewrite length_app, Nat.add_1_r in IH.
    rewrite <- app_assoc in IH. simpl in IH.
    unfold keep_greater at 2. destruct (PrimFloat.ltb best y).
    + apply IH. rewrite lookup_app_r by lia. now rewrite Nat.sub_diag.
    + apply IH. rewrite lookup_app_l; [exact Hbest|].
      now apply lookup_lt_Some in Hbest.
Qed.

Lemma argmax_lookup (xs : list float) (c : float) :
  max_floats xs = OK c -> xs !! argmax xs = Some c.
Proof.
  destruct xs as [|m r]; unfold max_floats, argmax; [discriminate|].
  intros [= <-]. exact (argmax_from_lookup r [m] m 0%nat eq_refl).
Qed.




End PredictionFacts.

(* ===================================================================== *)
(** * Additive explanations *)
(* ===================================================================== *)

Module AdditiveFacts.

Import Np Props ModelManager ModelExplainer.

(** Sorting reorders and nothing else. *)
Lemma insert_by_perm {A} (key : A -> float) (x : A) (l : list A) :
  insert_by key x l ≡ₚ x :: l.
Proof.
  induction l as [|y l IH]; simpl; [reflexivity|].
  destruct (PrimFloat.ltb (key x) (key y)); [|reflexivity].
  rewrite IH. apply Permutation_swap.
Qed.

Lemma sort_reverse_perm {A} (key : A -> float) (l : list A) :
  sort_reverse key l ≡ₚ l.
Proof.
  unfold sort_reverse. induction l as [|x l IH]; simpl; [reflexivity|].
  rewrite insert_by_perm. now rewrite IH.
Qed.

Lemma slice_to_all {A} (l : list A) (stop : Z) :
  Z.of_nat (length l) <= stop -> slice_to l stop = l.
Proof.
  intros H. unfold slice_to. destruct (Z.ltb_spec stop 0); [lia|].
  apply take_ge. lia.
Qed.

Lemma slice_to_length {A} (l : list A) (stop : Z) :
  0 <= stop -> Z.of_nat (length (slice_to l stop)) <= stop.
Proof.
  intros H. unfold slice_to. destruct (Z.ltb_spec stop 0); [lia|].
  rewrite length_take. lia.
Qed.

(** The exact sum does not depend on the order of the terms. *)
Lemma exact_sum_perm (l l' : list float) :
  l ≡ₚ l' -> (exact_sum l == exact_sum l')%Q.
Proof.
  unfold exact_sum. induction 1; simpl.
  - reflexivity.
  - now rewrite IHPermutation.
  - ring.
  - now rewrite IHPermutation1.
Qed.

Lemma additive_perm tol (l l' : list float) base out :
  l ≡ₚ l' -> additive tol l base out -> additive tol l' base out.
Proof.
  unfold additive. intros Hp. now rewrite (exact_sum_perm l l' Hp).
Qed.

(** The records built from the pairs of names and values carry them
    unchanged. *)
Lemma shap_record_pair (fv : string * float) :
  (shap_feature (shap_record fv), shap_value (shap_record fv)) = fv.
Proof. now destruct fv. Qed.

Lemma shap_records_pairs (l : list (string * float)) :
  map (fun f => (shap_feature f, shap_value f)) (map shap_record l) = l.
Proof.
  induction l as [|fv l IH]; simpl; [reflexivity|].
  now rewrite shap_record_pair, IH.
Qed.

Lemma shap_values_of_pairs (l : list ShapFeature) :
  map shap_value l = map snd (map (fun f => (shap_feature f, shap_value f)) l).
Proof. induction l; simpl; congruence. Qed.

(** What [get_shap_explanation] returns when the display count does not
    truncate: every selected contribution, reordered. *)
Lemma shap_explanation_untruncated
    (self : ModelExplainer.t) (model_type : string) (x : ndarray)
    (max_display : Z) (expl : ShapExplainer) (scaler : Scaler)
    (scaled vals : list float) (answer : shap_values_t) (b : float) :
  shap_explainers self !! model_type = Some expl ->
  scalers (model_manager self) !! (model_type ++ "_scaler") = Some scaler ->
  transform scaler (data x) = OK scaled ->
  shap_call expl scaled = OK answer ->
  handle_multi_class (process_shap_values answer).1 = OK vals ->
  to_float (process_shap_values answer).2 = OK b ->
  length vals = length feature_names ->
  Z.of_nat (length feature_names) <= max_display ->
  exists d,
    get_shap_explanation self model_type x max_display = Explained d /\
    base_value d = b /\
    contributions d ≡ₚ zip feature_names vals /\
    map shap_value (shap_feature_importance d) ≡ₚ vals.
Proof.
  intros He Hs Ht Hc Hsel Hbase Hlen Hmax.
  set (recs := map shap_record (zip feature_names vals)).
  assert (Hall : slice_to (sort_reverse shap_abs_importance recs) max_display ≡ₚ recs).
  { rewrite slice_to_all; [apply sort_reverse_perm|].
    rewrite (Permutation_length (sort_reverse_perm _ _)).
    unfold recs. rewrite length_map, length_zip, <- Hlen. lia. }
  exists {| shap_model_type := model_type;
            base_value := b;
            shap_feature_importance :=
              slice_to (sort_reverse shap_abs_importance recs) max_display;
            total_features := length feature_names;
            shap_explanation_type := "SHAP";
            shap_summary :=
              _generate_shap_summary
                (slice_to (sort_reverse shap_abs_importance recs) 5) |}.
  unfold contributions. cbn [base_value shap_feature_importance].
  repeat split.
  - unfold get_shap_explanation, shap_explanation_body.
    rewrite He, Hs, Ht. cbn [negb bool_decide decide_rel is_Some_dec mbind result_bind Py.bind].
    rewrite (PredictionFacts.getitem_some _ _ _ He).
    cbn [mbind result_bind Py.bind]. rewrite Hc.
    cbn [mbind result_bind Py.bind].
    destruct (process_shap_values answer) as [values base].
    cbn [fst snd] in Hsel, Hbase. rewrite Hsel.
    cbn [mbind result_bind Py.bind]. rewrite Hbase. reflexivity.
  - rewrite Hall. unfold recs. now rewrite shap_records_pairs.
  - rewrite Hall. unfold recs.
    rewrite shap_values_of_pairs, shap_records_pairs, snd_zip by lia. reflexivity.
Qed.

Lemma exact_additive_ones : additive 0 Fixtures.ones 100 124.
Proof. unfold additive. apply Qle_bool_iff. vm_compute. reflexivity. Qed.

(** [column j] collects the entry of index [j] of every row. *)
Lemma column_lookup (j : nat) (rows : list (list float)) : forall col,
  column j rows = OK col ->
  forall i row, rows !! i = Some row -> col !! i = row !! j.
Proof.
  induction rows as [|r rows IH]; simpl; intros col Hcol i row Hrow.
  - destruct i; discriminate.
  - destruct (r !! j) as [v|] eqn:Hv; [|discriminate].
    destruct (column j rows) as [rest|] eqn:Hrest; [|discriminate].
    injection Hcol as <-. destruct i as [|i]; simpl in *.
    + injection Hrow as <-. now rewrite Hv.
    + now apply (IH rest).
Qed.

End AdditiveFacts.

(* ===================================================================== *)
(** * Combined analysis and consensus *)
(* ===================================================================== *)

Module ConsensusFacts.

Import Np Props ModelManager ModelExplainer.

(** The consensus list holds exactly the names common to the three sets
    the code builds. *)
Lemma consensus_spec (a b : explanation ShapDict) (c : explanation LimeDict)
    (name : string) :
  name ∈ _find_consensus_features a b c <->
  name ∈ shap_top5 a /\ name ∈ shap_top5 b /\ name ∈ lime_top5 c.
Proof.
  unfold _find_consensus_features.
  rewrite elem_of_elements, !elem_of_intersection. tauto.
Qed.

Lemma consensus_nodup (a b : explanation ShapDict) (c : explanation LimeDict) :
  NoDup (_find_consensus_features a b c).
Proof. apply NoDup_elements. Qed.

(** A method that failed has an empty top-5 set, which empties the
    consensus. *)
Lemma shap_top5_failed (e : ErrorDict) : shap_top5 (Failed e) = ∅.
Proof. reflexivity. Qed.

Lemma lime_top5_failed (e : ErrorDict) : lime_top5 (Failed e) = ∅.
Proof. reflexivity. Qed.

Lemma consensus_empty_on_error (a b : explanation ShapDict)
    (c : explanation LimeDict) :
  has_error a || has_error b || has_error c = true ->
  _find_consensus_features a b c = [].
Proof.
  intros H. unfold _find_consensus_features.
  assert (E : shap_top5 a ∩ shap_top5 b ∩ lime_top5 c = ∅).
  { destruct a, b, c; simpl in H; try discriminate;
      rewrite ?shap_top5_failed, ?lime_top5_failed;
      repeat (rewrite intersection_empty_l_L || rewrite intersection_empty_r_L);
      reflexivity. }
  rewrite E. apply elements_empty.
Qed.

(** When every one of the first five surrogate records starts with the name
    of the feature it describes, the set the code builds for the surrogate
    is the set of the features described, and the consensus is the
    intersection of the three sets of feature names. *)
Lemma lime_top5_when_names_lead (c : explanation LimeDict) :
  Forall (fun f => described_features (lime_feature f) = [split_first (lime_feature f)])
         (slice_to (feature_importance_of lime_feature_importance c) 5) ->
  lime_top5 c = lime_top5_features c.
Proof.
  unfold lime_top5, lime_top5_features.
  induction 1 as [|f l Hf _ IH]; simpl; [reflexivity|].
  rewrite Hf. simpl. now rewrite IH.
Qed.

(** C2 on the code. Three explanations rank sensor_2 first and sensor_7
    second; the surrogate describes sensor_2 by the two-sided bin
    [0.31 < sensor_2 <= 0.95].  sensor_2 is in all three top-5 sets of
    feature names, yet the consensus holds sensor_7 only: the first token
    of the two-sided description is the bound 0.31. *)
Theorem consensus_misses_two_sided_bin :
  "sensor_2" ∈ shap_top5 Fixtures.rul_ranking /\
  "sensor_2" ∈ shap_top5 Fixtures.failure_ranking /\
  "sensor_2" ∈ lime_top5_features Fixtures.surrogate_ranking /\
  elements (lime_top5 Fixtures.surrogate_ranking) = ["sensor_7"; "0.31"] /\
  _find_consensus_features Fixtures.rul_ranking Fixtures.failure_ranking
    Fixtures.surrogate_ranking = ["sensor_7"].
Proof.
  repeat split; try (vm_compute; reflexivity);
    apply elem_of_list_to_set; vm_compute; repeat constructor.
Qed.

Section Combined.

Variable np_exp : float -> float.

(** An explainer that was never attached gives the error dictionary of its
    explanation type. *)
Lemma shap_unavailable (self : ModelExplainer.t) (model_type : string)
    (x : ndarray) (max_display : Z) :
  shap_explainers self !! model_type = None ->
  get_shap_explanation self model_type x max_display
  = Failed {| error := "SHAP explainer not available for " ++ model_type;
              error_model_type := model_type;
              error_explanation_type := "SHAP" |}.
Proof.
  intros H. unfold get_shap_explanation, shap_explanation_body. now rewrite H.
Qed.

Lemma lime_unavailable (self : ModelExplainer.t) (rng : RandomState)
    (now : timestamp) (x : ndarray) (model_type : string) (n : Z) :
  lime_explainers self !! "tabular" = None ->
  get_lime_explanation np_exp self rng now x model_type n
  = (Failed {| error := "LIME explainer not available";
               error_model_type := model_type;
               error_explanation_type := "LIME" |}, rng).
Proof.
  intros H. unfold get_lime_explanation, lime_explanation_body. now rewrite H.
Qed.

(** Whatever goes wrong inside an explanation method, its error dictionary
    names the explanation type and the model type. *)
Lemma shap_error_names_type (self : ModelExplainer.t) (model_type : string)
    (x : ndarray) (max_display : Z) (e : ErrorDict) :
  get_shap_explanation self model_type x max_display = Failed e ->
  error_explanation_type e = "SHAP" /\ error_model_type e = model_type.
Proof.
  unfold get_shap_explanation.
  destruct (shap_explanation_body self model_type x max_display); simpl;
    intros [= <-]; split; reflexivity.
Qed.

Lemma lime_error_names_type (self : ModelExplainer.t) (rng : RandomState)
    (now : timestamp) (x : ndarray) (model_type : string) (n : Z) (e : ErrorDict) :
  (get_lime_explanation np_exp self rng now x model_type n).1 = Failed e ->
  error_explanation_type e = "LIME" /\ error_model_type e = model_type.
Proof.
  unfold get_lime_explanation.
  destruct (lime_explanation_body np_exp self rng now x model_type n) as [[d|err] rng'];
    simpl; intros [= <-]; split; reflexivity.
Qed.


End Combined.



(** C9 on the code. Two surrogate explanations of the same vector,
    requested one after the other with the same models and explainers and
    the clock standing still, differ.  Both calls succeed; the first leaves
    the global random generator advanced, and the second samples its
    neighbourhood from there.  This holds for either model type. *)
Theorem successive_surrogate_explanations_differ :
  let explain rng model_type :=
    get_lime_explanation Fixtures.exp_series Fixtures.binary_explainer rng
      "2024-01-01T00:00:00" (vector Fixtures.ones) model_type 10 in
  let differ model_type :=
    let first := explain Fixtures.seeded model_type in
    let second := explain first.2 model_type in
    has_error first.1 = false /\
    has_error second.1 = false /\
    first.2 <> Fixtures.seeded /\
    first.1 <> second.1 in
  differ "rul" /\ differ "failure".
Proof.
  cbv zeta.
  split_and!; try (vm_compute; reflexivity);
    vm_compute; intros H; discriminate H.
Qed.

End ConsensusFacts.

(* ===================================================================== *)
(** * Loading and status *)
(* ===================================================================== *)

Module LoadingFacts.

Import Np Props ModelManager ModelLoading.

(** The number of ready entries grows by one with a ready entry under a
    fresh key. *)
Lemma ready_count_empty : ready_count ∅ = 0%nat.
Proof. unfold ready_count. now rewrite map_to_list_empty. Qed.

Lemma ready_count_insert (mi : gmap string ModelInfo) k i :
  mi !! k = None ->
  ready_count (<[k := i]> mi)
  = ((if decide (status i = "ready") then 1 else 0) + ready_count mi)%nat.
Proof.
  intros Hk. unfold ready_count.
  rewrite (Permutation_length
             (filter_Permutation _ _ _
                (fmap_Permutation snd _ _ (map_to_list_insert mi k i Hk)))).
  simpl. rewrite filter_cons. simpl. destruct (decide _); reflexivity.
Qed.

Ltac load_cases fs :=
  unfold init, _load_all_models, _load_anomaly_model, _load_failure_model,
    _load_rul_model, empty;
  destruct (create_rul_model fs) as [[rm rs]|re];
  destruct (create_failure_model fs) as [[fm fsc]|fe];
  destruct (create_anomaly_model fs) as [[am asc]|ae];
  cbn [manager models scalers model_info rul_predictor failure_classifier
       anomaly_detector].

(** X1. After [__init__], whatever the factories did, a model is stored
    exactly when its scaler is stored and exactly when its entry of
    [model_info] has status ready; [model_info] has an entry for each of the
    three models. *)
Theorem init_stores_model_with_scaler (fs : Factories) (t1 t2 t3 : timestamp) :
  let o := init fs t1 t2 t3 in
  let mm := manager o in
  (is_Some (rul_predictor (models mm)) <-> is_Some (scalers mm !! "rul_scaler")) /\
  (is_Some (failure_classifier (models mm))
   <-> is_Some (scalers mm !! "failure_scaler")) /\
  (is_Some (anomaly_detector (models mm))
   <-> is_Some (scalers mm !! "anomaly_scaler")) /\
  (is_Some (rul_predictor (models mm))
   <-> status <$> model_info o !! "rul_predictor" = Some "ready") /\
  (is_Some (failure_classifier (models mm))
   <-> status <$> model_info o !! "failure_classifier" = Some "ready") /\
  (is_Some (anomaly_detector (models mm))
   <-> status <$> model_info o !! "anomaly_detector" = Some "ready") /\
  dom (model_info o)
  = ({["rul_predictor"; "failure_classifier"; "anomaly_detector"]} : gset string).
Proof.
  cbv zeta. load_cases fs; split_and!;
    try (rewrite !dom_insert_L, dom_empty_L; apply set_eq; intros k;
         rewrite !elem_of_union, !elem_of_singleton, elem_of_empty; tauto);
    simplify_map_eq;
    (split; intros H;
     first [ eexists; reflexivity | reflexivity | discriminate H
           | inversion H; discriminate ]).
Qed.

(** X2. The status report of a freshly built manager counts as many healthy
    models as loaded models: the number of factories that answered, at most
    three. *)
Theorem status_counts_agree (fs : Factories) (t1 t2 t3 now : timestamp) :
  let st := get_models_status (init fs t1 t2 t3) now in
  healthy_models st = total_models st /\
  total_models st
  = (answered (create_rul_model fs) + answered (create_failure_model fs) +
     answered (create_anomaly_model fs))%nat /\
  (total_models st <= 3)%nat.
Proof.
  cbv zeta. unfold get_models_status.
  cbn [healthy_models total_models]. load_cases fs;
    (rewrite !ready_count_insert by (simplify_map_eq; reflexivity));
    rewrite ready_count_empty; cbn;
    repeat case_decide; try congruence; split_and!; lia.
Qed.

(** X3. On a freshly built manager each prediction method depends on its
    own factory only: it answers what the factory's model and scaler give,
    whatever happened to the other two loads, and it raises the "not
    available" [ValueError] when its factory raised. *)
Theorem predictions_after_init (fs : Factories) (t1 t2 t3 now : timestamp)
    (x : ndarray) :
  let mm := manager (init fs t1 t2 t3) in
  predict_rul mm now x
  = match create_rul_model fs with
    | OK (model, scaler) => predict_rul (only_rul model scaler) now x
    | Raise _ => Raise (ValueError "RUL model not available")
    end /\
  predict_failure_risk mm now x
  = match create_failure_model fs with
    | OK (model, scaler) =>
      predict_failure_risk (only_failure model scaler) now x
    | Raise _ => Raise (ValueError "Failure classification model not available")
    end /\
  detect_anomaly mm now x
  = match create_anomaly_model fs with
    | OK (model, scaler) => detect_anomaly (only_anomaly model scaler) now x
    | Raise _ => Raise (ValueError "Anomaly detection model not available")
    end.
Proof.
  cbv zeta. unfold predict_rul, predict_failure_risk, detect_anomaly,
    only_rul, only_failure, only_anomaly, getitem.
  load_cases fs; simplify_map_eq; split_and!; reflexivity.
Qed.

End LoadingFacts.

(* ===================================================================== *)
(** * Predictions: confidence and edge cases *)
(* ===================================================================== *)

Module PredictionEdgeFacts.

Import Np Props ModelManager FloatOrder.

(** What a successful [predict_rul] returned. *)
Lemma predict_rul_ok (mm : ModelManager.t) (now : timestamp) (x : ndarray)
    (v : float) (meta : RulMetadata) :
  predict_rul mm now x = OK (v, meta) ->
  meta = {| rul_model_type := "XGBoost";
            prediction_confidence :=
              min2 0.95 (max2 0.6 (1.0 - abs (v - 100) / 200))%float;
            risk_level :=
              if PrimFloat.ltb v 30 then "High"
              else if PrimFloat.ltb v 100 then "Medium" else "Low";
            rul_timestamp := now |}.
Proof.
  unfold predict_rul.
  destruct (rul_predictor _); [|discriminate].
  destruct (getitem _ _) as [scaler|]; [|discriminate]. simpl.
  destruct (transform _ _) as [scaled|]; [|discriminate]. simpl.
  destruct (reg_predict _ _) as [w|]; [|discriminate]. simpl.
  now intros [= -> <-].
Qed.

(** X4. Whatever value the regressor predicts, NaN and the infinities
    included, the confidence [predict_rul] reports lies between 0.6 and
    0.95. *)
Theorem prediction_confidence_clamped (mm : ModelManager.t) (now : timestamp)
    (x : ndarray) (v : float) (meta : RulMetadata) :
  predict_rul mm now x = OK (v, meta) ->
  PrimFloat.leb 0.6 (prediction_confidence meta) = true /\
  PrimFloat.leb (prediction_confidence meta) 0.95 = true.
Proof.
  intros H. rewrite (predict_rul_ok _ _ _ _ _ H). simpl.
  set (e := (1.0 - abs (v - 100) / 200)%float).
  unfold min2, max2.
  destruct (PrimFloat.ltb 0.6 e) eqn:Hlo.
  - destruct (PrimFloat.ltb e 0.95) eqn:Hhi.
    + split; now apply ltb_ltb_leb.
    + split; reflexivity.
  - change (PrimFloat.ltb 0.6 0.95) with true. cbv iota. split; reflexivity.
Qed.

Lemma prediction_confidence_clamped_witness :
  exists meta,
    predict_rul Fixtures.manager "2024-01-01T00:00:00" (vector Fixtures.ones)
    = OK (124%float, meta) /\
    prediction_confidence meta = 0.88%float /\
    PrimFloat.leb 0.6 (prediction_confidence meta) = true /\
    PrimFloat.leb (prediction_confidence meta) 0.95 = true.
Proof.
  eexists. split; [vm_compute; reflexivity|]. split; [reflexivity|].
  apply (prediction_confidence_clamped Fixtures.manager "2024-01-01T00:00:00"
           (vector Fixtures.ones) 124%float).
  vm_compute. reflexivity.
Defined.

(** The mapping of class names to probabilities exists for at most three
    probabilities. *)
Lemma probabilities_dict_spec (probs : list float) :
  probabilities_dict 0 probs
  = if (3 <? length probs)%nat
    then Raise (IndexError "list index out of range")
    else OK (zip classes probs).
Proof.
  destruct probs as [|p0 [|p1 [|p2 [|p3 r]]]]; reflexivity.
Qed.

Lemma index_classes (label : Z) :
  index classes label
  = if (label <? -3) || (3 <=? label)
    then Raise (IndexError "list index out of range")
    else OK (nth (Z.to_nat (label mod 3)) classes "").
Proof.
  unfold index. change (Z.of_nat (length classes)) with 3.
  destruct (Z.ltb_spec label (-3)); simpl.
  - destruct (Z.ltb_spec label 0); [|lia].
    destruct (Z.ltb_spec (label + 3) 0); [reflexivity | lia].
  - destruct (Z.leb_spec 3 label); simpl.
    + destruct (Z.ltb_spec label 0); [lia|].
      destruct (Z.ltb_spec label 0); [lia|].
      destruct (Z.leb_spec 3 label); [reflexivity | lia].
    + assert (Hl : label = -3 \/ label = -2 \/ label = -1 \/ label = 0 \/
                   label = 1 \/ label = 2) by lia.
      destruct Hl as [-> | [-> | [-> | [-> | [-> | ->]]]]]; reflexivity.
Qed.

(** X5. What [predict_failure_risk] does with the label and the
    probabilities the classifier answers: a label outside -3..2 and more
    than three probabilities raise [IndexError]; no probability at all makes
    [max] raise [ValueError]; otherwise the class is the one the label
    indexes, negative labels counting from the end, and the mapping pairs
    the class names, in order, with the probabilities given. *)
Theorem predict_failure_risk_cases
    (mm : ModelManager.t) (now : timestamp) (x : ndarray)
    (model : Classifier) (scaler : Scaler) (scaled : list float)
    (label : Z) (probs : list float) :
  failure_classifier (models mm) = Some model ->
  scalers mm !! "failure_scaler" = Some scaler ->
  transform scaler (data x) = OK scaled ->
  clf_predict model scaled = OK label ->
  predict_proba model scaled = OK probs ->
  predict_failure_risk mm now x
  = if (label <? -3) || (3 <=? label)
    then Raise (IndexError "list index out of range")
    else if (3 <? length probs)%nat
    then Raise (IndexError "list index out of range")
    else match probs with
         | [] => Raise (ValueError "max() arg is an empty sequence")
         | p :: rest =>
           OK (nth (Z.to_nat (label mod 3)) classes "",
               {| failure_model_type := "LightGBM";
                  probabilities := zip classes probs;
                  failure_confidence := fold_left keep_greater rest p;
                  failure_timestamp := now |})
         end.
Proof.
  intros Hm Hs Ht Hl Hp. unfold predict_failure_risk.
  rewrite Hm, (PredictionFacts.getitem_some _ _ _ Hs).
  cbn [mbind result_bind Py.bind]. rewrite Ht.
  cbn [mbind result_bind Py.bind]. rewrite Hl.
  cbn [mbind result_bind Py.bind]. rewrite Hp.
  cbn [mbind result_bind Py.bind]. rewrite index_classes.
  destruct ((label <? -3) || (3 <=? label)); [reflexivity|].
  cbn [mbind result_bind Py.bind]. rewrite probabilities_dict_spec.
  destruct (3 <? length probs)%nat; [reflexivity|].
  cbn [mbind result_bind Py.bind]. destruct probs; reflexivity.
Qed.

Lemma predict_failure_risk_cases_witness :
  predict_failure_risk Fixtures.manager "2024-01-01T00:00:00"
    (vector Fixtures.zeros)
  = OK ("High Risk",
        {| failure_model_type := "LightGBM";
           probabilities :=
             [("Low Risk", 0.2); ("Medium Risk", 0.3); ("High Risk", 0.5)]%float;
           failure_confidence := 0.5;
           failure_timestamp := "2024-01-01T00:00:00" |}).
Proof.
  exact (predict_failure_risk_cases Fixtures.manager "2024-01-01T00:00:00"
           (vector Fixtures.zeros) Fixtures.fixed_classifier
           Fixtures.unit_scaler Fixtures.zeros 2 [0.2; 0.3; 0.5]%float
           eq_refl eq_refl eq_refl eq_refl eq_refl).
Defined.

End PredictionEdgeFacts.

(* ===================================================================== *)
(** * Additive explanations: what is returned *)
(* ===================================================================== *)

Module ShapOutputFacts.

Import Np Props ModelManager ModelExplainer ExplainProps FloatOrder.

Lemma insert_by_perm_forall {A} (key : A -> float) (x : A) (l : list A)
    (P : A -> Prop) :
  Forall P (insert_by key x l) <-> Forall P (x :: l).
Proof. now rewrite (AdditiveFacts.insert_by_perm key x l). Qed.

(** [get_shap_explanation] in terms of the contributions selected. *)
Lemma get_shap_explanation_unfold (self : ModelExplainer.t)
    (model_type : string) (x : ndarray) (max_display : Z) :
  get_shap_explanation self model_type x max_display
  = match selected_contributions self model_type x with
    | OK (values, base) =>
      Explained
        {| shap_model_type := model_type;
           base_value := base;
           shap_feature_importance := slice_to (ranked values) max_display;
           total_features := 24;
           shap_explanation_type := "SHAP";
           shap_summary := _generate_shap_summary (slice_to (ranked values) 5) |}
    | Raise e =>
      Failed {| error := exn_str e;
                error_model_type := model_type;
                error_explanation_type := "SHAP" |}
    end.
Proof.
  unfold get_shap_explanation, shap_explanation_body, selected_contributions.
  destruct (negb _); [reflexivity|].
  destruct (match scalers _ !! _ with Some _ => _ | None => _ end)
    as [scaled|]; [|reflexivity].
  cbn [mbind result_bind Py.bind].
  destruct (getitem _ _) as [explainer|]; [|reflexivity].
  cbn [mbind result_bind Py.bind].
  destruct (shap_call _ _) as [answer|]; [|reflexivity].
  cbn [mbind result_bind Py.bind].
  destruct (process_shap_values answer) as [values base]. cbn [fst snd].
  destruct (handle_multi_class values) as [vals|]; [|reflexivity].
  cbn [mbind result_bind Py.bind].
  destruct (to_float base); reflexivity.
Qed.

(** Sorting puts the greatest key first, for keys that are not NaN. *)
Lemma insert_by_sorted {A} (key : A -> float) (x : A) (l : list A) :
  Forall (fun a => is_nan (key a) = false) (x :: l) ->
  StronglySorted (outranks key) l ->
  StronglySorted (outranks key) (insert_by key x l).
Proof.
  intros Hnan Hs. induction Hs as [|y r Hr IH Hy]; simpl.
  - repeat constructor.
  - assert (Hx : is_nan (key x) = false) by now inversion Hnan.
    assert (Hyn : is_nan (key y) = false).
    { inversion Hnan as [|? ? _ H1]; now inversion H1. }
    destruct (PrimFloat.ltb (key x) (key y)) eqn:E.
    + constructor.
      * apply IH. inversion Hnan as [|? ? ? H1]; inversion H1; now constructor.
      * rewrite (insert_by_perm_forall key x r). constructor; [|exact Hy].
        unfold outranks. now apply ltb_ltb_leb.
    + constructor; [now constructor|].
      assert (Hxy : outranks key x y) by (unfold outranks; now apply not_ltb_leb).
      constructor; [exact Hxy|].
      eapply Forall_impl; [exact Hy|]. intros z Hz. unfold outranks in *.
      eapply leb_trans; eassumption.
Qed.

Lemma sort_reverse_sorted {A} (key : A -> float) (l : list A) :
  Forall (fun a => is_nan (key a) = false) l ->
  StronglySorted (outranks key) (sort_reverse key l).
Proof.
  unfold sort_reverse. induction 1 as [|x l Hx Hl IH]; simpl.
  - constructor.
  - apply insert_by_sorted; [|exact IH].
    constructor; [exact Hx|].
    now rewrite (AdditiveFacts.sort_reverse_perm key l).
Qed.

Lemma StronglySorted_take {A} (R : A -> A -> Prop) (l : list A) (n : nat) :
  StronglySorted R l -> StronglySorted R (take n l).
Proof.
  intros Hs. revert n. induction Hs as [|x l Hl IH Hx]; intros [|n]; simpl;
    try constructor.
  - apply IH.
  - now apply Forall_take.
Qed.

Lemma slice_to_sorted {A} (R : A -> A -> Prop) (l : list A) (stop : Z) :
  StronglySorted R l -> StronglySorted R (slice_to l stop).
Proof.
  intros Hs. unfold slice_to. destruct (stop <? 0); now apply StronglySorted_take.
Qed.

Lemma slice_to_sublist {A} (l : list A) (stop : Z) :
  slice_to l stop `sublist_of` l.
Proof. unfold slice_to. destruct (stop <? 0); apply sublist_take. Qed.

(** The absolute value of a number that is not NaN is not NaN. *)
Lemma is_nan_false (x : float) : Prim2SF x <> S754_nan -> is_nan x = false.
Proof.
  intros H. unfold is_nan. rewrite FloatAxioms.eqb_spec. unfold SFeqb.
  now rewrite (SFcompare_refl _ H).
Qed.

Lemma abs_not_nan (x : float) : is_nan x = false -> is_nan (abs x) = false.
Proof.
  intros H%not_nan. apply is_nan_false. rewrite FloatAxioms.abs_spec.
  destruct (Prim2SF x); simpl; congruence.
Qed.

(** The ranked list has one record per contribution, at most 24. *)
Lemma ranked_length (values : list float) :
  length (ranked values) = Nat.min 24 (length values).
Proof.
  unfold ranked.
  rewrite (Permutation_length (AdditiveFacts.sort_reverse_perm _ _)).
  now rewrite length_map, length_zip.
Qed.

Lemma ranked_perm (values : list float) :
  ranked values ≡ₚ map shap_record (zip feature_names values).
Proof. apply AdditiveFacts.sort_reverse_perm. Qed.

(** X6. An explanation returned by [get_shap_explanation] never holds more
    than 24 records, and for a display count that is not negative never
    more records than the display count. *)
Theorem shap_display_count_bounds (self : ModelExplainer.t)
    (model_type : string) (x : ndarray) (max_display : Z) (d : ShapDict) :
  get_shap_explanation self model_type x max_display = Explained d ->
  (length (shap_feature_importance d) <= 24)%nat /\
  (0 <= max_display -> Z.of_nat (length (shap_feature_importance d)) <= max_display) /\
  total_features d = 24%nat.
Proof.
  rewrite get_shap_explanation_unfold.
  destruct (selected_contributions _ _ _) as [[values base]|]; [|discriminate].
  intros [= <-]. cbn [shap_feature_importance total_features]. split_and!.
  - pose proof (sublist_length _ _ (slice_to_sublist (ranked values) max_display)).
    rewrite ranked_length in *. lia.
  - apply AdditiveFacts.slice_to_length.
  - reflexivity.
Qed.

Lemma shap_display_count_bounds_witness :
  exists d,
    get_shap_explanation Fixtures.explainer "rul" (vector Fixtures.ramp) 5
    = Explained d /\
    (length (shap_feature_importance d) <= 24)%nat /\
    Z.of_nat (length (shap_feature_importance d)) <= 5.
Proof.
  eexists. split; [vm_compute; reflexivity|].
  destruct (shap_display_count_bounds Fixtures.explainer "rul"
              (vector Fixtures.ramp) 5 _ eq_refl) as (H24 & H5 & _).
  split; [exact H24 | apply H5; lia].
Defined.

(** X7. When none of the contributions selected for the instance is NaN,
    the records [get_shap_explanation] returns are in descending order of
    magnitude: each record's magnitude is at least that of every record
    after it. *)
Theorem shap_ranking_sorted (self : ModelExplainer.t) (model_type : string)
    (x : ndarray) (max_display : Z) (values : list float) (base : float) :
  selected_contributions self model_type x = OK (values, base) ->
  Forall (fun v => is_nan v = false) values ->
  exists d,
    get_shap_explanation self model_type x max_display = Explained d /\
    StronglySorted (outranks shap_abs_importance) (shap_feature_importance d).
Proof.
  intros Hsel Hnan. rewrite get_shap_explanation_unfold, Hsel.
  eexists. split; [reflexivity|]. cbn [shap_feature_importance].
  apply slice_to_sorted, sort_reverse_sorted.
  apply Forall_forall. intros f Hf.
  apply list_elem_of_fmap in Hf as ([name v] & -> & Hin). simpl.
  apply abs_not_nan. rewrite Forall_forall in Hnan. apply Hnan.
  apply (elem_of_zip_r _ _ _ _ Hin).
Qed.

Lemma shap_ranking_sorted_witness :
  exists d,
    get_shap_explanation Fixtures.explainer "rul" (vector Fixtures.ramp) 5
    = Explained d /\
    StronglySorted (outranks shap_abs_importance) (shap_feature_importance d).
Proof.
  apply (shap_ranking_sorted Fixtures.explainer "rul" (vector Fixtures.ramp) 5
           Fixtures.ramp 100 eq_refl).
  repeat constructor.
Defined.

(** The 24 feature names are pairwise distinct. *)
Lemma feature_names_NoDup : NoDup feature_names.
Proof. apply (bool_decide_unpack _). vm_compute. exact I. Qed.

Lemma zip_names_sublist {A} (names : list string) (values : list A) :
  (zip names values).*1 `sublist_of` names.
Proof.
  revert values. induction names as [|n names IH]; intros [|v values]; simpl.
  - constructor.
  - constructor.
  - apply sublist_nil_l.
  - apply sublist_skip, IH.
Qed.

Lemma record_names (l : list (string * float)) :
  map shap_feature (map shap_record l) = l.*1.
Proof.
  induction l as [|[n v] l IH]; [reflexivity|].
  cbn. f_equal. exact IH.
Qed.

(** Every ranked record names one of the 24 features. *)
Lemma ranked_names_known (values : list float) (f : ShapFeature) :
  f ∈ ranked values -> shap_feature f ∈ feature_names.
Proof.
  rewrite (ranked_perm values).
  intros ([name v] & -> & Hin)%list_elem_of_fmap. simpl.
  apply (elem_of_zip_l _ _ _ _ Hin).
Qed.

(** The records of a returned explanation are the head of a ranked list. *)
Lemma shap_explained_inv (self : ModelExplainer.t) (model_type : string)
    (x : ndarray) (max_display : Z) (d : ShapDict) :
  get_shap_explanation self model_type x max_display = Explained d ->
  exists values base,
    selected_contributions self model_type x = OK (values, base) /\
    shap_feature_importance d = slice_to (ranked values) max_display.
Proof.
  rewrite get_shap_explanation_unfold.
  destruct (selected_contributions _ _ _) as [[values base]|]; [|discriminate].
  intros [= <-]. now exists values, base.
Qed.

(** X8. In an explanation returned by [get_shap_explanation] no feature
    occurs twice, every record names one of the 24 features, its magnitude
    is the absolute value of its contribution, and its impact is positive
    exactly when the contribution is greater than zero: a contribution of
    zero, or NaN, is reported as negative. *)
Theorem shap_records_well_formed (self : ModelExplainer.t)
    (model_type : string) (x : ndarray) (max_display : Z) (d : ShapDict) :
  get_shap_explanation self model_type x max_display = Explained d ->
  NoDup (map shap_feature (shap_feature_importance d)) /\
  Forall (fun f =>
            shap_feature f ∈ feature_names /\
            shap_abs_importance f = abs (shap_value f) /\
            shap_impact f
            = if PrimFloat.ltb 0 (shap_value f) then "positive" else "negative")
         (shap_feature_importance d).
Proof.
  rewrite get_shap_explanation_unfold.
  destruct (selected_contributions _ _ _) as [[values base]|]; [|discriminate].
  intros [= <-]. cbn [shap_feature_importance].
  pose proof (slice_to_sublist (ranked values) max_display) as Hsub.
  assert (Hnames : map shap_feature (ranked values) ≡ₚ (zip feature_names values).*1).
  { rewrite (ranked_perm values). now rewrite record_names. }
  assert (Hnd : NoDup (map shap_feature (ranked values))).
  { rewrite Hnames.
    apply (sublist_NoDup _ feature_names feature_names_NoDup), zip_names_sublist. }
  split.
  - apply (sublist_NoDup _ _ Hnd). now apply (fmap_sublist shap_feature).
  - apply Forall_forall. intros f Hf.
    assert (Hr : f ∈ ranked values) by (eapply elem_of_sublist; eassumption).
    rewrite (ranked_perm values) in Hr.
    apply list_elem_of_fmap in Hr as ([name v] & -> & Hin). simpl.
    split_and!; try reflexivity.
    apply (elem_of_zip_l _ _ _ _ Hin).
Qed.

Lemma shap_records_well_formed_witness :
  exists d,
    get_shap_explanation Fixtures.explainer "rul" (vector Fixtures.zeros) 2
    = Explained d /\
    map shap_impact (shap_feature_importance d) = ["negative"; "negative"] /\
    NoDup (map shap_feature (shap_feature_importance d)).
Proof.
  eexists. split; [vm_compute; reflexivity|]. split; [reflexivity|].
  apply (shap_records_well_formed Fixtures.explainer "rul"
           (vector Fixtures.zeros) 2 _ eq_refl).
Defined.

(** X9. The display count only cuts the ranked list: for display counts
    [0 <= m1 <= m2], if the call with [m2] returns an explanation then so
    does the call with [m1], its records are the first [m1] records of the
    other, and the base value and the summary are the same.  The summary
    therefore names the top features even when they are not displayed. *)
Theorem shap_display_count_only_truncates (self : ModelExplainer.t)
    (model_type : string) (x : ndarray) (m1 m2 : Z) (d2 : ShapDict) :
  0 <= m1 <= m2 ->
  get_shap_explanation self model_type x m2 = Explained d2 ->
  exists d1,
    get_shap_explanation self model_type x m1 = Explained d1 /\
    shap_feature_importance d1
    = take (Z.to_nat m1) (shap_feature_importance d2) /\
    base_value d1 = base_value d2 /\
    shap_summary d1 = shap_summary d2.
Proof.
  intros Hm. rewrite !get_shap_explanation_unfold.
  destruct (selected_contributions _ _ _) as [[values base]|]; [|discriminate].
  intros [= <-]. eexists. split; [reflexivity|].
  cbn [shap_feature_importance base_value shap_summary]. split_and!; try reflexivity.
  unfold slice_to.
  destruct (Z.ltb_spec m1 0); [lia|]. destruct (Z.ltb_spec m2 0); [lia|].
  rewrite take_take. f_equal. lia.
Qed.

Lemma shap_display_count_only_truncates_witness :
  exists d1,
    get_shap_explanation Fixtures.explainer "rul" (vector Fixtures.ramp) 0
    = Explained d1 /\
    shap_feature_importance d1 = [] /\
    shap_summary d1
    = "The most influential factor is sensor_21, which increases the prediction. Other important factors include sensor_20, sensor_19.".
Proof.
  destruct (shap_display_count_only_truncates Fixtures.explainer "rul"
              (vector Fixtures.ramp) 0 10 _ ltac:(lia) eq_refl)
    as (d1 & Hrun & Hfi & _ & Hsum).
  exists d1. split; [exact Hrun|]. split.
  - rewrite Hfi. reflexivity.
  - rewrite Hsum. vm_compute. reflexivity.
Defined.

End ShapOutputFacts.

(* ===================================================================== *)
(** * Surrogate explanations and consensus: what is returned *)
(* ===================================================================== *)

Module LimeOutputFacts.

Import Np Props ModelManager ModelExplainer ExplainProps FloatOrder.

(** Mapping a function that may raise over a list answers one result per
    item, or raises as soon as one item does. *)
Lemma mapM_ok {A B} (f : A -> result B) (l : list A) (out : list B) :
  mapM f l = OK out -> Forall2 (fun a b => f a = OK b) l out.
Proof.
  revert out. induction l as [|a l IH]; intros out; simpl.
  - intros [= <-]. constructor.
  - destruct (f a) as [b|] eqn:Ha; [|discriminate]. simpl.
    destruct (mapM f l) as [k|]; [|discriminate]. simpl.
    intros [= <-]. constructor; [exact Ha | now apply IH].
Qed.

Lemma mapM_raise {A B} (f : A -> result B) (l : list A) (a : A) (e : exn) :
  a ∈ l -> f a = Raise e -> exists e', mapM f l = Raise e'.
Proof.
  intros Hin Ha. induction l as [|a' l IH]; [inversion Hin|].
  simpl. destruct (f a') as [b|e1] eqn:Ha'; [|eexists; reflexivity]. simpl.
  apply elem_of_cons in Hin as [-> | Hin]; [congruence|].
  destruct (IH Hin) as [e' ->]. eexists. reflexivity.
Qed.

(** A set built from a list has at most as many elements as the list. *)
Lemma size_list_to_set_le (l : list string) :
  (size (list_to_set l : gset string) <= length l)%nat.
Proof.
  induction l as [|a l IH].
  - change (list_to_set [] : gset string) with (∅ : gset string).
    rewrite size_empty. simpl. lia.
  - change (list_to_set (a :: l) : gset string)
      with ({[a]} ∪ list_to_set l : gset string).
    rewrite size_union_alt, size_singleton. simpl.
    pose proof (subseteq_size (list_to_set l ∖ {[a]}) (list_to_set l : gset string)
                  (subseteq_difference_l _ _ _ (reflexivity _))).
    lia.
Qed.

Lemma slice_to_5_length {A} (l : list A) : (length (slice_to l 5) <= 5)%nat.
Proof. unfold slice_to. simpl. rewrite length_take. lia. Qed.

Lemma shap_top5_small (d : explanation ShapDict) : (size (shap_top5 d) <= 5)%nat.
Proof.
  unfold shap_top5. etransitivity; [apply size_list_to_set_le|].
  rewrite length_map. apply slice_to_5_length.
Qed.

(** The names in the top-5 set of an additive explanation that was returned
    by [get_shap_explanation] are feature names. *)
Lemma shap_top5_known (self : ModelExplainer.t) (model_type : string)
    (x : ndarray) (max_display : Z) (name : string) :
  name ∈ shap_top5 (get_shap_explanation self model_type x max_display) ->
  name ∈ feature_names.
Proof.
  unfold shap_top5. rewrite elem_of_list_to_set.
  intros (f & -> & Hf)%list_elem_of_fmap.
  pose proof (elem_of_sublist _ _ _ Hf (ShapOutputFacts.slice_to_sublist _ 5)) as Hf'.
  clear Hf. unfold feature_importance_of in Hf'.
  destruct (get_shap_explanation _ _ _ _) as [d|err] eqn:Hrun; [|inversion Hf'].
  apply ShapOutputFacts.shap_explained_inv in Hrun as (values & base & _ & Hfi).
  rewrite Hfi in Hf'.
  apply (ShapOutputFacts.ranked_names_known values).
  eapply elem_of_sublist; [exact Hf' | apply ShapOutputFacts.slice_to_sublist].
Qed.

Section Surrogate.

Variable np_exp : float -> float.

(** X10. The consensus of a combined analysis lists no name twice, holds at
    most five names, and every one of them is one of the 24 feature names. *)
Theorem consensus_small_and_known (self : ModelExplainer.t) (rng : RandomState)
    (now analysis_now : timestamp) (x : ndarray) :
  let a := (get_feature_impact_analysis np_exp self rng now analysis_now x).1 in
  NoDup (consensus_features a) /\
  (length (consensus_features a) <= 5)%nat /\
  (forall name, name ∈ consensus_features a -> name ∈ feature_names).
Proof.
  cbv zeta. unfold get_feature_impact_analysis.
  destruct (get_lime_explanation _ _ _ _ _ _ _) as [lime rng'].
  cbn [fst consensus_features]. split_and!.
  - apply ConsensusFacts.consensus_nodup.
  - unfold _find_consensus_features.
    change (length (elements ?X)) with (size X).
    etransitivity; [|apply (shap_top5_small (get_shap_explanation self "rul" x 10))].
    apply subseteq_size. intros name. rewrite !elem_of_intersection. tauto.
  - intros name (Hrul & _ & _)%ConsensusFacts.consensus_spec.
    exact (shap_top5_known self "rul" x 10 name Hrul).
Qed.

(** X11. [predict_fn] answers for all the perturbed rows or for none: when
    it returns, it returns one row per input row (two entries each for the
    RUL model), and when the nested prediction raises for one row the whole
    call raises. *)
Theorem predict_fn_all_or_nothing (self : ModelExplainer.t) (now : timestamp)
    (model_type : string) (X : list (list float)) :
  (forall out, predict_fn np_exp self now model_type X = OK out ->
               length out = length X /\
               (model_type = "rul" -> Forall (fun row => length row = 2%nat) out)) /\
  (forall row e,
      row ∈ X -> model_type = "rul" ->
      predict_rul (model_manager self) now (vector row) = Raise e ->
      exists e', predict_fn np_exp self now model_type X = Raise e') /\
  (forall row e,
      row ∈ X -> model_type <> "rul" ->
      predict_failure_risk (model_manager self) now (vector row) = Raise e ->
      exists e', predict_fn np_exp self now model_type X = Raise e').
Proof.
  unfold predict_fn. split_and!.
  - intros out Hout. destruct (String.eqb_spec model_type "rul") as [E|E].
    + apply mapM_ok in Hout. split; [symmetry; exact (Forall2_length _ _ _ Hout)|].
      intros _. clear E. induction Hout as [|row r X' out' Hr _ IH]; constructor.
      * destruct (predict_rul _ _ _) as [[pred meta]|]; [|discriminate].
        simpl in Hr. now injection Hr as <-.
      * exact IH.
    + apply mapM_ok in Hout. split; [symmetry; exact (Forall2_length _ _ _ Hout)|].
      intros ->. contradiction.
  - intros row e Hin -> Hr. simpl.
    apply (mapM_raise _ X row e Hin). now rewrite Hr.
  - intros row e Hin Hne Hr.
    destruct (String.eqb_spec model_type "rul") as [E|_]; [contradiction|].
    apply (mapM_raise _ X row e Hin). now rewrite Hr.
Qed.

(** X12. An explanation returned by [get_lime_explanation] holds exactly the
    records the explainer listed, reordered: the code itself never drops or
    adds a record, whatever [num_features] is.  They are in descending order
    of magnitude when no importance is NaN, and the local prediction is an
    entry of the probabilities the explainer reported. *)
Theorem lime_explanation_records (self : ModelExplainer.t) (rng rng' : RandomState)
    (now : timestamp) (x : ndarray) (model_type : string) (num_features : Z)
    (d : LimeDict) :
  get_lime_explanation np_exp self rng now x model_type num_features
  = (Explained d, rng') ->
  exists explainer e,
    lime_explainers self !! "tabular" = Some explainer /\
    explain_instance explainer rng (data x)
      (predict_fn np_exp self now model_type) num_features = (OK e, rng') /\
    lime_model_type d = model_type /\
    lime_feature_importance d ≡ₚ map lime_record (as_list e) /\
    length (lime_feature_importance d) = length (as_list e) /\
    (Forall (fun fi => is_nan fi.2 = false) (as_list e) ->
     StronglySorted (outranks lime_abs_importance) (lime_feature_importance d)) /\
    local_prediction d ∈ lime_predict_proba e.
Proof.
  unfold get_lime_explanation, lime_explanation_body.
  destruct (lime_explainers self !! "tabular") as [explainer|]; [|discriminate].
  destruct (explain_instance _ _ _ _ _) as [[e|err] r] eqn:Hrun; [|discriminate].
  cbn [mbind result_bind Py.bind]. unfold lime_process.
  destruct (if (1 <? length (lime_predict_proba e))%nat
            then index (lime_predict_proba e) 1
            else index (lime_predict_proba e) 0) as [local|] eqn:Hlocal;
    [|discriminate].
  cbn [mbind result_bind Py.bind try_except]. intros [= <- <-].
  exists explainer, e. cbn [lime_model_type lime_feature_importance local_prediction].
  split_and!; try reflexivity.
  - exact Hrun.
  - apply AdditiveFacts.sort_reverse_perm.
  - rewrite (Permutation_length (AdditiveFacts.sort_reverse_perm _ _)).
    apply length_map.
  - intros Hnan. apply ShapOutputFacts.sort_reverse_sorted.
    apply Forall_forall. intros f ([name v] & -> & Hin)%list_elem_of_fmap. simpl.
    apply ShapOutputFacts.abs_not_nan.
    rewrite Forall_forall in Hnan. exact (Hnan _ Hin).
  - assert (Hidx : forall i, index (lime_predict_proba e) i = OK local ->
                             local ∈ lime_predict_proba e).
    { intros i. unfold index.
      destruct (_ || _); [discriminate|].
      destruct (lime_predict_proba e !! _) eqn:Hl; [|discriminate].
      intros [= <-]. eapply list_elem_of_lookup_2, Hl. }
    destruct (1 <? length (lime_predict_proba e))%nat; eapply Hidx, Hlocal.
Qed.

End Surrogate.

Lemma lime_explanation_records_witness :
  exists d rng',
    get_lime_explanation Fixtures.exp_series Fixtures.explainer Fixtures.seeded
      "2024-01-01T00:00:00" (vector Fixtures.ones) "failure" 10
    = (Explained d, rng') /\
    lime_model_type d = "failure" /\
    local_prediction d ∈ [0.2; 0.3; 0.5]%float.
Proof.
  eexists _, _. split; [vm_compute; reflexivity|].
  destruct (lime_explanation_records Fixtures.exp_series Fixtures.explainer
              Fixtures.seeded _ "2024-01-01T00:00:00" (vector Fixtures.ones)
              "failure" 10 _ eq_refl)
    as (explainer & e & Hex & Hrun & Hmt & _ & _ & _ & Hlocal).
  split; [exact Hmt|].
  vm_compute in Hex. injection Hex as <-.
  vm_compute in Hrun. injection Hrun as <-. exact Hlocal.
Defined.

Lemma predict_fn_all_or_nothing_witness :
  exists out,
    predict_fn Fixtures.exp_series Fixtures.explainer "2024-01-01T00:00:00" "rul"
      [Fixtures.ones; Fixtures.zeros] = OK out /\
    length out = 2%nat /\ Forall (fun row => length row = 2%nat) out.
Proof.
  eexists. split; [vm_compute; reflexivity|].
  destruct (proj1 (predict_fn_all_or_nothing Fixtures.exp_series
                     Fixtures.explainer "2024-01-01T00:00:00" "rul"
                     [Fixtures.ones; Fixtures.zeros]) _ eq_refl) as [Hlen Hrows].
  split; [exact Hlen | exact (Hrows eq_refl)].
Defined.

End LimeOutputFacts.

(* ===================================================================== *)
(** * Building the explainers *)
(* ===================================================================== *)

Module ExplainerLoadingFacts.

Import Np Props ModelManager ModelExplainer ExplainerLoading.

(** What each [if] of [_init_shap_explainers] can add. *)
Lemma attach_rul_lookup (libs : Libraries) (mm : ModelManager.t)
    (bg : list (list float)) (exs exs' : gmap string ShapExplainer) :
  attach_rul libs mm bg exs = OK exs' ->
  exs' = exs \/
  (is_Some (scalers mm !! "rul_scaler") /\ is_Some (rul_predictor (models mm)) /\
   exists ex, exs' = <["rul" := ex]> exs).
Proof.
  unfold attach_rul, models_rul_predictor.
  destruct (scalers mm !! "rul_scaler") as [scaler|]; [|intros [= <-]; now left].
  destruct (mapM _ _) as [rows|]; [|discriminate]. cbn [mbind result_bind Py.bind].
  destruct (rul_predictor _) as [model|]; [|discriminate].
  cbn [mbind result_bind Py.bind].
  destruct (shap_Explainer_regressor _ _ _) as [ex|]; [|discriminate].
  cbn [mbind result_bind Py.bind]. intros [= <-]. right. eauto.
Qed.

Lemma attach_failure_lookup (libs : Libraries) (mm : ModelManager.t)
    (bg : list (list float)) (exs exs' : gmap string ShapExplainer) :
  attach_failure libs mm bg exs = OK exs' ->
  exs' = exs \/
  (is_Some (scalers mm !! "failure_scaler") /\
   is_Some (failure_classifier (models mm)) /\
   exists ex, exs' = <["failure" := ex]> exs).
Proof.
  unfold attach_failure, models_failure_classifier.
  destruct (scalers mm !! "failure_scaler") as [scaler|]; [|intros [= <-]; now left].
  destruct (mapM _ _) as [rows|]; [|discriminate]. cbn [mbind result_bind Py.bind].
  destruct (failure_classifier _) as [model|]; [|discriminate].
  cbn [mbind result_bind Py.bind].
  destruct (shap_Explainer_classifier _ _ _) as [ex|]; [|discriminate].
  cbn [mbind result_bind Py.bind]. intros [= <-]. right. eauto.
Qed.

Lemma init_shap_lookup (libs : Libraries) (mm : ModelManager.t)
    (bg : list (list float)) (key : string) (ex : ShapExplainer) :
  _init_shap_explainers libs mm bg ∅ !! key = Some ex ->
  (key = "rul" /\ is_Some (scalers mm !! "rul_scaler") /\
   is_Some (rul_predictor (models mm))) \/
  (key = "failure" /\ is_Some (scalers mm !! "failure_scaler") /\
   is_Some (failure_classifier (models mm))).
Proof.
  unfold _init_shap_explainers.
  destruct (attach_rul libs mm bg ∅) as [exs1|] eqn:H1;
    [|rewrite lookup_empty; discriminate].
  assert (Hrul : exs1 !! key = Some ex ->
                 key = "rul" /\ is_Some (scalers mm !! "rul_scaler") /\
                 is_Some (rul_predictor (models mm))).
  { apply attach_rul_lookup in H1 as [-> | (Hs & Hm & ex1 & ->)].
    - rewrite lookup_empty. discriminate.
    - destruct (decide (key = "rul")) as [->|Hne]; [now auto|].
      rewrite lookup_insert_ne, lookup_empty by congruence. discriminate. }
  destruct (attach_failure libs mm bg exs1) as [exs2|] eqn:H2; [|now left; auto].
  apply attach_failure_lookup in H2 as [-> | (Hs & Hm & ex2 & ->)]; [now left; auto|].
  destruct (decide (key = "failure")) as [->|Hne]; [now right|].
  rewrite lookup_insert_ne by congruence. now left; auto.
Qed.

(** X13. An explainer object built by [__init__] holds additive explainers
    under the keys rul and failure only, each only together with the scaler
    and the model of that name, and a surrogate explainer under the key
    tabular only.  So [get_shap_explanation] on such an object never hands
    unscaled data to an explainer. *)
Theorem attached_explainer_has_scaler (libs : Libraries) (mm : ModelManager.t) :
  let self := init libs mm in
  model_manager self = mm /\
  (forall model_type ex,
      shap_explainers self !! model_type = Some ex ->
      (model_type = "rul" \/ model_type = "failure") /\
      is_Some (scalers mm !! (model_type ++ "_scaler"))) /\
  (shap_explainers self !! "rul" <> None ->
   is_Some (rul_predictor (models mm))) /\
  (shap_explainers self !! "failure" <> None ->
   is_Some (failure_classifier (models mm))) /\
  (forall key ex, lime_explainers self !! key = Some ex -> key = "tabular").
Proof.
  cbv zeta. unfold init.
  destruct (generate_synthetic_turbofan_data libs 1000) as [bg|];
    cbn [model_manager shap_explainers lime_explainers].
  - split_and!; [reflexivity| | | |].
    + intros mt ex [(-> & Hs & _) | (-> & Hs & _)]%init_shap_lookup; auto.
    + destruct (_init_shap_explainers libs mm bg ∅ !! "rul") as [ex|] eqn:E;
        [|congruence].
      intros _. apply init_shap_lookup in E as [(_ & _ & H) | (H & _)];
        [exact H | discriminate H].
    + destruct (_init_shap_explainers libs mm bg ∅ !! "failure") as [ex|] eqn:E;
        [|congruence].
      intros _. apply init_shap_lookup in E as [(H & _) | (_ & _ & H)];
        [discriminate H | exact H].
    + intros key ex. unfold _init_lime_explainers.
      destruct (LimeTabularExplainer _ _ _ _); [|rewrite lookup_empty; discriminate].
      destruct (decide (key = "tabular")) as [->|Hne]; [reflexivity|].
      rewrite lookup_insert_ne, lookup_empty by congruence. discriminate.
  - split_and!; try reflexivity; try (intros ? ?); rewrite ?lookup_empty;
      try discriminate; congruence.
Qed.

Lemma attached_explainer_has_scaler_witness :
  is_Some (scalers Fixtures.manager !! "rul_scaler") /\
  is_Some (failure_classifier (models Fixtures.manager)).
Proof.
  pose proof (attached_explainer_has_scaler LoadingFixtures.libraries
                Fixtures.manager) as H.
  cbv zeta in H. destruct H as (_ & Hscaler & _ & Hmodel & _). split.
  - apply (Hscaler "rul" Fixtures.linear_shap). reflexivity.
  - apply Hmodel. vm_compute. discriminate.
Defined.

(** X14. When attaching the additive explainer of the RUL model raises,
    the explainer of the failure model is not attempted: no additive
    explainer is attached, and failure explanations answer the error
    dictionary, while the surrogate explainer is built as usual. *)
Theorem rul_explainer_failure_cascades (libs : Libraries) (mm : ModelManager.t)
    (bg : list (list float)) (e : exn) (x : ndarray) (max_display : Z) :
  generate_synthetic_turbofan_data libs 1000 = OK bg ->
  attach_rul libs mm bg ∅ = Raise e ->
  let self := init libs mm in
  shap_explainers self = ∅ /\
  lime_explainers self = _init_lime_explainers libs bg ∅ /\
  get_shap_explanation self "failure" x max_display
  = Failed {| error := "SHAP explainer not available for failure";
              error_model_type := "failure";
              error_explanation_type := "SHAP" |}.
Proof.
  intros Hbg Hrul. cbv zeta. unfold init. rewrite Hbg.
  cbn [shap_explainers lime_explainers].
  assert (Hnone : _init_shap_explainers libs mm bg ∅ = ∅)
    by (unfold _init_shap_explainers; now rewrite Hrul).
  split_and!; [exact Hnone | reflexivity |].
  apply ConsensusFacts.shap_unavailable.
  cbn [shap_explainers]. rewrite Hnone. apply lookup_empty.
Qed.

Lemma rul_explainer_failure_cascades_witness :
  let self := init LoadingFixtures.rul_explainer_fails Fixtures.manager in
  shap_explainers self = ∅ /\
  lime_explainers self !! "tabular" = Some Fixtures.sampling_lime /\
  has_error (get_shap_explanation self "failure" (vector Fixtures.ones) 10) = true.
Proof.
  cbv zeta.
  destruct (rul_explainer_failure_cascades LoadingFixtures.rul_explainer_fails
              Fixtures.manager [Fixtures.ones; Fixtures.ramp]
              (LibraryError "model type not supported")
              (vector Fixtures.ones) 10 eq_refl eq_refl) as (Hs & Hl & Hf).
  split_and!.
  - exact Hs.
  - rewrite Hl. reflexivity.
  - rewrite Hf. reflexivity.
Defined.

Section Degraded.

Variable np_exp : float -> float.

(** X15. When the reference data cannot be produced, no explainer is
    attached: both additive explanations and the surrogate explanation
    answer error dictionaries, the random generator is left as it was, and
    the consensus of a combined analysis is empty. *)
Theorem no_reference_data_no_explanations (libs : Libraries)
    (mm : ModelManager.t) (e : exn) (rng : RandomState)
    (now analysis_now : timestamp) (x : ndarray) :
  generate_synthetic_turbofan_data libs 1000 = Raise e ->
  let self := init libs mm in
  let a := get_feature_impact_analysis np_exp self rng now analysis_now x in
  shap_rul a.1
  = Failed {| error := "SHAP explainer not available for rul";
              error_model_type := "rul";
              error_explanation_type := "SHAP" |} /\
  shap_failure a.1
  = Failed {| error := "SHAP explainer not available for failure";
              error_model_type := "failure";
              error_explanation_type := "SHAP" |} /\
  lime_local a.1
  = Failed {| error := "LIME explainer not available";
              error_model_type := "failure";
              error_explanation_type := "LIME" |} /\
  consensus_features a.1 = [] /\
  a.2 = rng.
Proof.
  intros Hbg. cbv zeta. unfold init. rewrite Hbg.
  unfold get_feature_impact_analysis.
  rewrite (ConsensusFacts.lime_unavailable np_exp _ rng now x "failure" 10)
    by apply lookup_empty.
  rewrite !ConsensusFacts.shap_unavailable by apply lookup_empty.
  cbn [fst snd shap_rul shap_failure lime_local consensus_features].
  split_and!; try reflexivity.
Qed.

End Degraded.

Lemma no_reference_data_no_explanations_witness :
  let self := init LoadingFixtures.no_reference_data Fixtures.manager in
  let a := get_feature_impact_analysis Fixtures.exp_series self Fixtures.seeded
             "2024-01-01T00:00:00" "2024-01-01T00:00:00" (vector Fixtures.ones) in
  consensus_features a.1 = [] /\ a.2 = Fixtures.seeded.
Proof.
  cbv zeta.
  destruct (no_reference_data_no_explanations Fixtures.exp_series
              LoadingFixtures.no_reference_data Fixtures.manager
              (LibraryError "reference data unavailable") Fixtures.seeded
              "2024-01-01T00:00:00" "2024-01-01T00:00:00" (vector Fixtures.ones)
              eq_refl) as (_ & _ & _ & Hc & Hr).
  split; assumption.
Defined.

End ExplainerLoadingFacts.
(* ===================================================================== *)
(** * The request handlers *)
(* ===================================================================== *)

Module ApiFacts.

Import Np Props ModelManager Http ApiProps.

(** What [validate_input_data] raises, by the shape and the content of the
    array. *)
Lemma validate_input_data_cases (x : ndarray) :
  validate_input_data x
  = match last (shape x) with
    | None => Raise (IndexError "tuple index out of range")
    | Some n =>
      if negb (n =? 24)%nat then
        Raise (ValueError ("Expected 24 features, got " ++ str_nat n))
      else if any (isnan x) || any (isinf x) then
        Raise (ValueError "Input data contains NaN or infinite values")
      else OK true
    end.
Proof.
  unfold validate_input_data, shape_last. destruct (last (shape x)); reflexivity.
Qed.

Lemma validate_input_data_returns (x : ndarray) (b : bool) :
  validate_input_data x = OK b -> b = true.
Proof.
  rewrite validate_input_data_cases. destruct (last (shape x)); [|discriminate].
  destruct (negb _); [discriminate|]. destruct (_ || _); [discriminate|].
  now intros [= <-].
Qed.

(** X16. An array of numbers that fails validation is answered alike by
    the four handlers of one sample, whatever models and explainers are
    loaded: 400 with the validator's message and status validation_error
    when the array has an axis, and the server error 500 when it has none.
    The arrays are those of [ndarray], whose elements are floating-point
    numbers; a [sensor_data] of strings or nulls, which [np.array] turns
    into an array of another type, is not among them. *)
Theorem invalid_array_answered_alike (mm : ModelManager.t)
    (explainer : ModelExplainer.t)
    (j1 : Jsonify PredictionApi.RulPayload)
    (j2 : Jsonify PredictionApi.FailurePayload)
    (j3 : Jsonify AnomalyApi.DetectPayload)
    (j4 : Jsonify (ExplainabilityApi.Annotated
                     (ModelExplainer.explanation ModelExplainer.ShapDict)))
    (now : timestamp) (sensor : ndarray) (machine : option string)
    (threshold : option float) (model_type : option string)
    (max_features num_features : option Z) :
  validate_input_data sensor <> OK true ->
  let answer : string * string * nat :=
    match last (shape sensor) with
    | None => ("Internal server error", "error", 500%nat)
    | Some n =>
      (if (n =? 24)%nat then "Input data contains NaN or infinite values"
       else "Expected 24 features, got " ++ str_nat n,
       "validation_error", 400%nat)
    end in
  let '(msg, status, code) := answer in
  PredictionApi.predict_rul mm j1 now
    (Some {| PredictionApi.sensor_data := Some sensor;
             PredictionApi.machine_id := machine |})
  = (ErrorBody msg (Some status), code) /\
  PredictionApi.predict_failure_risk mm j2 now
    (Some {| PredictionApi.sensor_data := Some sensor;
             PredictionApi.machine_id := machine |})
  = (ErrorBody msg (Some status), code) /\
  AnomalyApi.detect_anomaly mm j3 now
    (Some {| AnomalyApi.sensor_data := Some sensor;
             AnomalyApi.machine_id := machine;
             AnomalyApi.threshold := threshold |})
  = (ErrorBody msg (Some status), code) /\
  ExplainabilityApi.get_shap_explanation explainer j4 now
    (Some {| ExplainabilityApi.sensor_data := Some sensor;
             ExplainabilityApi.model_type := model_type;
             ExplainabilityApi.machine_id := machine;
             ExplainabilityApi.max_features := max_features;
             ExplainabilityApi.num_features := num_features |})
  = (ErrorBody msg (Some status), code).
Proof.
  intros Hbad. cbv zeta.
  unfold PredictionApi.predict_rul, PredictionApi.predict_failure_risk,
    AnomalyApi.detect_anomaly, ExplainabilityApi.get_shap_explanation.
  cbn [PredictionApi.sensor_data AnomalyApi.sensor_data
       ExplainabilityApi.sensor_data].
  rewrite validate_input_data_cases in Hbad |- *.
  destruct (last (shape sensor)) as [n|]; [|now split_and!].
  destruct (n =? 24)%nat; cbn [negb] in *; [|now split_and!].
  destruct (any (isnan sensor) || any (isinf sensor)); [now split_and!|].
  congruence.
Qed.

Lemma invalid_array_answered_alike_witness :
  PredictionApi.predict_rul Fixtures.manager accepts_all "2024-01-01T00:00:00"
    (Some {| PredictionApi.sensor_data := Some (vector [1; 2; 3]%float);
             PredictionApi.machine_id := None |})
  = (ErrorBody "Expected 24 features, got 3" (Some "validation_error"), 400%nat) /\
  AnomalyApi.detect_anomaly Fixtures.manager accepts_all "2024-01-01T00:00:00"
    (Some {| AnomalyApi.sensor_data := Some (vector [1; 2; 3]%float);
             AnomalyApi.machine_id := None;
             AnomalyApi.threshold := None |})
  = (ErrorBody "Expected 24 features, got 3" (Some "validation_error"), 400%nat).
Proof.
  pose proof (invalid_array_answered_alike Fixtures.manager Fixtures.explainer
                accepts_all accepts_all accepts_all accepts_all
                "2024-01-01T00:00:00" (vector [1; 2; 3]%float) None None None
                None None) as H.
  cbv zeta in H. cbn [last shape vector length Nat.eqb] in H.
  destruct H as (H1 & _ & H3 & _); [vm_compute; discriminate|].
  split; [exact H1 | exact H3].
Defined.

(** A failed load leaves no model behind. *)
Lemma init_without_model (fs : ModelLoading.Factories) (t1 t2 t3 : timestamp) :
  let mm := ModelLoading.manager (ModelLoading.init fs t1 t2 t3) in
  (forall e, ModelLoading.create_rul_model fs = Raise e ->
             rul_predictor (models mm) = None) /\
  (forall e, ModelLoading.create_failure_model fs = Raise e ->
             failure_classifier (models mm) = None) /\
  (forall e, ModelLoading.create_anomaly_model fs = Raise e ->
             anomaly_detector (models mm) = None).
Proof.
  cbv zeta.
  unfold ModelLoading.init, ModelLoading._load_all_models,
    ModelLoading._load_anomaly_model, ModelLoading._load_failure_model,
    ModelLoading._load_rul_model, ModelLoading.empty.
  destruct (ModelLoading.create_rul_model fs) as [[rm rs]|re];
    destruct (ModelLoading.create_failure_model fs) as [[fm fsc]|fe];
    destruct (ModelLoading.create_anomaly_model fs) as [[am asc]|ae];
    cbn [ModelLoading.manager models rul_predictor failure_classifier
         anomaly_detector];
    split_and!; intros e; (discriminate || reflexivity).
Qed.

(** X17. A model whose load failed when the manager was built is reported
    to the client as its own mistake: for every valid array the handler of
    that model answers 400 with status validation_error and the message of
    the missing model, not a server error. *)
Theorem unloaded_model_answers_400 (fs : ModelLoading.Factories)
    (t1 t2 t3 now : timestamp)
    (j1 : Jsonify PredictionApi.RulPayload)
    (j2 : Jsonify PredictionApi.FailurePayload)
    (j3 : Jsonify AnomalyApi.DetectPayload)
    (sensor : ndarray) (machine : option string) (threshold : option float) :
  validate_input_data sensor = OK true ->
  let mm := ModelLoading.manager (ModelLoading.init fs t1 t2 t3) in
  (forall e, ModelLoading.create_rul_model fs = Raise e ->
     PredictionApi.predict_rul mm j1 now
       (Some {| PredictionApi.sensor_data := Some sensor;
                PredictionApi.machine_id := machine |})
     = (ErrorBody "RUL model not available" (Some "validation_error"),
        400%nat)) /\
  (forall e, ModelLoading.create_failure_model fs = Raise e ->
     PredictionApi.predict_failure_risk mm j2 now
       (Some {| PredictionApi.sensor_data := Some sensor;
                PredictionApi.machine_id := machine |})
     = (ErrorBody "Failure classification model not available"
          (Some "validation_error"), 400%nat)) /\
  (forall e, ModelLoading.create_anomaly_model fs = Raise e ->
     AnomalyApi.detect_anomaly mm j3 now
       (Some {| AnomalyApi.sensor_data := Some sensor;
                AnomalyApi.machine_id := machine;
                AnomalyApi.threshold := threshold |})
     = (ErrorBody "Anomaly detection model not available"
          (Some "validation_error"), 400%nat)).
Proof.
  intros Hvalid. cbv zeta.
  destruct (init_without_model fs t1 t2 t3) as (Hrul & Hfail & Hanom).
  unfold PredictionApi.predict_rul, PredictionApi.predict_failure_risk,
    AnomalyApi.detect_anomaly.
  cbn [PredictionApi.sensor_data AnomalyApi.sensor_data].
  rewrite Hvalid. cbn [mbind result_bind Py.bind].
  unfold predict_rul, predict_failure_risk, detect_anomaly.
  split_and!; intros e He.
  - now rewrite (Hrul e He).
  - now rewrite (Hfail e He).
  - now rewrite (Hanom e He).
Qed.

Lemma unloaded_model_answers_400_witness :
  PredictionApi.predict_rul
    (ModelLoading.manager
       (ModelLoading.init LoadingFixtures.factories_without_rul
          "2024-01-01T00:00:00" "2024-01-01T00:00:01" "2024-01-01T00:00:02"))
    accepts_all "2024-01-01T00:00:03"
    (Some {| PredictionApi.sensor_data := Some (vector Fixtures.ones);
             PredictionApi.machine_id := Some "MACHINE-001" |})
  = (ErrorBody "RUL model not available" (Some "validation_error"), 400%nat).
Proof.
  refine (proj1 (unloaded_model_answers_400 LoadingFixtures.factories_without_rul
                   _ _ _ _ accepts_all accepts_all accepts_all
                   (vector Fixtures.ones) (Some "MACHINE-001") None _)
                (LibraryError "xgboost is not installed") _).
  - vm_compute. reflexivity.
  - reflexivity.
Defined.

(** The two closing [except] clauses turn every exception into a
    conventional answer. *)
Lemma handle_conventional {A} (r : result (Response A)) :
  (forall resp, r = OK resp -> conventional resp) -> conventional (handle r).
Proof.
  intros H. destruct r as [resp|e]; simpl; [now apply H|].
  destruct e; simpl; auto.
Qed.

Lemma handle_any_conventional {A} (r : result (Response A)) :
  (forall resp, r = OK resp -> conventional resp) -> conventional (handle_any r).
Proof.
  intros H. destruct r as [resp|e]; simpl; [now apply H|].
  destruct e; simpl; auto.
Qed.

Lemma bind_ok {A B} (m : result A) (k : A -> result B) (b : B) :
  (a ← m; k a) = OK b -> exists a, m = OK a /\ k a = OK b.
Proof. destruct m as [a|e]; [eauto | discriminate]. Qed.

Lemma respond_ok {A} (jsonify : Jsonify A) (a : A) (code : nat)
    (resp : Response A) :
  respond jsonify a code = OK resp -> jsonify a = OK () /\ resp = (Payload a, code).
Proof.
  unfold respond. intros (u & Hj & [= <-])%bind_ok. destruct u. now split.
Qed.

Lemma respond_conventional {A} (jsonify : Jsonify A) (a : A) :
  conventional (handle (respond jsonify a 200%nat)).
Proof.
  apply handle_conventional. intros resp [_ ->]%respond_ok. reflexivity.
Qed.

Ltac conventional_cases :=
  repeat match goal with
         | |- forall resp, _ = OK resp -> _ => intros resp
         | |- (match ?x with Some _ => _ | None => _ end) = OK _ -> _ =>
           destruct x
         | |- OK _ = OK _ -> _ => intros [= <-]; reflexivity
         | |- (_ ← _; _) = OK _ -> _ => let H := fresh in intros (? & _ & H)%bind_ok; revert H
         | |- (let '(_, _) := ?x in _) = OK _ -> _ => destruct x
         | |- (if ?b then _ else _) = OK _ -> _ => destruct b
         | |- respond _ _ _ = OK _ -> _ => intros [_ ->]%respond_ok; reflexivity
         end.

(** X18. The eleven handlers of POST requests embedded here ([/rul],
    [/failure-risk], [/batch], [/detect], [/batch-detect],
    [/trend-analysis], [/shap], [/lime], [/comprehensive],
    [/feature-importance] and [/validate]) answer by the same convention,
    whatever the request, the models and the libraries do: a payload comes
    with 200, an error with 400 or 500, and a 500 answer carries the fixed
    text Internal server error and never the text of the exception.  The
    [health_check] handlers are not among them. *)
Theorem answers_are_conventional (np_exp : float -> float)
    (np_mean np_std : list float -> float)
    (np_min np_max : list float -> result float) (format_2f : float -> string)
    (generate_synthetic_turbofan_data : nat -> result (list (list float)))
    (mm : ModelManager.t) (explainer : ModelExplainer.t)
    (j1 : Jsonify PredictionApi.RulPayload)
    (j2 : Jsonify PredictionApi.FailurePayload)
    (j3 : Jsonify PredictionApi.BatchPayload)
    (j4 : Jsonify AnomalyApi.DetectPayload)
    (j5 : Jsonify AnomalyApi.BatchPayload)
    (j6 : Jsonify (ExplainabilityApi.Annotated
                     (ModelExplainer.explanation ModelExplainer.ShapDict)))
    (j7 : Jsonify (ExplainabilityApi.Annotated
                     (ModelExplainer.explanation ModelExplainer.LimeDict)))
    (j8 : Jsonify (ExplainabilityApi.Annotated ModelExplainer.CombinedAnalysis))
    (j9 : Jsonify TrendAnalysis.TrendPayload)
    (j10 : Jsonify FeatureImportance.ImportancePayload)
    (j11 : Jsonify DataApi.ValidationResults)
    (rng : ModelExplainer.RandomState)
    (now analysis_now response_now : timestamp)
    (clocks : nat -> AnomalyApi.PointClock)
    (d1 : option PredictionApi.Request) (d2 : option PredictionApi.BatchRequest)
    (d3 : option AnomalyApi.Request) (d4 : option AnomalyApi.BatchRequest)
    (d5 : option ExplainabilityApi.Request)
    (d6 : option TrendAnalysis.TrendRequest)
    (d7 : option FeatureImportance.Request) (d8 : option ndarray) :
  conventional (PredictionApi.predict_rul mm j1 now d1) /\
  conventional (PredictionApi.predict_failure_risk mm j2 now d1) /\
  conventional (PredictionApi.batch_predict mm j3 now response_now d2) /\
  conventional (AnomalyApi.detect_anomaly mm j4 now d3) /\
  conventional (AnomalyApi.batch_detect_anomalies mm j5 clocks response_now d4) /\
  conventional (TrendAnalysis.analyze_anomaly_trends mm j9 clocks response_now d6) /\
  conventional (ExplainabilityApi.get_shap_explanation explainer j6 now d5) /\
  conventional
    (ExplainabilityApi.get_lime_explanation np_exp explainer j7 rng now
       response_now d5).1 /\
  conventional
    (ExplainabilityApi.get_comprehensive_explanation np_exp explainer j8 rng now
       analysis_now response_now d5).1 /\
  conventional
    (FeatureImportance.get_feature_importance generate_synthetic_turbofan_data
       np_mean np_std explainer j10 now d7) /\
  conventional
    (DataApi.validate_sensor_data np_mean np_std np_min np_max format_2f j11
       now d8).
Proof.
  split_and!.
  - unfold PredictionApi.predict_rul. apply handle_conventional.
    conventional_cases.
  - unfold PredictionApi.predict_failure_risk. apply handle_conventional.
    conventional_cases.
  - unfold PredictionApi.batch_predict. apply handle_any_conventional.
    conventional_cases.
  - unfold AnomalyApi.detect_anomaly. apply handle_conventional.
    conventional_cases.
  - unfold AnomalyApi.batch_detect_anomalies. apply handle_any_conventional.
    conventional_cases.
  - unfold TrendAnalysis.analyze_anomaly_trends. apply handle_any_conventional.
    conventional_cases.
  - unfold ExplainabilityApi.get_shap_explanation. apply handle_conventional.
    conventional_cases.
  - unfold ExplainabilityApi.get_lime_explanation.
    destruct d5 as [d|]; [|reflexivity].
    destruct (ExplainabilityApi.sensor_data d) as [x|]; [|reflexivity].
    destruct (validate_input_data x) as [b|e];
      [|apply (handle_conventional (Raise e)); discriminate].
    destruct (negb _); [reflexivity|].
    destruct (ModelExplainer.get_lime_explanation _ _ _ _ _ _ _) as [ex rng'].
    apply respond_conventional.
  - unfold ExplainabilityApi.get_comprehensive_explanation.
    destruct d5 as [d|]; [|reflexivity].
    destruct (ExplainabilityApi.sensor_data d) as [x|]; [|reflexivity].
    destruct (validate_input_data x) as [b|e];
      [|apply (handle_conventional (Raise e)); discriminate].
    destruct (ModelExplainer.get_feature_impact_analysis _ _ _ _ _ _) as [a rng'].
    apply respond_conventional.
  - unfold FeatureImportance.get_feature_importance.
    apply handle_any_conventional. cbv zeta. conventional_cases.
  - unfold DataApi.validate_sensor_data. apply handle_any_conventional.
    conventional_cases.
Qed.

(** Counting the items of a list that satisfy a stronger condition. *)
Lemma filter_length_mono {A} (P Q : A -> Prop)
    `{!forall x, Decision (P x)} `{!forall x, Decision (Q x)} (l : list A) :
  (forall x, P x -> Q x) ->
  (length (filter P l) <= length (filter Q l))%nat.
Proof.
  intros HPQ. induction l as [|a l IH]; [reflexivity|].
  rewrite !filter_cons.
  destruct (decide (P a)) as [HP|HP]; destruct (decide (Q a)) as [HQ|HQ];
    simpl; try lia.
  exfalso. auto.
Qed.

(** The loop of [batch_predict] over machines that all carry
    [sensor_data]. *)
Lemma machine_results_ok (mm : ModelManager.t) (now : timestamp)
    (types : list string) (ms : list PredictionApi.Request) :
  Forall (fun m => is_Some (PredictionApi.sensor_data m)) ms ->
  exists rs,
    mapM (PredictionApi.machine_result mm now types) ms = OK rs /\
    Forall2 (fun m r => PredictionApi.machine_result mm now types m = OK r) ms rs.
Proof.
  induction 1 as [|m ms [s Hs] _ (rs & Hrs & IH)].
  - exists []. split; [reflexivity | constructor].
  - assert (exists r, PredictionApi.machine_result mm now types m = OK r)
      as [r Hr].
    { unfold PredictionApi.machine_result. rewrite Hs. eexists. reflexivity. }
    exists (r :: rs). split; [|now constructor].
    cbn [mapM]. rewrite Hr. cbn [mbind result_bind Py.bind]. rewrite Hrs.
    reflexivity.
Qed.



(** X20. A batch entry without sensor_data is treated differently by the
    two batch handlers.  [/batch] reads it outside the inner [try]: the
    whole request is answered 500, whatever the other machines hold.
    [/batch-detect] reads it inside: the answer holds an error entry for
    this point, with the message of the KeyError, next to the entries of
    the other points. *)
Theorem batch_entry_without_sensor_data (mm : ModelManager.t)
    (j1 : Jsonify PredictionApi.BatchPayload) (j2 : Jsonify AnomalyApi.BatchPayload)
    (now response_now : timestamp) (clocks : nat -> AnomalyApi.PointClock)
    (ms : list PredictionApi.Request) (types : option (list string))
    (pts : list AnomalyApi.Point) (threshold : option float)
    (i k : nat) (m : PredictionApi.Request) (pt : AnomalyApi.Point) :
  ms !! i = Some m -> PredictionApi.sensor_data m = None ->
  pts !! k = Some pt -> AnomalyApi.point_sensor_data pt = None ->
  PredictionApi.batch_predict mm j1 now response_now
    (Some {| PredictionApi.machines := Some ms;
             PredictionApi.prediction_types := types |})
  = (ErrorBody "Internal server error" (Some "error"), 500%nat) /\
  exists p,
    AnomalyApi.batch_detect_anomalies mm j2 clocks response_now
      (Some {| AnomalyApi.data_points := Some pts;
               AnomalyApi.batch_threshold := threshold |})
    = handle_any (respond j2 p 200%nat) /\
    length (AnomalyApi.results p) = length pts /\
    AnomalyApi.results p !! k
    = Some (AnomalyApi.PointError
              (default "unknown" (AnomalyApi.point_machine_id pt))
              (default (AnomalyApi.at_except (clocks k))
                       (AnomalyApi.point_timestamp pt))
              "'sensor_data'").
Proof.
  intros Hm Hnone Hpt Hpnone. split.
  - unfold PredictionApi.batch_predict.
    cbn [PredictionApi.machines PredictionApi.prediction_types].
    destruct (LimeOutputFacts.mapM_raise
                (PredictionApi.machine_result mm now
                   (default ["rul"; "failure_risk"] types))
                ms m (KeyError "sensor_data")) as [e' ->].
    + eapply list_elem_of_lookup_2, Hm.
    + unfold PredictionApi.machine_result. now rewrite Hnone.
    + reflexivity.
  - unfold AnomalyApi.batch_detect_anomalies.
    cbn [AnomalyApi.data_points AnomalyApi.batch_threshold].
    eexists. split; [reflexivity|]. cbn [AnomalyApi.results]. split.
    + apply length_imap.
    + rewrite list_lookup_imap, Hpt. simpl.
      unfold AnomalyApi.point_result, AnomalyApi.point_body.
      now rewrite Hpnone.
Qed.

Lemma batch_entry_without_sensor_data_witness :
  PredictionApi.batch_predict Fixtures.manager accepts_all
    "2024-01-01T00:00:00" "2024-01-01T00:00:01"
    (Some {| PredictionApi.machines :=
               Some [ {| PredictionApi.sensor_data := Some (vector Fixtures.ones);
                         PredictionApi.machine_id := Some "MACHINE-001" |};
                      {| PredictionApi.sensor_data := None;
                         PredictionApi.machine_id := Some "MACHINE-002" |} ];
             PredictionApi.prediction_types := None |})
  = (ErrorBody "Internal server error" (Some "error"), 500%nat).
Proof.
  refine (proj1 (batch_entry_without_sensor_data Fixtures.manager accepts_all
                   accepts_all _ _
                   (fun _ => {| AnomalyApi.at_entry := "2024-01-01T00:00:00";
                                AnomalyApi.at_detect := "2024-01-01T00:00:00";
                                AnomalyApi.at_except := "2024-01-01T00:00:00" |})
                   _ None
                   [ {| AnomalyApi.point_sensor_data := None;
                        AnomalyApi.point_machine_id := None;
                        AnomalyApi.point_timestamp := None |} ]
                   None 1%nat 0%nat _ _ _ _ _ _)); reflexivity.
Defined.

(** X21. The summary of [/batch-detect] is consistent, whatever the points
    hold: [results] has one entry per point, the points flagged are among
    those analysed, those analysed are among the points received, and an
    empty list of points gives the rate 0 rather than a division by
    zero. *)
Theorem batch_detect_summary_counts (mm : ModelManager.t)
    (jsonify : Jsonify AnomalyApi.BatchPayload)
    (clocks : nat -> AnomalyApi.PointClock) (response_now : timestamp)
    (pts : list AnomalyApi.Point) (threshold : option float) :
  exists p,
    AnomalyApi.batch_detect_anomalies mm jsonify clocks response_now
      (Some {| AnomalyApi.data_points := Some pts;
               AnomalyApi.batch_threshold := threshold |})
    = handle_any (respond jsonify p 200%nat) /\
    let s := AnomalyApi.summary p in
    length (AnomalyApi.results p) = AnomalyApi.total_points s /\
    AnomalyApi.total_points s = length pts /\
    (AnomalyApi.anomalies_detected s <= AnomalyApi.successful_analyses s)%nat /\
    (AnomalyApi.successful_analyses s <= AnomalyApi.total_points s)%nat /\
    (pts = [] -> AnomalyApi.anomaly_rate s = 0%float) /\
    (pts <> [] ->
     AnomalyApi.anomaly_rate s
     = AnomalyApi.true_div (AnomalyApi.anomalies_detected s)
         (AnomalyApi.total_points s)).
Proof.
  unfold AnomalyApi.batch_detect_anomalies.
  cbn [AnomalyApi.data_points AnomalyApi.batch_threshold].
  eexists. split; [reflexivity|]. cbv zeta.
  cbn [AnomalyApi.results AnomalyApi.summary AnomalyApi.total_points
       AnomalyApi.anomalies_detected AnomalyApi.successful_analyses
       AnomalyApi.anomaly_rate].
  split_and!.
  - apply length_imap.
  - reflexivity.
  - apply filter_length_mono. intros [] H; [reflexivity | discriminate H].
  - etransitivity; [apply length_filter|]. now rewrite length_imap.
  - now intros ->.
  - destruct pts; [congruence | reflexivity].
Qed.

(** The payload of [/detect] when it answers one. *)
Lemma detect_anomaly_payload (mm : ModelManager.t)
    (jsonify : Jsonify AnomalyApi.DetectPayload) (now : timestamp)
    (sensor : ndarray) (machine : option string) (threshold : option float)
    (p : AnomalyApi.DetectPayload) (code : nat) :
  AnomalyApi.detect_anomaly mm jsonify now
    (Some {| AnomalyApi.sensor_data := Some sensor;
             AnomalyApi.machine_id := machine;
             AnomalyApi.threshold := threshold |})
  = (Payload p, code) ->
  exists flag meta,
    ModelManager.detect_anomaly mm now sensor = OK (flag, meta) /\
    p = {| AnomalyApi.detect_machine_id := default "unknown" machine;
           AnomalyApi.is_anomaly := flag;
           AnomalyApi.anomaly_score := anomaly_score meta;
           AnomalyApi.detect_severity := AnomalyApi.severity (anomaly_score meta);
           AnomalyApi.confidence := anomaly_confidence meta;
           AnomalyApi.threshold_used := default 0.5%float threshold;
           AnomalyApi.model_info := (anomaly_model_type meta, "2.1.0");
           AnomalyApi.detect_timestamp := anomaly_timestamp meta;
           AnomalyApi.detect_status := "success" |}.
Proof.
  unfold AnomalyApi.detect_anomaly.
  cbn [AnomalyApi.sensor_data AnomalyApi.machine_id AnomalyApi.threshold].
  destruct (validate_input_data sensor) as [b|[]]; try discriminate.
  cbn [mbind result_bind Py.bind].
  destruct (ModelManager.detect_anomaly mm now sensor) as [[flag meta]|[]];
    try discriminate.
  cbn [mbind result_bind Py.bind]. unfold respond.
  destruct (jsonify _) as [u|[]]; try discriminate.
  cbn [mbind result_bind Py.bind handle]. intros [= <- <-]. eauto.
Qed.

Lemma detect_anomaly_confidence (mm : ModelManager.t) (now : timestamp)
    (sensor : ndarray) (flag : bool) (meta : AnomalyMetadata) :
  ModelManager.detect_anomaly mm now sensor = OK (flag, meta) ->
  anomaly_confidence meta = abs (anomaly_score meta).
Proof.
  unfold ModelManager.detect_anomaly.
  destruct (anomaly_detector _); [|discriminate].
  intros (? & _ & (? & _ & (? & _ & (? & _ & [= <- <-])%bind_ok)%bind_ok)%bind_ok)%bind_ok.
  reflexivity.
Qed.

(** X22. The threshold of a [/detect] request is echoed and nothing else:
    two requests that differ in it only get the same flag, score, severity
    and confidence.  The confidence is the magnitude of the score, and the
    severity is low exactly when that magnitude is not above 0.5, whatever
    the flag says. *)
Theorem detect_threshold_only_echoed (mm : ModelManager.t)
    (j1 j2 : Jsonify AnomalyApi.DetectPayload) (now : timestamp)
    (sensor : ndarray) (machine : option string) (t1 t2 : option float)
    (p1 p2 : AnomalyApi.DetectPayload) (c1 c2 : nat) :
  AnomalyApi.detect_anomaly mm j1 now
    (Some {| AnomalyApi.sensor_data := Some sensor;
             AnomalyApi.machine_id := machine;
             AnomalyApi.threshold := t1 |}) = (Payload p1, c1) ->
  AnomalyApi.detect_anomaly mm j2 now
    (Some {| AnomalyApi.sensor_data := Some sensor;
             AnomalyApi.machine_id := machine;
             AnomalyApi.threshold := t2 |}) = (Payload p2, c2) ->
  AnomalyApi.is_anomaly p1 = AnomalyApi.is_anomaly p2 /\
  AnomalyApi.anomaly_score p1 = AnomalyApi.anomaly_score p2 /\
  AnomalyApi.detect_severity p1 = AnomalyApi.detect_severity p2 /\
  AnomalyApi.confidence p1 = AnomalyApi.confidence p2 /\
  AnomalyApi.threshold_used p1 = default 0.5%float t1 /\
  AnomalyApi.threshold_used p2 = default 0.5%float t2 /\
  AnomalyApi.confidence p1 = abs (AnomalyApi.anomaly_score p1) /\
  (AnomalyApi.detect_severity p1 = "low"
   <-> PrimFloat.ltb 0.5 (AnomalyApi.confidence p1) = false).
Proof.
  intros (flag1 & meta1 & H1 & ->)%detect_anomaly_payload
         (flag2 & meta2 & H2 & ->)%detect_anomaly_payload.
  rewrite H1 in H2. injection H2 as <- <-.
  cbn [AnomalyApi.is_anomaly AnomalyApi.anomaly_score AnomalyApi.detect_severity
       AnomalyApi.confidence AnomalyApi.threshold_used].
  pose proof (detect_anomaly_confidence _ _ _ _ _ H1) as Hc.
  split_and!; try reflexivity; [exact Hc|].
  rewrite Hc. unfold AnomalyApi.severity.
  destruct (PrimFloat.ltb 2.0 (abs (anomaly_score meta1))) eqn:E2.
  { split; [discriminate|]. intros E05. exfalso.
    assert (PrimFloat.ltb 0.5 (abs (anomaly_score meta1)) = true);
      [|congruence].
    apply (FloatOrder.ltb_leb_trans 0.5 2.0);
      [reflexivity | now apply FloatOrder.ltb_ltb_leb]. }
  destruct (PrimFloat.ltb 1.0 (abs (anomaly_score meta1))) eqn:E1.
  { split; [discriminate|]. intros E05. exfalso.
    assert (PrimFloat.ltb 0.5 (abs (anomaly_score meta1)) = true);
      [|congruence].
    apply (FloatOrder.ltb_leb_trans 0.5 1.0);
      [reflexivity | now apply FloatOrder.ltb_ltb_leb]. }
  destruct (PrimFloat.ltb 0.5 (abs (anomaly_score meta1))); split;
    congruence.
Qed.

Lemma detect_threshold_only_echoed_witness :
  exists p1 p2,
    AnomalyApi.detect_anomaly Fixtures.manager accepts_all "2024-01-01T00:00:00"
      (Some {| AnomalyApi.sensor_data := Some (vector Fixtures.ones);
               AnomalyApi.machine_id := None;
               AnomalyApi.threshold := Some 0.1%float |}) = (Payload p1, 200%nat) /\
    AnomalyApi.detect_anomaly Fixtures.manager accepts_all "2024-01-01T00:00:00"
      (Some {| AnomalyApi.sensor_data := Some (vector Fixtures.ones);
               AnomalyApi.machine_id := None;
               AnomalyApi.threshold := None |}) = (Payload p2, 200%nat) /\
    AnomalyApi.is_anomaly p1 = true /\
    AnomalyApi.detect_severity p1 = "low" /\
    AnomalyApi.detect_severity p1 = AnomalyApi.detect_severity p2.
Proof.
  eexists _, _.
  assert (H1 : AnomalyApi.detect_anomaly Fixtures.manager accepts_all
                 "2024-01-01T00:00:00"
                 (Some {| AnomalyApi.sensor_data := Some (vector Fixtures.ones);
                          AnomalyApi.machine_id := None;
                          AnomalyApi.threshold := Some 0.1%float |})
               = (Payload _, 200%nat)) by (vm_compute; reflexivity).
  assert (H2 : AnomalyApi.detect_anomaly Fixtures.manager accepts_all
                 "2024-01-01T00:00:00"
                 (Some {| AnomalyApi.sensor_data := Some (vector Fixtures.ones);
                          AnomalyApi.machine_id := None;
                          AnomalyApi.threshold := None |})
               = (Payload _, 200%nat)) by (vm_compute; reflexivity).
  destruct (detect_threshold_only_echoed _ _ _ _ _ _ _ _ _ _ _ _ H1 H2)
    as (_ & _ & Hsev & _ & _ & _ & _ & Hlow).
  split_and!.
  - exact H1.
  - exact H2.
  - reflexivity.
  - apply Hlow. vm_compute. reflexivity.
  - exact Hsev.
Defined.

Section Explanations.

Variable np_exp : float -> float.

(** X23. The explanation handlers report success even when the
    explanation failed.  For a valid array and an admitted model type each
    of [/shap], [/lime] and [/comprehensive] hands the dictionary of the
    explainer to [jsonify] with status success and code 200, whatever that
    dictionary is; with no explainer attached the dictionaries are error
    dictionaries and the consensus is empty, and the answer is still 200
    and success. *)
Theorem explanation_errors_answer_success (explainer : ModelExplainer.t)
    (j1 : Jsonify (ExplainabilityApi.Annotated
                     (ModelExplainer.explanation ModelExplainer.ShapDict)))
    (j2 : Jsonify (ExplainabilityApi.Annotated
                     (ModelExplainer.explanation ModelExplainer.LimeDict)))
    (j3 : Jsonify (ExplainabilityApi.Annotated ModelExplainer.CombinedAnalysis))
    (rng : ModelExplainer.RandomState)
    (now analysis_now request_now : timestamp)
    (sensor : ndarray) (machine model_type : option string)
    (max_features num_features : option Z) :
  validate_input_data sensor = OK true ->
  model_type = None \/ model_type = Some "rul" \/ model_type = Some "failure" ->
  let request :=
    Some {| ExplainabilityApi.sensor_data := Some sensor;
            ExplainabilityApi.model_type := model_type;
            ExplainabilityApi.machine_id := machine;
            ExplainabilityApi.max_features := max_features;
            ExplainabilityApi.num_features := num_features |} in
  let shap :=
    ModelExplainer.get_shap_explanation explainer (default "rul" model_type)
      sensor (default 10 max_features) in
  let lime :=
    ModelExplainer.get_lime_explanation np_exp explainer rng now sensor
      (default "failure" model_type) (default 10 num_features) in
  let analysis :=
    ModelExplainer.get_feature_impact_analysis np_exp explainer rng now
      analysis_now sensor in
  ExplainabilityApi.get_shap_explanation explainer j1 request_now request
  = handle (respond j1
              {| ExplainabilityApi.explanation_dict := shap;
                 ExplainabilityApi.machine := default "unknown" machine;
                 ExplainabilityApi.request_timestamp := request_now;
                 ExplainabilityApi.status := "success" |} 200%nat) /\
  ExplainabilityApi.get_lime_explanation np_exp explainer j2 rng now
    request_now request
  = (handle (respond j2
               {| ExplainabilityApi.explanation_dict := lime.1;
                  ExplainabilityApi.machine := default "unknown" machine;
                  ExplainabilityApi.request_timestamp := request_now;
                  ExplainabilityApi.status := "success" |} 200%nat),
     lime.2) /\
  ExplainabilityApi.get_comprehensive_explanation np_exp explainer j3 rng now
    analysis_now request_now request
  = (handle (respond j3
               {| ExplainabilityApi.explanation_dict := analysis.1;
                  ExplainabilityApi.machine := default "unknown" machine;
                  ExplainabilityApi.request_timestamp := request_now;
                  ExplainabilityApi.status := "success" |} 200%nat),
     analysis.2) /\
  (ModelExplainer.shap_explainers explainer = ∅ ->
   ModelExplainer.lime_explainers explainer = ∅ ->
   ModelExplainer.has_error shap = true /\
   ModelExplainer.has_error lime.1 = true /\
   ModelExplainer.has_error (ModelExplainer.shap_rul analysis.1) = true /\
   ModelExplainer.has_error (ModelExplainer.shap_failure analysis.1) = true /\
   ModelExplainer.has_error (ModelExplainer.lime_local analysis.1) = true /\
   ModelExplainer.consensus_features analysis.1 = []).
Proof.
  intros Hvalid Htype. cbv zeta.
  unfold ExplainabilityApi.get_shap_explanation,
    ExplainabilityApi.get_lime_explanation,
    ExplainabilityApi.get_comprehensive_explanation.
  cbn [ExplainabilityApi.sensor_data ExplainabilityApi.model_type
       ExplainabilityApi.machine_id ExplainabilityApi.max_features
       ExplainabilityApi.num_features].
  rewrite Hvalid. cbn [mbind result_bind Py.bind].
  split_and!.
  - destruct Htype as [-> | [-> | ->]]; reflexivity.
  - destruct Htype as [-> | [-> | ->]]; cbn [default];
      (rewrite bool_decide_eq_true_2 by (repeat constructor));
      cbn [negb];
      destruct (ModelExplainer.get_lime_explanation _ _ _ _ _ _ _);
      reflexivity.
  - destruct (ModelExplainer.get_feature_impact_analysis _ _ _ _ _ _);
      reflexivity.
  - intros Hshap Hlime.
    unfold ModelExplainer.get_feature_impact_analysis.
    rewrite !(ConsensusFacts.lime_unavailable np_exp explainer rng now sensor)
      by (rewrite Hlime; apply lookup_empty).
    rewrite !ConsensusFacts.shap_unavailable
      by (rewrite Hshap; apply lookup_empty).
    split_and!; reflexivity.
Qed.

End Explanations.

Lemma explanation_errors_answer_success_witness :
  let explainer :=
    ExplainerLoading.init LoadingFixtures.no_reference_data Fixtures.manager in
  exists a,
    ExplainabilityApi.get_shap_explanation explainer accepts_all
      "2024-01-01T00:00:00"
      (Some {| ExplainabilityApi.sensor_data := Some (vector Fixtures.ones);
               ExplainabilityApi.model_type := Some "rul";
               ExplainabilityApi.machine_id := None;
               ExplainabilityApi.max_features := None;
               ExplainabilityApi.num_features := None |})
    = (Payload a, 200%nat) /\
    ExplainabilityApi.status a = "success" /\
    ModelExplainer.has_error (ExplainabilityApi.explanation_dict a) = true.
Proof.
  cbv zeta.
  destruct (explanation_errors_answer_success Fixtures.exp_series
              (ExplainerLoading.init LoadingFixtures.no_reference_data
                 Fixtures.manager)
              accepts_all accepts_all accepts_all Fixtures.seeded
              "2024-01-01T00:00:00" "2024-01-01T00:00:00" "2024-01-01T00:00:00"
              (vector Fixtures.ones) None (Some "rul") None None)
    as (Hshap & _ & _ & Herr).
  - vm_compute. reflexivity.
  - right. left. reflexivity.
  - eexists. split_and!.
    + rewrite Hshap. reflexivity.
    + reflexivity.
    + apply Herr; reflexivity.
Defined.

End ApiFacts.
(* ===================================================================== *)
(** * Training targets against reported risk levels *)
(* ===================================================================== *)

Module TargetFacts.

Import Np ModelManager PretrainedModels FloatOrder.

(** The target of one sample. *)
Lemma targets_lookup (rul_targets : list float) (i : nat) (r : float) :
  rul_targets !! i = Some r ->
  let c := clip 1 max_rul r in
  (targets rul_targets).1 !! i = Some c /\
  (targets rul_targets).2 !! i
  = Some (if PrimFloat.leb 150 c then 0
          else if PrimFloat.leb 50 c && PrimFloat.ltb c 150 then 1
          else if PrimFloat.ltb c 50 then 2 else 0).
Proof.
  intros Hr. cbv zeta. unfold targets. cbn [fst snd]. split.
  - now rewrite list_lookup_fmap, Hr.
  - unfold assign_where.
    rewrite !lookup_zip_with, !list_lookup_fmap, Hr. cbn [fmap option_fmap option_map mbind option_bind].
    rewrite lookup_replicate_2
      by (rewrite length_map; eapply lookup_lt_Some, Hr).
    cbn [mbind option_bind].
    destruct (PrimFloat.leb 150 _); [reflexivity|].
    destruct (_ && _); [reflexivity|]. reflexivity.
Qed.

Lemma leb_negb_ltb (c k : float) :
  PrimFloat.is_nan c = false -> PrimFloat.is_nan k = false ->
  PrimFloat.leb k c = negb (PrimFloat.ltb c k).
Proof.
  intros Hc Hk. destruct (PrimFloat.ltb c k) eqn:E; cbn [negb].
  - destruct (PrimFloat.leb k c) eqn:E'; [|reflexivity].
    apply leb_not_ltb in E'. congruence.
  - now apply not_ltb_leb.
Qed.

(** Clipping a number gives a number between the bounds. *)
Lemma clip_bounds (r : float) :
  PrimFloat.is_nan r = false ->
  let c := clip 1 max_rul r in
  PrimFloat.is_nan c = false /\
  PrimFloat.leb 1 c = true /\ PrimFloat.leb c max_rul = true.
Proof.
  intros Hr. cbv zeta. unfold clip. rewrite Hr.
  destruct (PrimFloat.ltb r 1) eqn:E1; [now split_and!|].
  destruct (PrimFloat.ltb max_rul r) eqn:E2; [now split_and!|].
  split_and!; [exact Hr | |].
  - now apply not_ltb_leb.
  - now apply not_ltb_leb.
Qed.

(** X24. The failure classifier is trained on bands of the RUL that differ
    from the bands [predict_rul] reports.  A training target that is a
    number is clipped into [1, 300] and labelled 0, 1 or 2; for a regressor
    that predicts the clipped target exactly, the class name of the label
    is the reported risk level exactly when the clipped target is outside
    [30, 50) and [100, 150): there the label says High Risk, resp. Medium
    Risk, while the risk level says Medium, resp. Low. *)
Theorem training_bands_differ_from_risk_level (mm : ModelManager.t)
    (now : timestamp) (x : ndarray) (rul_targets : list float) (i : nat)
    (r : float) (meta : RulMetadata) :
  rul_targets !! i = Some r ->
  PrimFloat.is_nan r = false ->
  let c := clip 1 max_rul r in
  predict_rul mm now x = OK (c, meta) ->
  exists label,
    (targets rul_targets).1 !! i = Some c /\
    (targets rul_targets).2 !! i = Some label /\
    PrimFloat.leb 1 c = true /\ PrimFloat.leb c 300 = true /\
    0 <= label <= 2 /\
    (Py.index classes label = OK (risk_level meta ++ " Risk")
     <-> ~ ((PrimFloat.leb 30 c = true /\ PrimFloat.ltb c 50 = true) \/
            (PrimFloat.leb 100 c = true /\ PrimFloat.ltb c 150 = true))).
Proof.
  intros Hi Hnan. cbv zeta. intros Hrul.
  destruct (targets_lookup rul_targets i r Hi) as [Hc Hlabel].
  destruct (clip_bounds r Hnan) as (Hcn & Hlo & Hhi).
  apply PredictionEdgeFacts.predict_rul_ok in Hrul. subst meta.
  cbn [risk_level].
  set (c := clip 1 max_rul r) in *.
  eexists. split; [exact Hc|]. split; [exact Hlabel|].
  split; [exact Hlo|]. split; [exact Hhi|].
  rewrite !(leb_negb_ltb c) by (exact Hcn || reflexivity).
  assert (H35 : PrimFloat.ltb c 30 = true -> PrimFloat.ltb c 50 = true)
    by (intros H; now apply (ltb_leb_trans c 30 50)).
  assert (H51 : PrimFloat.ltb c 50 = true -> PrimFloat.ltb c 100 = true)
    by (intros H; now apply (ltb_leb_trans c 50 100)).
  assert (H11 : PrimFloat.ltb c 100 = true -> PrimFloat.ltb c 150 = true)
    by (intros H; now apply (ltb_leb_trans c 100 150)).
  destruct (PrimFloat.ltb c 30) eqn:E30; destruct (PrimFloat.ltb c 50) eqn:E50;
    destruct (PrimFloat.ltb c 100) eqn:E100;
    destruct (PrimFloat.ltb c 150) eqn:E150;
    try (specialize (H35 eq_refl); discriminate H35);
    try (specialize (H51 eq_refl); discriminate H51);
    try (specialize (H11 eq_refl); discriminate H11);
    cbn [negb andb]; (split; [lia|]);
    (split; [intros Heq [[H1 H2]|[H1 H2]]; (discriminate || vm_compute in Heq; discriminate)
            | intros Hno; try reflexivity; exfalso; apply Hno; auto]).
Qed.

Lemma training_bands_differ_from_risk_level_witness :
  exists meta,
    predict_rul Fixtures.manager "2024-01-01T00:00:00" (vector Fixtures.ones)
    = OK (124%float, meta) /\
    risk_level meta = "Low" /\
    (targets [124%float]).2 = [1].
Proof.
  eexists.
  assert (H : predict_rul Fixtures.manager "2024-01-01T00:00:00"
                (vector Fixtures.ones)
              = OK (clip 1 max_rul 124, _)) by (vm_compute; reflexivity).
  destruct (training_bands_differ_from_risk_level Fixtures.manager
              "2024-01-01T00:00:00" (vector Fixtures.ones) [124%float] 0%nat
              124%float _ eq_refl eq_refl H)
    as (label & _ & Hlabel & _ & _ & _ & _).
  split_and!.
  - exact H.
  - reflexivity.
  - vm_compute in Hlabel. injection Hlabel as <-. reflexivity.
Defined.

End TargetFacts.
(* ===================================================================== *)
(** * Dictionaries in insertion order *)
(* ===================================================================== *)

Module DictFacts.

Import OrderedDict.

Section Dict.

Context {V : Type}.

Implicit Types (d : OrderedDict.t V) (f : V -> V) (init : V).

Lemma eqb_decide (k k' : string) : String.eqb k k' = bool_decide (k = k').
Proof.
  destruct (String.eqb_spec k k') as [->|Hne].
  - now rewrite bool_decide_eq_true_2.
  - now rewrite bool_decide_eq_false_2.
Qed.

Lemma get_update_eq init (key : string) f d :
  get (update init key f d) key = Some (f (default init (get d key))).
Proof.
  induction d as [|[k s] r IH]; cbn [update get].
  - now rewrite String.eqb_refl.
  - destruct (String.eqb k key) eqn:E; cbn [get]; rewrite E; [reflexivity|].
    exact IH.
Qed.

Lemma get_update_ne init (key key' : string) f d :
  key <> key' -> get (update init key f d) key' = get d key'.
Proof.
  intros Hne. induction d as [|[k s] r IH]; cbn [update get].
  - rewrite eqb_decide, bool_decide_eq_false_2 by exact Hne. reflexivity.
  - destruct (String.eqb k key) eqn:E; cbn [get].
    + apply String.eqb_eq in E. subst k.
      rewrite eqb_decide, bool_decide_eq_false_2 by exact Hne. reflexivity.
    + now rewrite IH.
Qed.

Lemma get_none d (key : string) : get d key = None <-> key ∉ d.*1.
Proof.
  induction d as [|[k s] r IH]; cbn [get fmap list_fmap fst].
  - split; [intros _; apply not_elem_of_nil | reflexivity].
  - rewrite not_elem_of_cons, eqb_decide.
    destruct (decide (k = key)) as [->|Hne].
    + rewrite bool_decide_eq_true_2 by reflexivity. split; [discriminate|].
      intros [H _]. congruence.
    + rewrite bool_decide_eq_false_2 by exact Hne. rewrite IH.
      split; [intros H; split; [congruence | exact H] | now intros [_ H]].
Qed.

Lemma get_elem_of d (key : string) (s : V) :
  NoDup d.*1 -> (key, s) ∈ d <-> get d key = Some s.
Proof.
  induction d as [|[k s'] r IH]; cbn [get fmap list_fmap fst].
  - intros _. split; [intros H; inversion H | discriminate].
  - intros [Hk Hr]%NoDup_cons. rewrite elem_of_cons, eqb_decide.
    destruct (decide (k = key)) as [->|Hne].
    + rewrite bool_decide_eq_true_2 by reflexivity. split.
      * intros [[= ->] | Hin]; [reflexivity|].
        exfalso. apply Hk. apply (list_elem_of_fmap_2 fst) in Hin. exact Hin.
      * intros [= ->]. now left.
    + rewrite bool_decide_eq_false_2 by exact Hne. rewrite <- (IH Hr).
      split; [intros [[= -> ->] | H]; [congruence | exact H] | now right].
Qed.

Lemma update_keys init (key : string) f d :
  (update init key f d).*1 = if bool_decide (key ∈ d.*1) then d.*1
                             else (d.*1 ++ [key])%list.
Proof.
  induction d as [|[k s] r IH]; cbn [update fmap list_fmap fst].
  - rewrite bool_decide_eq_false_2 by apply not_elem_of_nil. reflexivity.
  - rewrite eqb_decide. destruct (decide (k = key)) as [->|Hne].
    + rewrite bool_decide_eq_true_2 by reflexivity.
      rewrite bool_decide_eq_true_2 by apply list_elem_of_here. reflexivity.
    + rewrite bool_decide_eq_false_2 by exact Hne.
      cbn [fmap list_fmap fst]. rewrite IH.
      destruct (decide (key ∈ r.*1)) as [Hin|Hout].
      * rewrite !bool_decide_eq_true_2; [reflexivity | now right | exact Hin].
      * rewrite !bool_decide_eq_false_2; [reflexivity | | exact Hout].
        rewrite not_elem_of_cons. split; [congruence | exact Hout].
Qed.

Lemma update_NoDup init (key : string) f d :
  NoDup d.*1 -> NoDup (update init key f d).*1.
Proof.
  intros Hd. rewrite update_keys. case_bool_decide as Hin; [exact Hd|].
  apply NoDup_app. split_and!; [exact Hd | | apply NoDup_singleton].
  intros x Hx ->%list_elem_of_singleton. contradiction.
Qed.

(** A count kept in the entries grows with an update by what the update
    adds to it. *)
Lemma update_sum (g : V -> nat) (c : nat) init (key : string) f d :
  g init = 0%nat -> (forall s, g (f s) = (g s + c)%nat) ->
  foldr Nat.add 0%nat (map (fun x => g x.2) (update init key f d))
  = (foldr Nat.add 0%nat (map (fun x => g x.2) d) + c)%nat.
Proof.
  intros Hnew Hf. induction d as [|[k s] r IH]; cbn [update map foldr snd].
  - rewrite Hf, Hnew. lia.
  - destruct (String.eqb k key); cbn [map foldr snd].
    + rewrite Hf. lia.
    + rewrite IH. lia.
Qed.

End Dict.

End DictFacts.

(* ===================================================================== *)
(** * The trend analysis *)
(* ===================================================================== *)

Module TrendFacts.

Import Np Props ModelManager Http ApiProps AnomalyApi TrendAnalysis TrendProps.
Import OrderedDict DictFacts.

(** ** The loop *)

Lemma of_machine_snoc (machine : string) (timeline : list TimelineEntry)
    (e : TimelineEntry) :
  of_machine machine (timeline ++ [e])%list
  = (of_machine machine timeline
     ++ if decide (entry_machine_id e = machine) then [e] else [])%list.
Proof.
  unfold of_machine. rewrite filter_app, filter_cons, filter_nil.
  destruct (decide _); reflexivity.
Qed.

Lemma flagged_entries_snoc (timeline : list TimelineEntry) (e : TimelineEntry) :
  flagged_entries (timeline ++ [e])%list
  = (flagged_entries timeline ++ if entry_is_anomaly e then [e] else [])%list.
Proof.
  unfold flagged_entries. rewrite filter_app, filter_cons, filter_nil.
  destruct (entry_is_anomaly e); destruct (decide _); congruence.
Qed.

Lemma accounts_for_nil : accounts_for [] [].
Proof.
  unfold accounts_for. split_and!; try reflexivity. constructor.
Qed.

Lemma accounts_for_snoc (timeline : list TimelineEntry) (d : Dict)
    (e : TimelineEntry) :
  accounts_for timeline d ->
  accounts_for (timeline ++ [e])%list
    (update new_stats (entry_machine_id e)
       (record_point (entry_is_anomaly e) (entry_anomaly_score e)) d).
Proof.
  intros (Hnodup & Hper & Htotal & Hflag). unfold accounts_for. split_and!.
  - now apply update_NoDup.
  - intros machine. rewrite of_machine_snoc.
    destruct (decide (entry_machine_id e = machine)) as [<-|Hne].
    + rewrite get_update_eq. specialize (Hper (entry_machine_id e)).
      rewrite flagged_entries_snoc, !length_app.
      destruct (get d (entry_machine_id e)) as [s|]; cbn [default].
      * destruct Hper as (H1 & H2 & H3).
        unfold record_point. simpl.
        rewrite H1, H2. destruct (entry_is_anomaly e); simpl; lia.
      * rewrite Hper.
        unfold record_point, new_stats. simpl.
        destruct (entry_is_anomaly e); simpl; split_and!; reflexivity || lia.
    + rewrite get_update_ne by exact Hne. rewrite app_nil_r. apply Hper.
  - unfold sum_nat. rewrite (update_sum stat_total_points 1);
      [|reflexivity | intros s; unfold record_point; simpl; lia].
    fold (sum_nat (map (fun x : string * Stats => stat_total_points x.2) d)).
    rewrite Htotal, length_app. reflexivity.
  - unfold sum_nat.
    rewrite (update_sum anomalies (if entry_is_anomaly e then 1 else 0)%nat);
      [|reflexivity|].
    + fold (sum_nat (map (fun x : string * Stats => anomalies x.2) d)).
      rewrite Hflag, flagged_entries_snoc, length_app.
      destruct (entry_is_anomaly e); reflexivity.
    + intros s. unfold record_point. simpl.
      destruct (entry_is_anomaly e); lia.
Qed.

Lemma loop_accounts_for (mm : ModelManager.t)
    (items : list (PointClock * Point)) :
  forall state,
    accounts_for state.1 state.2 ->
    let final := fold_left (turn mm) items state in
    accounts_for final.1 final.2 /\
    (length final.1 <= length state.1 + length items)%nat.
Proof.
  induction items as [|item items IH]; intros state Hstate; cbn [fold_left].
  - split; [exact Hstate | cbv zeta; cbn [length]; lia].
  - cbv zeta.
    assert (Hturn : accounts_for (turn mm state item).1 (turn mm state item).2 /\
                    (length (turn mm state item).1 <= S (length state.1))%nat).
    { unfold turn. destruct (analyse mm item.1 item.2) as [entry|err].
      - cbn [fst snd]. split; [now apply accounts_for_snoc|].
        rewrite length_app. cbn [length]. lia.
      - split; [exact Hstate | lia]. }
    destruct Hturn as [Hacc Hlen].
    destruct (IH _ Hacc) as [Hfinal Hlen']. cbv zeta in Hfinal, Hlen'.
    split; [exact Hfinal|]. cbn [length]. lia.
Qed.

Lemma sort_asc_length {A} (key : A -> string) (l : list A) :
  length (sort_asc key l) = length l.
Proof.
  assert (Hins : forall x k, length (insert_asc key x k) = S (length k)).
  { intros x k. induction k as [|y k IH]; cbn [insert_asc]; [reflexivity|].
    destruct (String.ltb _ _); cbn [length]; [now rewrite IH | reflexivity]. }
  induction l as [|x l IH]; [reflexivity|].
  cbn [sort_asc foldr]. rewrite Hins. cbn [length]. f_equal. exact IH.
Qed.

(** X25. The statistics of [/trend-analysis] account for its timeline,
    whatever the points hold.  Points that raise are skipped but still
    counted in total_data_points.  Every machine of the timeline has exactly
    one entry of statistics; the entry counts the points and the flagged
    points of that machine in the timeline, so it has at least one point
    and its rate is anomalies / total_points without a division by zero;
    total_anomalies is the number of flagged entries of the timeline; at
    most five machines are listed as high risk, each with the figures of
    its entry; the window size is echoed. *)
Theorem trend_statistics_match_timeline (mm : ModelManager.t)
    (jsonify : Jsonify TrendPayload) (clocks : nat -> PointClock)
    (response_now : timestamp) (pts : list Point) (window : option Z) :
  exists p,
    analyze_anomaly_trends mm jsonify clocks response_now
      (Some {| time_series_data := Some pts; window_size := window |})
    = handle_any (respond jsonify p 200%nat) /\
    let timeline := anomaly_timeline p in
    let s := trend_summary p in
    total_data_points s = length pts /\
    (length timeline <= total_data_points s)%nat /\
    total_machines s = length (machine_statistics p) /\
    NoDup (machine_statistics p).*1 /\
    (forall e, e ∈ timeline ->
               entry_machine_id e ∈ (machine_statistics p).*1) /\
    (forall machine stats rate,
        (machine, (stats, rate)) ∈ machine_statistics p ->
        stat_total_points stats = length (of_machine machine timeline) /\
        anomalies stats = length (flagged_entries (of_machine machine timeline)) /\
        (1 <= stat_total_points stats)%nat /\
        (anomalies stats <= stat_total_points stats)%nat /\
        rate = true_div (anomalies stats) (stat_total_points stats)) /\
    total_anomalies s = length (flagged_entries timeline) /\
    (total_anomalies s <= length timeline)%nat /\
    (length (high_risk_machines p) <= 5)%nat /\
    (forall h, h ∈ high_risk_machines p ->
       exists stats,
         (high_machine_id h, (stats, high_anomaly_rate h)) ∈ machine_statistics p /\
         total_anomalies_of h = anomalies stats /\
         avg_anomaly_score h = avg_score stats) /\
    analysis_window_hours p = default 24 window.
Proof.
  unfold analyze_anomaly_trends. cbn [time_series_data window_size].
  set (sorted := sort_asc _ pts).
  pose proof (loop_accounts_for mm
                (imap (fun i point => (clocks i, point)) sorted) ([], [])
                accounts_for_nil) as [Hacc Hlen].
  cbv zeta in Hacc, Hlen. rewrite length_imap in Hlen. cbn [fst length] in Hlen.
  destruct (fold_left _ _ _) as [timeline d]. cbn [fst snd] in Hacc, Hlen.
  destruct Hacc as (Hnodup & Hper & Htotal & Hflag).
  set (stats := map _ d).
  assert (Hkeys : stats.*1 = d.*1).
  { subst stats. clear. induction d as [|[k s] r IH]; [reflexivity|].
    cbn [map fmap list_fmap fst]. f_equal. exact IH. }
  assert (Hin : forall machine st rate,
             (machine, (st, rate)) ∈ stats ->
             (machine, st) ∈ d /\ rate = anomaly_rate_of st).
  { subst stats. intros machine st rate.
    intros ([k s] & [= -> -> ->] & Hd)%list_elem_of_fmap. now split. }
  eexists. split; [reflexivity|]. cbv zeta.
  cbn [anomaly_timeline trend_summary machine_statistics high_risk_machines
       total_data_points total_machines total_anomalies analysis_window_hours].
  assert (Hsum : foldr Nat.add 0%nat (map (fun x => anomalies x.2.1) stats)
                 = length (flagged_entries timeline)).
  { rewrite <- Hflag. subst stats. unfold sum_nat. clear.
    induction d as [|[k s] r IH]; [reflexivity|].
    cbn [map foldr fst snd]. now rewrite IH. }
  rewrite Hsum.
  split_and!.
  - apply sort_asc_length.
  - exact Hlen.
  - reflexivity.
  - now rewrite Hkeys.
  - intros e He. rewrite Hkeys.
    destruct (decide (entry_machine_id e ∈ d.*1)) as [Hyes|Hno]; [exact Hyes|].
    apply get_none in Hno. specialize (Hper (entry_machine_id e)).
    rewrite Hno in Hper. exfalso.
    assert (He' : e ∈ of_machine (entry_machine_id e) timeline)
      by (apply list_elem_of_filter; now split).
    rewrite Hper in He'. inversion He'.
  - intros machine st rate [Hd ->]%Hin.
    apply (get_elem_of d machine st Hnodup) in Hd.
    specialize (Hper machine). rewrite Hd in Hper.
    destruct Hper as (H1 & H2 & H3). split_and!; try assumption.
    + rewrite H1, H2. apply length_filter.
    + unfold anomaly_rate_of.
      destruct (0 <? stat_total_points st)%nat eqn:E; [reflexivity|].
      apply Nat.ltb_ge in E. lia.
  - reflexivity.
  - apply length_filter.
  - rewrite length_map. apply LimeOutputFacts.slice_to_5_length.
  - intros h ([machine [st rate]] & -> & Hh)%list_elem_of_fmap.
    exists st. cbn [high_machine_id high_anomaly_rate total_anomalies_of
                    avg_anomaly_score].
    split_and!; try reflexivity.
    eapply elem_of_sublist in Hh; [|apply ShapOutputFacts.slice_to_sublist].
    now rewrite AdditiveFacts.sort_reverse_perm in Hh.
  - reflexivity.
Qed.

(** ** The order of the timeline *)

(** The order of strings: not being smaller is transitive. *)
Lemma ltb_false_trans (a b c : string) :
  String.ltb b a = false -> String.ltb c b = false -> String.ltb c a = false.
Proof.
  unfold String.ltb. intros Hab Hbc.
  destruct (String.compare c a) eqn:Hca; try reflexivity. exfalso.
  apply OrderedTypeEx.String_as_OT.cmp_lt in Hca.
  destruct (String.compare b a) eqn:Hba; try discriminate.
  - apply OrderedTypeEx.String_as_OT.cmp_eq in Hba. subst b.
    apply OrderedTypeEx.String_as_OT.cmp_lt in Hca.
    unfold OrderedTypeEx.String_as_OT.cmp in Hca. now rewrite Hca in Hbc.
  - destruct (String.compare c b) eqn:Hcb; try discriminate.
    + apply OrderedTypeEx.String_as_OT.cmp_eq in Hcb. subst c.
      apply OrderedTypeEx.String_as_OT.cmp_lt in Hca.
      unfold OrderedTypeEx.String_as_OT.cmp in Hca. congruence.
    + rewrite String.compare_antisym in Hba, Hcb.
      destruct (String.compare a b) eqn:Hab'; try discriminate.
      destruct (String.compare b c) eqn:Hbc'; try discriminate.
      apply OrderedTypeEx.String_as_OT.cmp_lt in Hab', Hbc'.
      pose proof (OrderedTypeEx.String_as_OT.lt_trans _ _ _ Hab' Hbc') as Hac.
      pose proof (OrderedTypeEx.String_as_OT.lt_trans _ _ _ Hac Hca) as Haa.
      apply OrderedTypeEx.String_as_OT.cmp_lt in Haa.
      unfold OrderedTypeEx.String_as_OT.cmp in Haa.
      assert (String.compare a a = Eq)
        by now apply OrderedTypeEx.String_as_OT.cmp_eq.
      congruence.
Qed.

Lemma ltb_asym (a b : string) : String.ltb a b = true -> String.ltb b a = false.
Proof.
  unfold String.ltb. intros H.
  destruct (String.compare a b) eqn:E; try discriminate.
  rewrite String.compare_antisym, E. reflexivity.
Qed.

Section Sorting.

Context {A : Type} (key : A -> string).

Let before (x y : A) : Prop := String.ltb (key y) (key x) = false.

Lemma insert_asc_perm (x : A) (l : list A) : insert_asc key x l ≡ₚ x :: l.
Proof.
  induction l as [|y l IH]; cbn [insert_asc]; [reflexivity|].
  destruct (String.ltb _ _); [|reflexivity].
  rewrite IH. apply Permutation_swap.
Qed.

Lemma sort_asc_perm (l : list A) : sort_asc key l ≡ₚ l.
Proof.
  induction l as [|x l IH]; [reflexivity|].
  cbn [sort_asc foldr]. rewrite insert_asc_perm. now rewrite IH.
Qed.

Lemma insert_asc_sorted (x : A) (l : list A) :
  StronglySorted before l -> StronglySorted before (insert_asc key x l).
Proof.
  induction 1 as [|y l Hl IH Hy]; cbn [insert_asc].
  - repeat constructor.
  - destruct (String.ltb (key y) (key x)) eqn:E.
    + constructor; [exact IH|].
      rewrite insert_asc_perm. constructor; [|exact Hy].
      now apply ltb_asym.
    + constructor; [now constructor|].
      constructor; [exact E|].
      eapply Forall_impl; [exact Hy|]. intros z Hz. unfold before in *.
      now apply (ltb_false_trans (key x) (key y) (key z)).
Qed.

Lemma sort_asc_sorted (l : list A) : StronglySorted before (sort_asc key l).
Proof.
  induction l as [|x l IH]; [constructor|].
  cbn [sort_asc foldr]. now apply insert_asc_sorted.
Qed.

End Sorting.

Lemma omap_cons {A B} (f : A -> option B) (x : A) (l : list A) :
  omap f (x :: l) = match f x with
                    | Some y => y :: omap f l
                    | None => omap f l
                    end.
Proof. reflexivity. Qed.

(** The timeline after the loop: the entries of the points that were
    analysed, in the order of the points. *)
Lemma loop_timeline (mm : ModelManager.t) (items : list (PointClock * Point)) :
  forall state,
    (fold_left (turn mm) items state).1
    = (state.1
       ++ omap (fun item => match analyse mm item.1 item.2 with
                            | OK e => Some e
                            | Raise _ => None
                            end) items)%list.
Proof.
  induction items as [|item items IH]; intros state.
  - simpl. now rewrite app_nil_r.
  - cbn [fold_left]. rewrite IH. unfold turn. simpl.
    destruct (analyse mm item.1 item.2); simpl;
      [now rewrite <- app_assoc | reflexivity].
Qed.

(** The entry of a point that carries a timestamp carries that
    timestamp. *)
Lemma analyse_timestamp (mm : ModelManager.t) (clock : PointClock)
    (point : Point) (e : TimelineEntry) :
  analyse mm clock point = OK e ->
  entry_timestamp e = default (at_entry clock) (point_timestamp point) /\
  entry_machine_id e = default "unknown" (point_machine_id point).
Proof.
  unfold analyse.
  intros (x & _ & (? & _ & ([flag meta] & _ & [= <-])%ApiFacts.bind_ok)%ApiFacts.bind_ok)%ApiFacts.bind_ok.
  split; reflexivity.
Qed.

Lemma timeline_sorted (mm : ModelManager.t) (clocks : nat -> PointClock)
    (points : list Point) :
  Forall (fun point => is_Some (point_timestamp point)) points ->
  StronglySorted
    (fun x y => String.ltb (default "" (point_timestamp y))
                  (default "" (point_timestamp x)) = false) points ->
  chronological
    (omap (fun item => match analyse mm item.1 item.2 with
                       | OK e => Some e
                       | Raise _ => None
                       end)
       (imap (fun i point => (clocks i, point)) points)).
Proof.
  intros Hall Hsorted. revert clocks.
  induction Hsorted as [|x l Hl IH Hx]; intros clocks; [constructor|].
  apply Forall_cons in Hall as [[tx Hx_time] Hall].
  cbn [imap]. rewrite omap_cons. cbn [fst snd].
  specialize (IH Hall (clocks ∘ S)).
  destruct (analyse mm (clocks 0%nat) x) as [e|] eqn:He; [|exact IH].
  constructor; [exact IH|].
  apply Forall_forall. intros e' He'.
  apply list_elem_of_omap in He' as ([clock y] & Hy & Hana).
  apply list_elem_of_lookup in Hy as [i Hy].
  rewrite list_lookup_imap in Hy.
  destruct (l !! i) as [y'|] eqn:Hl_i; [|discriminate].
  cbn in Hy. injection Hy as <- <-.
  cbn [fst snd] in Hana.
  destruct (analyse mm _ y') as [e''|] eqn:He''; [|discriminate].
  injection Hana as ->.
  apply analyse_timestamp in He as [-> _].
  apply analyse_timestamp in He'' as [-> _].
  rewrite Forall_forall in Hx.
  assert (Hy_in : y' ∈ l) by (eapply list_elem_of_lookup_2, Hl_i).
  specialize (Hx _ Hy_in).
  rewrite Forall_forall in Hall. destruct (Hall _ Hy_in) as [ty Hy_time].
  rewrite Hx_time, Hy_time in *. exact Hx.
Qed.

(** X26. When every point of a [/trend-analysis] request carries a
    timestamp, the timeline is in the order of time, whatever the order of
    the request: no entry is followed by one with a smaller timestamp. *)
Theorem timeline_in_time_order (mm : ModelManager.t)
    (jsonify : Jsonify TrendPayload) (clocks : nat -> PointClock)
    (response_now : timestamp) (pts : list Point) (window : option Z) :
  Forall (fun point => is_Some (point_timestamp point)) pts ->
  exists p,
    analyze_anomaly_trends mm jsonify clocks response_now
      (Some {| time_series_data := Some pts; window_size := window |})
    = handle_any (respond jsonify p 200%nat) /\
    chronological (anomaly_timeline p).
Proof.
  intros Hall.
  unfold analyze_anomaly_trends. cbn [time_series_data window_size].
  set (key := fun x : Point => default "" (point_timestamp x)).
  pose proof (loop_timeline mm
                (imap (fun i point => (clocks i, point)) (sort_asc key pts))
                ([], [])) as Htl.
  destruct (fold_left _ _ _) as [timeline d]. cbn [fst app] in Htl.
  eexists. split; [reflexivity|]. cbn [anomaly_timeline]. subst timeline.
  apply timeline_sorted.
  - now rewrite sort_asc_perm.
  - apply (sort_asc_sorted key).
Qed.

Lemma timeline_in_time_order_witness :
  exists p,
    analyze_anomaly_trends Fixtures.manager accepts_all
      (fun _ => {| at_entry := "2024-03-01T00:00:00";
                   at_detect := "2024-03-01T00:00:00";
                   at_except := "2024-03-01T00:00:00" |})
      "2024-03-01T00:00:01"
      (Some {| time_series_data :=
                 Some [ {| point_sensor_data := Some (vector Fixtures.ones);
                           point_machine_id := Some "MACHINE-002";
                           point_timestamp := Some "2024-02-01T12:00:00Z" |};
                        {| point_sensor_data := Some (vector Fixtures.ones);
                           point_machine_id := Some "MACHINE-001";
                           point_timestamp := Some "2024-01-01T12:00:00Z" |} ];
               window_size := None |})
    = (Payload p, 200%nat) /\
    map entry_machine_id (anomaly_timeline p) = ["MACHINE-001"; "MACHINE-002"] /\
    chronological (anomaly_timeline p).
Proof.
  destruct (timeline_in_time_order Fixtures.manager accepts_all
              (fun _ => {| at_entry := "2024-03-01T00:00:00";
                           at_detect := "2024-03-01T00:00:00";
                           at_except := "2024-03-01T00:00:00" |})
              "2024-03-01T00:00:01"
              [ {| point_sensor_data := Some (vector Fixtures.ones);
                   point_machine_id := Some "MACHINE-002";
                   point_timestamp := Some "2024-02-01T12:00:00Z" |};
                {| point_sensor_data := Some (vector Fixtures.ones);
                   point_machine_id := Some "MACHINE-001";
                   point_timestamp := Some "2024-01-01T12:00:00Z" |} ]
              None) as (p & Hp & Horder).
  - repeat constructor; eexists; reflexivity.
  - exists p. split_and!; [exact Hp | | exact Horder].
    vm_compute in Hp. injection Hp as <-. reflexivity.
Defined.

End TrendFacts.
(* ===================================================================== *)
(** * The validation handler of the data API *)
(* ===================================================================== *)

Module DataFacts.

Import Np Props ModelManager Http ApiProps DataApi.

Section Validate.

Variables (np_mean np_std : list float -> float).
Variables (np_min np_max : list float -> result float).
Variable format_2f : float -> string.

(** One turn of the feature loop adds the analysis of its feature, and at
    most the zero-variance issue of that feature. *)
Lemma analyse_feature_ok (a : ndarray) (n i : nat) (name : string)
    (fa : list (string * FeatureAnalysis)) (iss recs : list string)
    (st : LoopState) :
  shape_at a 1 = OK n -> (i < n)%nat ->
  analyse_feature np_mean np_std np_min np_max format_2f a (fa, iss, recs)
    (i, name) = OK st ->
  exists analysis recs',
    st = ((fa ++ [(name, analysis)])%list,
          (iss ++ if PrimFloat.eqb (np_std (column a i)) 0
                  then [(name ++ " has zero variance (constant values)")%string]
                  else [])%list,
          recs').
Proof.
  intros Hn Hi. unfold analyse_feature. rewrite Hn.
  cbn [mbind result_bind Py.bind].
  apply Nat.ltb_lt in Hi. rewrite Hi.
  destruct (np_min _) as [lo|]; [|discriminate].
  cbn [mbind result_bind Py.bind].
  destruct (np_max _) as [hi|]; [|discriminate].
  cbn [mbind result_bind Py.bind]. intros [= <-].
  destruct (PrimFloat.eqb _ 0); rewrite ?app_nil_r; eauto.
Qed.

Lemma for_each_analyse (a : ndarray) (n : nat) (items : list (nat * string)) :
  shape_at a 1 = OK n ->
  Forall (fun item => (item.1 < n)%nat) items ->
  forall st st',
    for_each (analyse_feature np_mean np_std np_min np_max format_2f a) items st
    = OK st' ->
    st'.1.1.*1 = (st.1.1.*1 ++ items.*2)%list /\
    st'.1.2
    = (st.1.2
       ++ concat
            (map (fun item =>
                    if PrimFloat.eqb (np_std (column a item.1)) 0
                    then [(item.2 ++ " has zero variance (constant values)")%string]
                    else []) items))%list.
Proof.
  intros Hn. induction 1 as [|[i name] items Hi _ IH]; intros st st'.
  - cbn [for_each]. intros [= <-]. cbn. now rewrite !app_nil_r.
  - cbn [for_each]. destruct st as [[fa iss] recs].
    destruct (analyse_feature np_mean np_std np_min np_max format_2f a
                (fa, iss, recs) (i, name)) as [st1|] eqn:E;
      [|discriminate].
    cbn [mbind result_bind Py.bind]. intros Hrest.
    destruct (analyse_feature_ok a n i name fa iss recs st1 Hn Hi E)
      as (an & recs' & ->).
    destruct (IH _ _ Hrest) as [H1 H2]. cbn [fst snd] in *.
    rewrite H1, H2. rewrite fmap_app. cbn. rewrite <- !app_assoc.
    split; reflexivity.
Qed.

Lemma as_batch_data (a : ndarray) : data (as_batch a) = data a.
Proof. unfold as_batch. destruct (shape a) as [|n [|m r]]; reflexivity. Qed.

Lemma feature_indices :
  Forall (fun item : nat * string => (item.1 < 24)%nat)
    (imap (fun i name => (i, name)) feature_names).
Proof. vm_compute. repeat constructor. Qed.

Lemma feature_indices_names :
  (imap (fun i name => (i, name)) feature_names).*2 = feature_names.
Proof. reflexivity. Qed.

(** X27. Whenever [/validate] answers a payload, the code is 200 and the
    verdict is_valid says that the second axis has 24 entries and that no
    element is NaN or infinite; for an array of one or two axes this is
    exactly when [validate_input_data] of the prediction handlers accepts
    the array.  The quality score is max(0, 100 - 20 * number of issues):
    between 0 and 100, and at most 80 for an array that is not valid.  A
    valid array gets an analysis of each of the 24 features, in the order of
    the feature names. *)
Theorem validate_verdict_and_score (jsonify : Jsonify ValidationResults)
    (now : timestamp) (sensor : ndarray) (p : ValidationResults) (code : nat) :
  validate_sensor_data np_mean np_std np_min np_max format_2f jsonify now
    (Some sensor) = (Payload p, code) ->
  code = 200%nat /\
  (is_valid p = true
   <-> (data_info p).2 = 24%nat /\
       any (isnan sensor) = false /\ any (isinf sensor) = false) /\
  ((length (shape sensor) <= 2)%nat ->
   (is_valid p = true <-> validate_input_data sensor = OK true)) /\
  quality_score p = Z.max 0 (100 - 20 * Z.of_nat (length (issues p))) /\
  0 <= quality_score p <= 100 /\
  (is_valid p = false -> quality_score p <= 80) /\
  (is_valid p = true -> (feature_analysis p).*1 = feature_names).
Proof.
  unfold validate_sensor_data.
  set (batch := if (length (shape sensor) =? 1)%nat then as_batch sensor
                else sensor).
  assert (Hdata : data batch = data sensor)
    by (subst batch; destruct (_ =? _)%nat; [apply as_batch_data | reflexivity]).
  assert (Hnan : any (isnan batch) = any (isnan sensor))
    by (unfold isnan; now rewrite Hdata).
  assert (Hinf : any (isinf batch) = any (isinf sensor))
    by (unfold isinf; now rewrite Hdata).
  destruct (shape_at batch 0) as [n0|] eqn:H0; [|discriminate].
  cbn [mbind result_bind Py.bind].
  destruct (shape_at batch 1) as [n1|] eqn:H1; [|discriminate].
  cbn [mbind result_bind Py.bind].
  rewrite Hnan, Hinf.
  assert (Hlast : (length (shape sensor) <= 2)%nat ->
                  last (shape sensor) = Some n1).
  { clear Hdata Hnan Hinf. revert H0 H1. subst batch.
    unfold shape_at, as_batch.
    destruct (shape sensor) as [|a [|b [|c r]]] eqn:E; cbn; rewrite ?E; cbn;
      intros H0 H1 Hdim; try congruence; lia. }
  set (pre := if negb (n1 =? 24)%nat then _ else _).
  assert (Hpre : pre.1 = (n1 =? 24)%nat /\
                 (pre.1 = false -> pre.2 <> []))
    by (subst pre; destruct (n1 =? 24)%nat; cbn; split; congruence).
  destruct pre as [valid0 issues0]. cbn [fst snd] in Hpre.
  destruct Hpre as [-> Hpre].
  set (pre1 := if any (isnan sensor) then _ else _).
  assert (Hpre1 : pre1.1 = (n1 =? 24)%nat && negb (any (isnan sensor)) /\
                  (pre1.1 = false -> pre1.2 <> []))
    by (subst pre1; destruct (any (isnan sensor)); cbn [fst snd];
        rewrite ?andb_false_r, ?andb_true_r; split; try assumption;
        try reflexivity; intros _; now destruct issues0).
  destruct pre1 as [valid1 issues1]. cbn [fst snd] in Hpre1.
  destruct Hpre1 as [-> Hpre1].
  set (pre2 := if any (isinf sensor) then _ else _).
  assert (Hpre2 : pre2.1 = (n1 =? 24)%nat && negb (any (isnan sensor))
                           && negb (any (isinf sensor)) /\
                  (pre2.1 = false -> pre2.2 <> []))
    by (subst pre2; destruct (any (isinf sensor)); cbn [fst snd];
        rewrite ?andb_false_r, ?andb_true_r; split; try assumption;
        try reflexivity; intros _; now destruct issues1).
  destruct pre2 as [valid2 issues2]. cbn [fst snd] in Hpre2.
  destruct Hpre2 as [-> Hpre2].
  set (loop := if (n1 =? 24)%nat then _ else _).
  destruct loop as [[[fa iss] recs]|] eqn:Hloop; [|discriminate].
  cbn [mbind result_bind Py.bind]. unfold respond.
  destruct (jsonify _) as [u|]; [|discriminate].
  cbn [mbind result_bind Py.bind handle_any]. intros [= <- <-].
  cbn [is_valid issues data_info feature_analysis quality_score snd].
  assert (Hgrow : exists extra, iss = (issues2 ++ extra)%list /\
                    ((n1 =? 24)%nat = true -> fa.*1 = feature_names)).
  { subst loop. destruct (n1 =? 24)%nat eqn:E24.
    - apply Nat.eqb_eq in E24. subst n1.
      destruct (for_each_analyse batch 24 _ H1 feature_indices _ _ Hloop)
        as [Hnames Hiss]. cbn [fst snd] in Hnames, Hiss.
      eexists. split; [exact Hiss|]. intros _. exact Hnames.
    - injection Hloop as <- <- <-. exists []. rewrite app_nil_r.
      split; [reflexivity | discriminate]. }
  destruct Hgrow as (extra & -> & Hnames).
  split; [reflexivity|]. split.
  { rewrite !andb_true_iff, !negb_true_iff, Nat.eqb_eq. tauto. }
  split.
  { intros Hdim. rewrite ApiFacts.validate_input_data_cases, (Hlast Hdim).
    rewrite !andb_true_iff, !negb_true_iff.
    destruct (n1 =? 24)%nat; cbn [negb]; [|split; [intros [[? _] _] | ]; discriminate].
    destruct (any (isnan sensor)); cbn [orb];
      [split; [intros [[_ ?] _] | ]; discriminate|].
    destruct (any (isinf sensor));
      [split; [intros [_ ?] | ]; discriminate|].
    split; [reflexivity | now intros _]. }
  split.
  { destruct (issues2 ++ extra)%list eqn:E; [reflexivity|].
    rewrite <- E. f_equal. lia. }
  split.
  { destruct (issues2 ++ extra)%list; cbn [length]; lia. }
  split.
  { intros Hfalse. specialize (Hpre2 Hfalse).
    destruct issues2 as [|i0 r0]; [congruence|]. cbn [app length]. lia. }
  intros Htrue. apply Hnames.
  now apply andb_true_iff in Htrue as [[H _]%andb_true_iff _].
Qed.

(** The column of a feature in a single sample holds its one value. *)
Lemma column_single (v : list float) (i : nat) :
  (i < length v)%nat ->
  exists x, v !! i = Some x /\
            column {| shape := [1%nat; length v]; data := v |} i = [x].
Proof.
  intros Hi. destruct (lookup_lt_is_Some_2 v i Hi) as [x Hx].
  exists x. split; [exact Hx|].
  unfold column. cbn [shape data foldr seq map concat].
  rewrite app_nil_r, Nat.mul_1_r. cbn [Nat.mul Nat.add].
  now rewrite (drop_S _ _ _ Hx).
Qed.

(** X28. A single valid sample is always scored 0.  For a standard
    deviation that is zero on an array of one finite element, and [np.min]
    and [np.max] that answer on an array of one element, a flat array of 24
    finite values is answered with is_valid true, one zero-variance issue
    for each of the 24 features, and the quality score
    max(0, 100 - 24 * 20) = 0. *)
Theorem single_sample_scores_zero (jsonify : Jsonify ValidationResults)
    (now : timestamp) (v : list float) :
  (forall x, finite x -> PrimFloat.eqb (np_std [x]) 0 = true) ->
  (forall x, exists m, np_min [x] = OK m) ->
  (forall x, exists m, np_max [x] = OK m) ->
  validate_input_data (vector v) = OK true ->
  exists p,
    validate_sensor_data np_mean np_std np_min np_max format_2f jsonify now
      (Some (vector v))
    = handle_any (respond jsonify p 200%nat) /\
    is_valid p = true /\
    issues p = map (fun name => name ++ " has zero variance (constant values)")
                 feature_names /\
    quality_score p = 0 /\
    data_info p = ([1%nat; 24%nat], 1%nat, 24%nat).
Proof.
  intros Hstd Hmin Hmax Hvalid.
  rewrite ApiFacts.validate_input_data_cases in Hvalid.
  cbn [vector shape last] in Hvalid.
  destruct (length v =? 24)%nat eqn:Hlen; [|discriminate].
  apply Nat.eqb_eq in Hlen. cbn [negb] in Hvalid.
  destruct (any (isnan (vector v)) || any (isinf (vector v))) eqn:Hfin;
    [discriminate|].
  apply orb_false_iff in Hfin as [Hnan Hinf].
  unfold validate_sensor_data.
  change (if (length (shape (vector v)) =? 1)%nat then as_batch (vector v)
          else vector v)
    with {| shape := [1%nat; length v]; data := v |}.
  set (batch := {| shape := [1%nat; length v]; data := v |}).
  assert (Hnan' : any (isnan batch) = false) by exact Hnan.
  assert (Hinf' : any (isinf batch) = false) by exact Hinf.
  unfold shape_at. cbn [shape lookup list_lookup].
  change (batch.(shape) !! 0%nat) with (Some 1%nat).
  change (batch.(shape) !! 1%nat) with (Some (length v)).
  cbn [mbind result_bind Py.bind]. rewrite Hnan', Hinf', Hlen.
  cbn [Nat.eqb negb].
  assert (Hstep : forall i name fa iss recs,
             (i < 24)%nat ->
             exists analysis recs',
               analyse_feature np_mean np_std np_min np_max format_2f batch
                 (fa, iss, recs) (i, name)
               = OK ((fa ++ [(name, analysis)])%list,
                     (iss ++ [(name ++ " has zero variance (constant values)")%string])%list,
                     recs')).
  { intros i name fa iss recs Hi. unfold analyse_feature, shape_at.
    change (batch.(shape) !! 1%nat) with (Some (length v)).
    cbn [mbind result_bind Py.bind]. rewrite Hlen.
    apply Nat.ltb_lt in Hi as Hi'. rewrite Hi'.
    destruct (column_single v i) as (x & Hx & Hcol); [lia|].
    fold batch in Hcol. rewrite Hcol.
    destruct (Hmin x) as [lo ->]. cbn [mbind result_bind Py.bind].
    destruct (Hmax x) as [hi ->]. cbn [mbind result_bind Py.bind].
    rewrite Hstd; [eauto|].
    apply list_elem_of_lookup_2 in Hx. split.
    - destruct (PrimFloat.is_nan x) eqn:E; [|reflexivity].
      rewrite (ValidationFacts.any_isnan (vector v) x Hx E) in Hnan.
      discriminate.
    - destruct (PrimFloat.is_infinity x) eqn:E; [|reflexivity].
      rewrite (ValidationFacts.any_isinf (vector v) x Hx E) in Hinf.
      discriminate. }
  assert (Hloop : forall items fa iss recs,
             Forall (fun item : nat * string => (item.1 < 24)%nat) items ->
             exists fa' recs',
               for_each (analyse_feature np_mean np_std np_min np_max format_2f
                           batch) items (fa, iss, recs)
               = OK (fa',
                     (iss ++ map (fun item =>
                                    (item.2
                                     ++ " has zero variance (constant values)")%string)
                               items)%list,
                     recs')).
  { induction items as [|[i name] items IH]; intros fa iss recs Hitems.
    - exists fa, recs. cbn. now rewrite app_nil_r.
    - apply Forall_cons in Hitems as [Hi Hitems]. cbn [fst] in Hi.
      cbn [for_each].
      destruct (Hstep i name fa iss recs Hi) as (an & recs1 & ->).
      cbn [mbind result_bind Py.bind].
      destruct (IH (fa ++ [(name, an)])%list
                  (iss ++ [(name ++ " has zero variance (constant values)")%string])%list
                  recs1 Hitems) as (fa' & recs' & ->).
      exists fa', recs'. cbn [map snd]. now rewrite <- app_assoc. }
  destruct (Hloop _ [] [] [] feature_indices) as (fa' & recs' & ->).
  cbn [mbind result_bind Py.bind app].
  eexists. split; [reflexivity|].
  cbn [is_valid issues quality_score data_info].
  split_and!.
  - reflexivity.
  - reflexivity.
  - reflexivity.
  - unfold batch. cbn [shape]. now rewrite Hlen.
Qed.

End Validate.

Lemma validate_verdict_and_score_witness :
  exists p,
    validate_sensor_data DataFixtures.single_mean DataFixtures.single_std
      DataFixtures.first_or_raise DataFixtures.first_or_raise
      DataFixtures.two_places accepts_all "2024-01-01T00:00:00"
      (Some (vector [1; 2; 3]%float))
    = (Payload p, 200%nat) /\
    is_valid p = false /\ quality_score p = 80.
Proof.
  eexists.
  assert (H : validate_sensor_data DataFixtures.single_mean
                DataFixtures.single_std DataFixtures.first_or_raise
                DataFixtures.first_or_raise DataFixtures.two_places accepts_all
                "2024-01-01T00:00:00" (Some (vector [1; 2; 3]%float))
              = (Payload _, 200%nat)) by (vm_compute; reflexivity).
  destruct (validate_verdict_and_score _ _ _ _ _ _ _ _ _ _ H)
    as (_ & _ & _ & Hscore & _).
  split_and!; [exact H | reflexivity |].
  rewrite Hscore. reflexivity.
Defined.

Lemma single_sample_scores_zero_witness :
  exists p,
    validate_sensor_data DataFixtures.single_mean DataFixtures.single_std
      DataFixtures.first_or_raise DataFixtures.first_or_raise
      DataFixtures.two_places accepts_all "2024-01-01T00:00:00"
      (Some (vector Fixtures.ramp))
    = (Payload p, 200%nat) /\
    is_valid p = true /\ quality_score p = 0.
Proof.
  destruct (single_sample_scores_zero DataFixtures.single_mean
              DataFixtures.single_std DataFixtures.first_or_raise
              DataFixtures.first_or_raise DataFixtures.two_places accepts_all
              "2024-01-01T00:00:00" Fixtures.ramp)
    as (p & Hp & Hvalid & _ & Hscore & _).
  - intros x _. reflexivity.
  - intros x. eexists. reflexivity.
  - intros x. eexists. reflexivity.
  - vm_compute. reflexivity.
  - exists p. split_and!; [exact Hp | exact Hvalid | exact Hscore].
Defined.

End DataFacts.
(* ===================================================================== *)
(** * Global feature importance *)
(* ===================================================================== *)

Module ImportanceFacts.

Import Np Props ModelExplainer Http ApiProps OrderedDict DictFacts.
Import ExplainProps ShapOutputFacts FeatureImportance.

(** The records of one explanation name known features, each once, and are
    at most ten. *)
Lemma explanation_records (self : ModelExplainer.t) (model_type : string)
    (x : ndarray) (d : ShapDict) :
  get_shap_explanation self model_type x 10 = Explained d ->
  NoDup (map shap_feature (shap_feature_importance d)) /\
  Forall (fun f => shap_feature f ∈ feature_names) (shap_feature_importance d) /\
  (length (shap_feature_importance d) <= 10)%nat.
Proof.
  intros (values & base & _ & ->)%shap_explained_inv.
  pose proof (slice_to_sublist (ranked values) 10) as Hsub.
  assert (Hnd : NoDup (map shap_feature (ranked values))).
  { rewrite (ranked_perm values), record_names.
    apply (sublist_NoDup _ feature_names feature_names_NoDup), zip_names_sublist. }
  split_and!.
  - apply (sublist_NoDup _ _ Hnd). now apply (fmap_sublist shap_feature).
  - apply Forall_forall. intros f Hf. apply (ranked_names_known values).
    eapply elem_of_sublist; eassumption.
  - pose proof (AdditiveFacts.slice_to_length (ranked values) 10). lia.
Qed.

(** The scores after the records of one explanation were collected. *)
Lemma collect_records (rs : list ShapFeature) :
  NoDup (map shap_feature rs) ->
  forall scores : Scores,
    NoDup scores.*1 ->
    let scores' := fold_left collect rs scores in
    NoDup scores'.*1 /\
    (forall key, key ∈ scores'.*1 ->
                 key ∈ scores.*1 \/ key ∈ map shap_feature rs) /\
    (forall key,
        length (default [] (get scores' key))
        = (length (default [] (get scores key))
           + if bool_decide (key ∈ map shap_feature rs) then 1 else 0)%nat) /\
    foldr Nat.add 0%nat (map (fun x => length x.2) scores')
    = (foldr Nat.add 0%nat (map (fun x => length x.2) scores) + length rs)%nat.
Proof.
  induction rs as [|r rs IH]; intros Hnd scores Hscores; cbv zeta.
  - cbn [fold_left map length].
    split_and!; [exact Hscores | intros key Hk; now left | | lia].
    intros key. rewrite bool_decide_eq_false_2 by apply not_elem_of_nil. lia.
  - cbn [map] in Hnd. apply NoDup_cons in Hnd as [Hr Hnd].
    cbn [fold_left].
    assert (H1 : NoDup (collect scores r).*1) by now apply update_NoDup.
    destruct (IH Hnd _ H1) as (Hnd' & Hkeys & Hlen & Hsum).
    cbv zeta in Hnd', Hkeys, Hlen, Hsum.
    split_and!.
    + exact Hnd'.
    + intros key [Hk|Hk]%Hkeys.
      * unfold collect in Hk. rewrite update_keys in Hk.
        case_bool_decide; [now left|].
        apply elem_of_app in Hk as [Hk | ->%list_elem_of_singleton];
          [now left | right; apply list_elem_of_here].
      * right. cbn [map]. now right.
    + intros key. rewrite Hlen. unfold collect at 1.
      destruct (decide (shap_feature r = key)) as [<-|Hne].
      * rewrite get_update_eq.
        match goal with
        | |- context [default [] (Some ?x)] => change (default [] (Some x)) with x
        end.
        cbv beta. rewrite length_app. cbn [length].
        rewrite bool_decide_eq_false_2 by exact Hr.
        rewrite bool_decide_eq_true_2 by apply list_elem_of_here. lia.
      * rewrite get_update_ne by exact Hne.
        destruct (decide (key ∈ map shap_feature rs)) as [Hin|Hout].
        -- rewrite !bool_decide_eq_true_2; [lia | now right | exact Hin].
        -- rewrite !bool_decide_eq_false_2; [lia | | exact Hout].
           cbn [map]. rewrite not_elem_of_cons. split; [congruence | exact Hout].
    + rewrite Hsum. unfold collect.
      rewrite (update_sum (fun l : list float => length l) 1);
        [cbn [length]; lia | reflexivity |].
      intros l. rewrite length_app. reflexivity.
Qed.

(** The scores after some rows: no feature has two entries, every feature
    is known and has between one score and one score per row, and all the
    scores together are at most ten per row. *)
Lemma collect_rows (explainer : ModelExplainer.t) (model_type : string)
    (rows : list (list float)) :
  forall (scores : Scores) (k : nat),
    NoDup scores.*1 ->
    Forall (fun x => x.1 ∈ feature_names /\ (1 <= length x.2 <= k)%nat) scores ->
    (foldr Nat.add 0%nat (map (fun x => length x.2) scores) <= 10 * k)%nat ->
    let scores' := fold_left (collect_row explainer model_type) rows scores in
    NoDup scores'.*1 /\
    Forall (fun x => x.1 ∈ feature_names /\
                     (1 <= length x.2 <= k + length rows)%nat) scores' /\
    (foldr Nat.add 0%nat (map (fun x => length x.2) scores')
     <= 10 * (k + length rows))%nat.
Proof.
  induction rows as [|row rows IH]; intros scores k Hnd Hall Hsum; cbv zeta.
  - cbn [fold_left length]. rewrite Nat.add_0_r. now split_and!.
  - cbn [fold_left length].
    assert (Hstep :
              NoDup (collect_row explainer model_type scores row).*1 /\
              Forall (fun x => x.1 ∈ feature_names /\
                               (1 <= length x.2 <= S k)%nat)
                (collect_row explainer model_type scores row) /\
              (foldr Nat.add 0%nat
                 (map (fun x => length x.2)
                    (collect_row explainer model_type scores row))
               <= 10 * S k)%nat).
    { unfold collect_row.
      destruct (get_shap_explanation explainer model_type (vector row) 10)
        as [d|err] eqn:Hex.
      - destruct (explanation_records _ _ _ _ Hex) as (Hrs & Hknown & Hten).
        destruct (collect_records _ Hrs scores Hnd)
          as (Hnd' & Hkeys & Hlen & Hsum').
        cbv zeta in Hnd', Hkeys, Hlen, Hsum'.
        split_and!; [exact Hnd' | | lia].
        apply Forall_forall. intros [name l] Hin. cbn [fst snd].
        assert (Hname : name ∈ (fold_left collect (shap_feature_importance d)
                                  scores).*1)
          by (apply (list_elem_of_fmap_2 fst) in Hin; exact Hin).
        apply (get_elem_of _ _ _ Hnd') in Hin.
        specialize (Hlen name). rewrite Hin in Hlen.
        cbn [from_option] in Hlen. unfold id in Hlen.
        destruct (get scores name) as [l0|] eqn:Hget.
        + apply (get_elem_of _ _ _ Hnd) in Hget.
          rewrite Forall_forall in Hall. destruct (Hall _ Hget) as [Hk Hb].
          cbn [fst snd] in Hk, Hb.
          cbn [from_option] in Hlen. unfold id in Hlen.
          split; [exact Hk|]. destruct (bool_decide _) in Hlen; lia.
        + apply get_none in Hget.
          destruct (Hkeys name Hname) as [Hold|Hnew]; [contradiction|].
          rewrite bool_decide_eq_true_2 in Hlen by exact Hnew.
          cbn [from_option length] in Hlen. split; [|lia].
          rewrite Forall_forall in Hknown.
          apply list_elem_of_fmap in Hnew as (f & -> & Hf). now apply Hknown.
      - split_and!; [exact Hnd | | lia].
        eapply Forall_impl; [exact Hall|]. intros x [? ?]. split; [assumption|lia]. }
    destruct Hstep as (H1 & H2 & H3).
    destruct (IH _ (S k) H1 H2 H3) as (H4 & H5 & H6). cbv zeta in H4, H5, H6.
    replace (k + S (length rows))%nat with (S k + length rows)%nat by lia.
    now split_and!.
Qed.

Lemma sum_sublist (l k : list nat) :
  l `sublist_of` k -> (foldr Nat.add 0%nat l <= foldr Nat.add 0%nat k)%nat.
Proof. induction 1; cbn [foldr]; lia. Qed.

Section Handler.

Variable generate_synthetic_turbofan_data : nat -> result (list (list float)).
Variables np_mean np_std : list float -> float.

(** X29. What [/feature-importance] averages.  For an admitted model type
    and reference data that could be produced, the answer lists every
    feature at most once and known features only, at most 24 and, for a
    top_n that is not negative, at most top_n.  Only the first 20 rows are
    explained although analysis_samples reports all rows, and a row
    contributes its ten highest ranked features only: samples of a feature
    is between 1 and the number of rows explained, and all samples together
    are at most ten per row explained. *)
Theorem global_importance_counts (explainer : ModelExplainer.t)
    (jsonify : Jsonify ImportancePayload) (now : timestamp)
    (requested : option string) (n : option Z) (rows : list (list float)) :
  default "rul" requested ∈ ["rul"; "failure"] ->
  generate_synthetic_turbofan_data 100 = OK rows ->
  exists p,
    get_feature_importance generate_synthetic_turbofan_data np_mean np_std
      explainer jsonify now (Some {| model_type := requested; top_n := n |})
    = handle_any (respond jsonify p 200%nat) /\
    let explained := Nat.min 20 (length rows) in
    analysis_samples p = length rows /\
    total_features p = 24%nat /\
    NoDup (map feature (global_feature_importance p)) /\
    Forall (fun g => feature g ∈ feature_names /\
                     (1 <= samples g <= explained)%nat)
      (global_feature_importance p) /\
    (foldr Nat.add 0%nat (map samples (global_feature_importance p))
     <= 10 * explained)%nat /\
    (length (global_feature_importance p) <= 24)%nat /\
    (0 <= default 15 n ->
     Z.of_nat (length (global_feature_importance p)) <= default 15 n).
Proof.
  intros Htype Hrows. unfold get_feature_importance.
  cbn [model_type top_n].
  rewrite bool_decide_eq_true_2 by exact Htype. cbn [negb].
  rewrite Hrows. cbn [mbind result_bind Py.bind].
  eexists. split; [reflexivity|]. cbv zeta.
  cbn [analysis_samples total_features global_feature_importance].
  destruct (collect_rows explainer (default "rul" requested) (take 20 rows)
              [] 0%nat) as (Hnd & Hall & Hsum);
    [constructor | constructor | cbn; lia |].
  cbv zeta in Hnd, Hall, Hsum. rewrite length_take in Hall, Hsum.
  cbn [Nat.add] in Hall, Hsum.
  set (scores := fold_left (collect_row explainer (default "rul" requested))
                   (take 20 rows) []) in *.
  set (entries := map _ scores).
  assert (Hfeat : feature <$> entries = scores.*1).
  { subst entries. clear. induction scores as [|[k l] r IH]; [reflexivity|].
    cbn [map fmap list_fmap fst feature]. f_equal. exact IH. }
  assert (Hsamples : map samples entries = map (fun x => length x.2) scores).
  { subst entries. clear. induction scores as [|[k l] r IH]; [reflexivity|].
    cbn [map snd samples]. f_equal. exact IH. }
  assert (Hentries : Forall (fun g => feature g ∈ feature_names /\
                                      (1 <= samples g <= Nat.min 20 (length rows))%nat)
                       entries).
  { subst entries. apply Forall_fmap. eapply Forall_impl; [exact Hall|].
    intros [k l]. cbn. tauto. }
  pose proof (slice_to_sublist (sort_reverse importance entries) (default 15 n))
    as Hsub.
  pose proof (AdditiveFacts.sort_reverse_perm importance entries) as Hperm.
  assert (Hnd' : NoDup (feature <$> slice_to (sort_reverse importance entries)
                                       (default 15 n))).
  { eapply sublist_NoDup; [|apply (fmap_sublist feature), Hsub].
    rewrite Hperm, Hfeat. exact Hnd. }
  assert (Hall' : Forall (fun g => feature g ∈ feature_names /\
                                   (1 <= samples g <= Nat.min 20 (length rows))%nat)
                    (slice_to (sort_reverse importance entries) (default 15 n))).
  { apply Forall_forall. intros g Hg.
    eapply elem_of_sublist in Hg; [|exact Hsub]. rewrite Hperm in Hg.
    rewrite Forall_forall in Hentries. now apply Hentries. }
  split_and!.
  - reflexivity.
  - reflexivity.
  - exact Hnd'.
  - exact Hall'.
  - etransitivity; [apply sum_sublist, (fmap_sublist samples), Hsub|].
    assert (Hp : map samples (sort_reverse importance entries)
                 ≡ₚ map samples entries) by now rewrite Hperm.
    assert (Heq : foldr Nat.add 0%nat (map samples (sort_reverse importance entries))
                  = foldr Nat.add 0%nat (map samples entries)).
    { clear -Hp. induction Hp; cbn [foldr]; lia. }
    change (fmap samples) with (map samples). rewrite Heq, Hsamples. exact Hsum.
  - rewrite <- (length_fmap feature).
    change 24%nat with (length feature_names).
    apply submseteq_length, NoDup_submseteq; [exact Hnd'|].
    intros name (g & -> & Hg)%list_elem_of_fmap.
    rewrite Forall_forall in Hall'. now apply Hall'.
  - apply AdditiveFacts.slice_to_length.
Qed.

End Handler.

Lemma global_importance_counts_witness :
  exists p,
    get_feature_importance (fun _ => OK [Fixtures.ones; Fixtures.ramp])
      DataFixtures.single_mean DataFixtures.single_std Fixtures.explainer
      accepts_all "2024-01-01T00:00:00"
      (Some {| model_type := Some "rul"; top_n := Some 3 |})
    = (Payload p, 200%nat) /\
    analysis_samples p = 2%nat /\
    (length (global_feature_importance p) <= 3)%nat /\
    Forall (fun g => (1 <= samples g <= 2)%nat) (global_feature_importance p).
Proof.
  destruct (global_importance_counts (fun _ => OK [Fixtures.ones; Fixtures.ramp])
              DataFixtures.single_mean DataFixtures.single_std
              Fixtures.explainer accepts_all "2024-01-01T00:00:00"
              (Some "rul") (Some 3) [Fixtures.ones; Fixtures.ramp])
    as (p & Hp & Hn & _ & _ & Hall & _ & _ & Htop).
  - apply list_elem_of_here.
  - reflexivity.
  - exists p. split_and!.
    + exact Hp.
    + exact Hn.
    + cbn [default from_option id] in Htop. lia.
    + eapply Forall_impl; [exact Hall|]. intros g [_ H]. exact H.
Defined.

End ImportanceFacts.

(* ===================================================================== *)
(** * Additive explanations: what is taken from the explainer's answer *)
(* ===================================================================== *)

Module ClassSelectionFacts.

Import Np Props ModelManager ModelExplainer ExplainProps.

(** The contributions selected once the explainer has answered. *)
Lemma selected_contributions_answer (self : ModelExplainer.t)
    (model_type : string) (x : ndarray) (expl : ShapExplainer)
    (scaler : Scaler) (scaled : list float) (answer : shap_values_t) :
  shap_explainers self !! model_type = Some expl ->
  scalers (model_manager self) !! (model_type ++ "_scaler") = Some scaler ->
  transform scaler (data x) = OK scaled ->
  shap_call expl scaled = OK answer ->
  selected_contributions self model_type x
  = (values ← handle_multi_class (process_shap_values answer).1;
     base ← to_float (process_shap_values answer).2;
     OK (values, base)).
Proof.
  intros He Hs Ht Hc. unfold selected_contributions.
  rewrite He, Hs, Ht. cbn [negb bool_decide decide_rel is_Some_dec mbind result_bind Py.bind].
  rewrite (PredictionFacts.getitem_some _ _ _ He).
  cbn [mbind result_bind Py.bind]. now rewrite Hc.
Qed.

(** Every record of a ranked list, cut or not, carries the name of a
    feature and the contribution found at the feature's position. *)
Lemma reported_record_position (values : list float) (stop : Z)
    (f : ShapFeature) :
  f ∈ slice_to (ranked values) stop ->
  exists i, feature_names !! i = Some (shap_feature f) /\
            values !! i = Some (shap_value f).
Proof.
  intros Hf.
  assert (Hr : f ∈ ranked values).
  { eapply elem_of_sublist; [exact Hf | apply ShapOutputFacts.slice_to_sublist]. }
  rewrite (ShapOutputFacts.ranked_perm values) in Hr.
  apply list_elem_of_fmap in Hr as ([name v] & -> & Hin). simpl.
  apply list_elem_of_lookup in Hin as [i Hi].
  apply lookup_zip_with_Some in Hi as (n & w & [= <- <-] & Hn & Hw).
  now exists i.
Qed.

Lemma column_length (j : nat) (rows : list (list float)) : forall col,
  column j rows = OK col -> length col = length rows.
Proof.
  induction rows as [|r rows IH]; simpl; intros col Hcol.
  - now injection Hcol as <-.
  - destruct (r !! j) as [v|]; [|discriminate].
    destruct (column j rows) as [rest|]; [|discriminate].
    injection Hcol as <-. simpl. f_equal. now apply IH.
Qed.

(** An entry of [values[:, j]] is the entry of index [j] of its row. *)
Lemma column_lookup_row (j : nat) (rows : list (list float))
    (col : list float) (i : nat) (c : float) :
  column j rows = OK col -> col !! i = Some c ->
  exists row, rows !! i = Some row /\ row !! j = Some c.
Proof.
  intros Hcol Hc.
  assert (Hi : (i < length rows)%nat).
  { rewrite <- (column_length j rows col Hcol). now apply lookup_lt_Some in Hc. }
  apply lookup_lt_is_Some in Hi as [row Hrow].
  exists row. split; [exact Hrow|].
  now rewrite <- (AdditiveFacts.column_lookup j rows col Hcol i row Hrow).
Qed.

(** [values[:, j]] is defined when every row reaches index [j]. *)
Lemma column_defined (j : nat) (rows : list (list float)) :
  Forall (fun row => (j < length row)%nat) rows ->
  exists col, column j rows = OK col.
Proof.
  induction 1 as [|r rows Hr _ [rest IH]]; simpl.
  - now exists [].
  - apply lookup_lt_is_Some in Hr as [v Hv]. rewrite Hv, IH.
    now exists (v :: rest).
Qed.




(** X30. [get_shap_explanation] adds nothing to the explainer's answer and
    takes nothing from it: when the explainer answers 24 contributions and
    a single base value and the display count is at least 24, the
    contributions returned are the explainer's, reordered, the base value
    is the explainer's, and so the contributions returned, summed exactly
    and added to the base value returned, reconstruct an output within a
    tolerance exactly when the explainer's own answer does. *)
Theorem shap_explanation_preserves_sum
    (self : ModelExplainer.t) (model_type : string) (x : ndarray)
    (max_display : Z) (expl : ShapExplainer) (scaler : Scaler)
    (scaled vals : list float) (b : float) :
  shap_explainers self !! model_type = Some expl ->
  scalers (model_manager self) !! (model_type ++ "_scaler") = Some scaler ->
  transform scaler (data x) = OK scaled ->
  shap_call expl scaled = OK (Explanation (Values1 vals) (Some (Scalar b))) ->
  length vals = 24%nat ->
  24 <= max_display ->
  exists d,
    get_shap_explanation self model_type x max_display = Explained d /\
    base_value d = b /\
    contributions d ≡ₚ zip feature_names vals /\
    map shap_value (shap_feature_importance d) ≡ₚ vals /\
    (exact_sum (map shap_value (shap_feature_importance d)) + F2Q (base_value d)
     == exact_sum vals + F2Q b)%Q /\
    forall (tol : Q) (out : float),
      additive tol (map shap_value (shap_feature_importance d)) (base_value d) out
      <-> additive tol vals b out.
Proof.
  intros He Hs Ht Hc Hlen Hmax.
  destruct (AdditiveFacts.shap_explanation_untruncated self model_type x
              max_display expl scaler scaled vals _ b He Hs Ht Hc
              eq_refl eq_refl Hlen Hmax)
    as (d & Hrun & Hb & Hpairs & Hvals).
  exists d. split_and!; try assumption.
  - rewrite Hb. now rewrite (AdditiveFacts.exact_sum_perm _ _ Hvals).
  - intros tol out. rewrite Hb. split.
    + apply AdditiveFacts.additive_perm. exact Hvals.
    + apply AdditiveFacts.additive_perm. symmetry. exact Hvals.
Qed.

Lemma shap_explanation_preserves_sum_witness :
  exists d,
    get_shap_explanation Fixtures.explainer "rul" (vector Fixtures.ones) 24
    = Explained d /\
    base_value d = 100%float /\
    additive 0 (map shap_value (shap_feature_importance d)) (base_value d) 124.
Proof.
  destruct (shap_explanation_preserves_sum Fixtures.explainer "rul"
              (vector Fixtures.ones) 24 Fixtures.linear_shap
              Fixtures.unit_scaler Fixtures.ones Fixtures.ones 100
              eq_refl eq_refl eq_refl eq_refl eq_refl ltac:(lia))
    as (d & Hrun & Hb & _ & _ & _ & Hadd).
  exists d. split_and!; [exact Hrun | exact Hb |].
  apply Hadd. exact AdditiveFacts.exact_additive_ones.
Defined.

End ClassSelectionFacts.
